(** * CT_classifier: 3D Vision Transformer and MONAI preprocessing

    A shallow embedding of [src/models/vit3d.py],
    [src/data/preprocessing.py] and the data files of
    [src/evaluation/reporting.py].

    Conventions.
    - Python [int] is [Z]; [//] is [Z.div] (both round towards minus
      infinity) with the [ZeroDivisionError] on a zero divisor written out.
    - A Python [float] is modelled by a rational in [Q].  The floats of the
      model classes are stored and compared, with one exception: the
      product [dim * mlp_ratio] that [TransformerBlock] takes the integer
      part of, which is rounded to the nearest double as Python does
      ([float_of], [float_of_int], [float_mul]).  The voxel arithmetic of
      the intensity transform is exact.
    - A raising computation returns [Raise e]; [try/except Exception] is
      [try_except].
    - Random initialisers are recorded by the scheme that filled the
      parameter, not by the numbers drawn. *)

From Stdlib Require Import ZArith QArith Lqa List String Lia.
From stdpp Require Import base option list gmap strings pretty.

Local Open Scope string_scope.
Local Open Scope list_scope.
Local Open Scope Z_scope.

(** ** Python results and exceptions *)

Module Py.

(** The exception classes the two modules can meet.  All of them derive
    from [Exception]. *)
Inductive exn :=
| ZeroDivisionError
| RuntimeError
| ValueError
| TypeError
| KeyError
| IndexError
| AttributeError
| OSError
| LibraryError (cls : string).

Inductive result (A : Type) :=
| Ok (a : A)
| Raise (e : exn).
Arguments Ok {A} a.
Arguments Raise {A} e.

Definition bind {A B} (r : result A) (k : A -> result B) : result B :=
  match r with
  | Ok a => k a
  | Raise e => Raise e
  end.

Definition is_ok {A} (r : result A) : bool :=
  match r with Ok _ => true | Raise _ => false end.

(** [a // b] *)
Definition floordiv (a b : Z) : result Z :=
  if b =? 0 then Raise ZeroDivisionError else Ok (a / b).

(** [int(x)] on a float: truncation towards zero. *)
Definition int_of_float (x : Q) : Z := Z.quot (Qnum x) (Z.pos (Qden x)).

(** Doubles.  [float_of x] is the double nearest to [x]: 53 bits of
    precision, ties to the even significand, gradual underflow below
    [2 ^ -1022].  The exponent is not bounded above: a product beyond the
    largest double would be the width of a layer no machine can hold. *)
Definition round_half_even (n d : Z) : Z :=
  let q := n / d in
  match 2 * (n mod d) ?= d with
  | Lt => q
  | Gt => q + 1
  | Eq => if Z.even q then q else q + 1
  end.

(** [n / (d * 2 ^ e)] as a fraction of integers. *)
Definition scaled (n d e : Z) : Z * Z :=
  if 0 <=? e then (n, d * 2 ^ e) else (n * 2 ^ (- e), d).

(** The exponent of the last bit kept when [n / d] is written with 53
    bits. *)
Definition exponent (n d : Z) : Z :=
  let e := Z.log2 n - Z.log2 d - 52 in
  let '(n0, d0) := scaled n d e in
  Z.max (if n0 / d0 <? 2 ^ 52 then e - 1 else e) (-1074).

Definition significand (n d e : Z) : Z :=
  let '(n1, d1) := scaled n d e in round_half_even n1 d1.

(** [m * 2 ^ e] *)
Definition times_pow2 (m e : Z) : Q :=
  if 0 <=? e then inject_Z (m * 2 ^ e) else Qmake m (Z.to_pos (2 ^ (- e))).

Definition float_of (x : Q) : Q :=
  let n := Z.abs (Qnum x) in
  let d := Z.pos (Qden x) in
  if n =? 0 then 0%Q
  else
    let e := exponent n d in
    times_pow2 (Z.sgn (Qnum x) * significand n d e) e.

(** [float(z)], and [a * b] on floats. *)
Definition float_of_int (z : Z) : Q := float_of (inject_Z z).

Definition float_mul (a b : Q) : Q := float_of (a * b).

(** [[f() for _ in range(n)]] *)
Fixpoint list_comp {A} (n : nat) (f : result A) : result (list A) :=
  match n with
  | O => Ok []
  | S n' => bind f (fun x => bind (list_comp n' f) (fun xs => Ok (x :: xs)))
  end.

End Py.
Import Py.

#[global] Instance result_bind : MBind result :=
  fun A B (k : A -> result B) (r : result A) => Py.bind r k.
#[global] Instance result_ret : MRet result := @Py.Ok.

(** ** torch.nn building blocks *)

Module Torch.

(** How a parameter tensor was last filled. *)
Inductive Init :=
| Constant (c : Q)               (* torch.zeros, nn.init.constant_ *)
| TruncNormal (std : Q)          (* nn.init.trunc_normal_(mean 0, a=-2, b=2) *)
| DefaultKaimingUniform          (* reset_parameters of Linear and ConvNd: weight *)
| DefaultFanInUniform.           (* reset_parameters of Linear and ConvNd: bias *)

Record Param := { shape : list Z; init : Init }.

Definition numel (p : Param) : Z := fold_right Z.mul 1 (shape p).

(** torch refuses to allocate a tensor with a negative dimension. *)
Definition allocatable (s : list Z) : bool := forallb (fun d => 0 <=? d) s.

(** [nn.Parameter(torch.zeros(s))] *)
Definition torch_zeros (s : list Z) : result Param :=
  if allocatable s then Ok {| shape := s; init := Constant 0 |}
  else Raise RuntimeError.

Definition trunc_normal_ (p : Param) (std : Q) : Param :=
  {| shape := shape p; init := TruncNormal std |}.

Definition constant_ (p : Param) (c : Q) : Param :=
  {| shape := shape p; init := Constant c |}.

Record Linear := {
  in_features : Z;
  out_features : Z;
  lin_weight : Param;
  lin_bias : option Param }.

(** [nn.Linear(i, o, bias)]: weight of shape (o, i), bias of shape (o). *)
Definition nn_Linear (i o : Z) (bias : bool) : result Linear :=
  if allocatable [o; i]
  then Ok {| in_features := i; out_features := o;
             lin_weight := {| shape := [o; i]; init := DefaultKaimingUniform |};
             lin_bias := if bias
                         then Some {| shape := [o]; init := DefaultFanInUniform |}
                         else None |}
  else Raise RuntimeError.

Record LayerNorm := {
  normalized_shape : Z;
  ln_weight : Param;
  ln_bias : Param }.

(** [nn.LayerNorm(d)]: created with scale one and bias zero. *)
Definition nn_LayerNorm (d : Z) : result LayerNorm :=
  if allocatable [d]
  then Ok {| normalized_shape := d;
             ln_weight := {| shape := [d]; init := Constant 1 |};
             ln_bias := {| shape := [d]; init := Constant 0 |} |}
  else Raise RuntimeError.

Record Conv3d := {
  in_channels : Z;
  out_channels : Z;
  kernel_size : Z * Z * Z;
  stride : Z * Z * Z;
  conv_weight : Param;
  conv_bias : Param }.

(** [nn.Conv3d(i, o, kernel_size=k, stride=s)]: weight of shape
    (o, i, kd, kh, kw), bias of shape (o). *)
Definition nn_Conv3d (i o : Z) (k s : Z * Z * Z) : result Conv3d :=
  let '(kd, kh, kw) := k in
  if allocatable [o; i; kd; kh; kw]
  then Ok {| in_channels := i; out_channels := o; kernel_size := k; stride := s;
             conv_weight := {| shape := [o; i; kd; kh; kw];
                               init := DefaultKaimingUniform |};
             conv_bias := {| shape := [o]; init := DefaultFanInUniform |} |}
  else Raise RuntimeError.

Record Dropout := { p : Q }.

(** [nn.Dropout(p)] rejects a probability outside [0, 1]. *)
Definition nn_Dropout (q : Q) : result Dropout :=
  if (Qle_bool 0 q && Qle_bool q 1)%bool then Ok {| p := q |}
  else Raise ValueError.

Inductive Activation := GELU | ReLU.

(** A member of [nn.Sequential]. *)
Inductive Layer :=
| L_Linear (l : Linear)
| L_Act (a : Activation)
| L_Dropout (d : Dropout).

End Torch.
Import Torch.

(** ** src/models/vit3d.py *)

Module Vit3d.

(** *** class PatchEmbed3D *)

Record PatchEmbed3D := {
  pe_volume_size : Z * Z * Z;
  pe_patch_size : Z * Z * Z;
  n_patches : Z;
  pe_proj : Conv3d }.

Definition PatchEmbed3D_init (volume_size patch_size : Z * Z * Z)
    (in_channels embed_dim : Z) : result PatchEmbed3D :=
  let '(v0, v1, v2) := volume_size in
  let '(p0, p1, p2) := patch_size in
  q0 ← floordiv v0 p0;
  q1 ← floordiv v1 p1;
  q2 ← floordiv v2 p2;
  proj ← nn_Conv3d in_channels embed_dim patch_size patch_size;
  Ok {| pe_volume_size := volume_size; pe_patch_size := patch_size;
        n_patches := q0 * q1 * q2; pe_proj := proj |}.

(** *** class MultiHeadAttention3D *)

(** [head_dim ** -0.5], kept symbolic: the value is irrational in general. *)
Inductive Scale := InvSqrt (head_dim : Z).

(** Python raises [ZeroDivisionError] for [0 ** -0.5]. *)
Definition pow_minus_half (n : Z) : result Scale :=
  if n =? 0 then Raise ZeroDivisionError else Ok (InvSqrt n).

Record MultiHeadAttention3D := {
  mha_num_heads : Z;
  mha_head_dim : Z;
  mha_scale : Scale;
  mha_qkv : Linear;
  mha_attn_drop : Dropout;
  mha_proj : Linear;
  mha_proj_drop : Dropout }.

Definition MultiHeadAttention3D_init (dim num_heads : Z) (qkv_bias : bool)
    (attn_drop proj_drop : Q) : result MultiHeadAttention3D :=
  head_dim ← floordiv dim num_heads;
  scale ← pow_minus_half head_dim;
  qkv ← nn_Linear dim (dim * 3) qkv_bias;
  ad ← nn_Dropout attn_drop;
  proj ← nn_Linear dim dim true;
  pd ← nn_Dropout proj_drop;
  Ok {| mha_num_heads := num_heads; mha_head_dim := head_dim;
        mha_scale := scale; mha_qkv := qkv; mha_attn_drop := ad;
        mha_proj := proj; mha_proj_drop := pd |}.

(** *** class MLP *)

Record MLP := {
  mlp_fc1 : Linear;
  mlp_act : Activation;
  mlp_fc2 : Linear;
  mlp_drop : Dropout }.

(** [x or d] for an optional int: [None] and [0] are both falsy. *)
Definition py_or (x : option Z) (d : Z) : Z :=
  match x with
  | Some v => if v =? 0 then d else v
  | None => d
  end.

Definition MLP_init (in_features : Z) (hidden_features out_features : option Z)
    (act_layer : Activation) (drop : Q) : result MLP :=
  let out_features := py_or out_features in_features in
  let hidden_features := py_or hidden_features in_features in
  fc1 ← nn_Linear in_features hidden_features true;
  fc2 ← nn_Linear hidden_features out_features true;
  d ← nn_Dropout drop;
  Ok {| mlp_fc1 := fc1; mlp_act := act_layer; mlp_fc2 := fc2; mlp_drop := d |}.

(** *** class TransformerBlock *)

Record TransformerBlock := {
  blk_norm1 : LayerNorm;
  blk_attn : MultiHeadAttention3D;
  blk_norm2 : LayerNorm;
  blk_mlp : MLP }.

(** In [int(dim * mlp_ratio)] the integer is converted to a float, the
    ratio is the double its decimal denotes, and the product is rounded
    before the integer part is taken. *)
Definition TransformerBlock_init (dim num_heads : Z) (mlp_ratio : Q)
    (qkv_bias : bool) (drop attn_drop : Q) : result TransformerBlock :=
  norm1 ← nn_LayerNorm dim;
  attn ← MultiHeadAttention3D_init dim num_heads qkv_bias attn_drop drop;
  norm2 ← nn_LayerNorm dim;
  let mlp_hidden_dim :=
    int_of_float (float_mul (float_of_int dim) (float_of mlp_ratio)) in
  mlp ← MLP_init dim (Some mlp_hidden_dim) None GELU drop;
  Ok {| blk_norm1 := norm1; blk_attn := attn; blk_norm2 := norm2;
        blk_mlp := mlp |}.

(** *** class VisionTransformer3D *)

(** The arguments of [VisionTransformer3D.__init__]. *)
Record Config := {
  volume_size : Z * Z * Z;
  patch_size : Z * Z * Z;
  cfg_in_channels : Z;
  num_classes : Z;
  embed_dim : Z;
  depth : Z;
  num_heads : Z;
  mlp_ratio : Q;
  qkv_bias : bool;
  drop_rate : Q;
  attn_drop_rate : Q;
  use_checkpointing : bool }.

(** The defaults of the signature. *)
Definition default_config : Config := {|
  volume_size := (96, 224, 224);
  patch_size := (16, 16, 16);
  cfg_in_channels := 1;
  num_classes := 18;
  embed_dim := 768;
  depth := 12;
  num_heads := 12;
  mlp_ratio := 4.0;
  qkv_bias := true;
  drop_rate := 0;
  attn_drop_rate := 0;
  use_checkpointing := false |}.

Record VisionTransformer3D := {
  vit_num_classes : Z;
  vit_embed_dim : Z;
  vit_use_checkpointing : bool;
  patch_embed : PatchEmbed3D;
  cls_token : Param;
  pos_embed : Param;
  pos_drop : Dropout;
  blocks : list TransformerBlock;
  norm : LayerNorm;
  head : list Layer }.

(** **** _init_weights *)

(** What [self.modules()] yields: the torch layers, and the containers
    (which are neither [nn.Linear] nor [nn.LayerNorm]). *)
Inductive module :=
| M_Linear (m : Linear)
| M_LayerNorm (m : LayerNorm)
| M_Conv3d (m : Conv3d)
| M_Dropout (m : Dropout)
| M_Act (a : Activation)
| M_Container (class_name : string).

(** The body of the loop [for m in self.modules()]. *)
Definition init_module (m : module) : module :=
  match m with
  | M_Linear l =>
      M_Linear {| in_features := in_features l;
                  out_features := out_features l;
                  lin_weight := trunc_normal_ (lin_weight l) 0.02;
                  lin_bias := match lin_bias l with
                              | Some b => Some (constant_ b 0)
                              | None => None
                              end |}
  | M_LayerNorm n =>
      M_LayerNorm {| normalized_shape := normalized_shape n;
                     ln_bias := constant_ (ln_bias n) 0;
                     ln_weight := constant_ (ln_weight n) 1 |}
  | other => other
  end.

(** In-place visits: the visited object keeps its class. *)
Definition visit_Linear (f : module -> module) (l : Linear) : Linear :=
  match f (M_Linear l) with M_Linear l' => l' | _ => l end.
Definition visit_LayerNorm (f : module -> module) (n : LayerNorm) : LayerNorm :=
  match f (M_LayerNorm n) with M_LayerNorm n' => n' | _ => n end.
Definition visit_Conv3d (f : module -> module) (c : Conv3d) : Conv3d :=
  match f (M_Conv3d c) with M_Conv3d c' => c' | _ => c end.
Definition visit_Dropout (f : module -> module) (d : Dropout) : Dropout :=
  match f (M_Dropout d) with M_Dropout d' => d' | _ => d end.

Definition visit_Layer (f : module -> module) (l : Layer) : Layer :=
  match l with
  | L_Linear l => L_Linear (visit_Linear f l)
  | L_Act a => L_Act a
  | L_Dropout d => L_Dropout (visit_Dropout f d)
  end.

Definition visit_PatchEmbed3D (f : module -> module) (m : PatchEmbed3D) :=
  {| pe_volume_size := pe_volume_size m; pe_patch_size := pe_patch_size m;
     n_patches := n_patches m; pe_proj := visit_Conv3d f (pe_proj m) |}.

Definition visit_MultiHeadAttention3D (f : module -> module)
    (m : MultiHeadAttention3D) :=
  {| mha_num_heads := mha_num_heads m; mha_head_dim := mha_head_dim m;
     mha_scale := mha_scale m;
     mha_qkv := visit_Linear f (mha_qkv m);
     mha_attn_drop := visit_Dropout f (mha_attn_drop m);
     mha_proj := visit_Linear f (mha_proj m);
     mha_proj_drop := visit_Dropout f (mha_proj_drop m) |}.

Definition visit_MLP (f : module -> module) (m : MLP) :=
  {| mlp_fc1 := visit_Linear f (mlp_fc1 m); mlp_act := mlp_act m;
     mlp_fc2 := visit_Linear f (mlp_fc2 m);
     mlp_drop := visit_Dropout f (mlp_drop m) |}.

Definition visit_TransformerBlock (f : module -> module) (m : TransformerBlock) :=
  {| blk_norm1 := visit_LayerNorm f (blk_norm1 m);
     blk_attn := visit_MultiHeadAttention3D f (blk_attn m);
     blk_norm2 := visit_LayerNorm f (blk_norm2 m);
     blk_mlp := visit_MLP f (blk_mlp m) |}.

(** [for m in self.modules(): f(m)] *)
Definition visit_modules (f : module -> module) (self : VisionTransformer3D) :=
  {| vit_num_classes := vit_num_classes self;
     vit_embed_dim := vit_embed_dim self;
     vit_use_checkpointing := vit_use_checkpointing self;
     patch_embed := visit_PatchEmbed3D f (patch_embed self);
     cls_token := cls_token self;
     pos_embed := pos_embed self;
     pos_drop := visit_Dropout f (pos_drop self);
     blocks := map (visit_TransformerBlock f) (blocks self);
     norm := visit_LayerNorm f (norm self);
     head := map (visit_Layer f) (head self) |}.

Definition _init_weights (self : VisionTransformer3D) : VisionTransformer3D :=
  let self :=
    {| vit_num_classes := vit_num_classes self;
       vit_embed_dim := vit_embed_dim self;
       vit_use_checkpointing := vit_use_checkpointing self;
       patch_embed := patch_embed self;
       cls_token := trunc_normal_ (cls_token self) 0.02;
       pos_embed := trunc_normal_ (pos_embed self) 0.02;
       pos_drop := pos_drop self;
       blocks := blocks self;
       norm := norm self;
       head := head self |} in
  visit_modules init_module self.

(** **** __init__ *)

Definition VisionTransformer3D_init (c : Config) : result VisionTransformer3D :=
  pe ← PatchEmbed3D_init (volume_size c) (patch_size c) (cfg_in_channels c)
         (embed_dim c);
  let num_patches := n_patches pe in
  cls ← torch_zeros [1; 1; embed_dim c];
  pos ← torch_zeros [1; num_patches + 1; embed_dim c];
  pdrop ← nn_Dropout (drop_rate c);
  blks ← list_comp (Z.to_nat (depth c))
           (TransformerBlock_init (embed_dim c) (num_heads c) (mlp_ratio c)
              (qkv_bias c) (drop_rate c) (attn_drop_rate c));
  nrm ← nn_LayerNorm (embed_dim c);
  h0 ← nn_Linear (embed_dim c) 256 true;
  h2 ← nn_Dropout 0.5;
  h3 ← nn_Linear 256 (num_classes c) true;
  Ok (_init_weights
        {| vit_num_classes := num_classes c;
           vit_embed_dim := embed_dim c;
           vit_use_checkpointing := use_checkpointing c;
           patch_embed := pe;
           cls_token := cls;
           pos_embed := pos;
           pos_drop := pdrop;
           blocks := blks;
           norm := nrm;
           head := [L_Linear h0; L_Act ReLU; L_Dropout h2; L_Linear h3] |}).

(** **** modules() and parameters() *)

(** The dotted name of a child. *)
Definition child (prefix name : string) : string :=
  if String.eqb prefix "" then name else prefix +:+ "." +:+ name.

Definition modules_PatchEmbed3D (pre : string) (m : PatchEmbed3D)
    : list (string * module) :=
  [(pre, M_Container "PatchEmbed3D"); (child pre "proj", M_Conv3d (pe_proj m))].

Definition modules_MultiHeadAttention3D (pre : string)
    (m : MultiHeadAttention3D) : list (string * module) :=
  [(pre, M_Container "MultiHeadAttention3D");
   (child pre "qkv", M_Linear (mha_qkv m));
   (child pre "attn_drop", M_Dropout (mha_attn_drop m));
   (child pre "proj", M_Linear (mha_proj m));
   (child pre "proj_drop", M_Dropout (mha_proj_drop m))].

Definition modules_MLP (pre : string) (m : MLP) : list (string * module) :=
  [(pre, M_Container "MLP");
   (child pre "fc1", M_Linear (mlp_fc1 m));
   (child pre "act", M_Act (mlp_act m));
   (child pre "fc2", M_Linear (mlp_fc2 m));
   (child pre "drop", M_Dropout (mlp_drop m))].

Definition modules_TransformerBlock (pre : string) (m : TransformerBlock)
    : list (string * module) :=
  (pre, M_Container "TransformerBlock")
  :: (child pre "norm1", M_LayerNorm (blk_norm1 m))
  :: modules_MultiHeadAttention3D (child pre "attn") (blk_attn m)
  ++ (child pre "norm2", M_LayerNorm (blk_norm2 m))
  :: modules_MLP (child pre "mlp") (blk_mlp m).

Definition module_of_Layer (l : Layer) : module :=
  match l with
  | L_Linear l => M_Linear l
  | L_Act a => M_Act a
  | L_Dropout d => M_Dropout d
  end.

(** [self.named_modules()], in registration (pre-)order. *)
Definition named_modules (self : VisionTransformer3D) : list (string * module) :=
  ("", M_Container "VisionTransformer3D")
  :: modules_PatchEmbed3D "patch_embed" (patch_embed self)
  ++ ("pos_drop", M_Dropout (pos_drop self))
  :: ("blocks", M_Container "ModuleList")
  :: concat (imap (fun i b => modules_TransformerBlock (child "blocks" (pretty i)) b)
               (blocks self))
  ++ ("norm", M_LayerNorm (norm self))
  :: ("head", M_Container "Sequential")
  :: imap (fun i l => (child "head" (pretty i), module_of_Layer l)) (head self).

(** The parameters a module registers itself (not those of its children). *)
Definition own_parameters (m : module) : list (string * Param) :=
  match m with
  | M_Linear l =>
      ("weight", lin_weight l)
      :: match lin_bias l with Some b => [("bias", b)] | None => [] end
  | M_LayerNorm n => [("weight", ln_weight n); ("bias", ln_bias n)]
  | M_Conv3d c => [("weight", conv_weight c); ("bias", conv_bias c)]
  | _ => []
  end.

(** [self.named_parameters()] *)
Definition named_parameters (self : VisionTransformer3D) : list (string * Param) :=
  ("cls_token", cls_token self)
  :: ("pos_embed", pos_embed self)
  :: concat (map (fun '(pre, m) =>
                    map (fun '(n, p) => (child pre n, p)) (own_parameters m))
               (named_modules self)).

Definition params_numel (ps : list (string * Param)) : Z :=
  fold_right Z.add 0 (map (fun np => numel np.2) ps).

(** [sum(p.numel() for p in self.parameters())] *)
Definition num_params (self : VisionTransformer3D) : Z :=
  params_numel (named_parameters self).

(** *** The preset factories *)

(** A value passed by keyword. *)
Inductive kwval :=
| K_int (z : Z)
| K_float (q : Q)
| K_bool (b : bool)
| K_size (s : Z * Z * Z).

(** [d.update(other)]: the entries of [other] win. *)
Definition dict_update (d other : gmap string kwval) : gmap string kwval :=
  other ∪ d.

Definition kw_int (kw : gmap string kwval) (k : string) (d : Z) : result Z :=
  match kw !! k with
  | None => Ok d
  | Some (K_int z) => Ok z
  | Some _ => Raise TypeError
  end.

Definition kw_float (kw : gmap string kwval) (k : string) (d : Q) : result Q :=
  match kw !! k with
  | None => Ok d
  | Some (K_float q) => Ok q
  | Some (K_int z) => Ok (inject_Z z)
  | Some _ => Raise TypeError
  end.

Definition kw_bool (kw : gmap string kwval) (k : string) (d : bool) : result bool :=
  match kw !! k with
  | None => Ok d
  | Some (K_bool b) => Ok b
  | Some _ => Raise TypeError
  end.

Definition kw_size (kw : gmap string kwval) (k : string) (d : Z * Z * Z)
    : result (Z * Z * Z) :=
  match kw !! k with
  | None => Ok d
  | Some (K_size s) => Ok s
  | Some _ => Raise TypeError
  end.

Definition init_arg_names : list string :=
  ["volume_size"; "patch_size"; "in_channels"; "num_classes"; "embed_dim";
   "depth"; "num_heads"; "mlp_ratio"; "qkv_bias"; "drop_rate";
   "attn_drop_rate"; "use_checkpointing"].

(** The call of [VisionTransformer3D] with the dictionary [kw] unpacked
    into keyword arguments: an unknown keyword is a [TypeError], a
    missing one takes the default of the signature.  A value of a type
    the constructor cannot use is reported as [TypeError] as well. *)
Definition VisionTransformer3D_call (kw : gmap string kwval)
    : result VisionTransformer3D :=
  if forallb (fun k => bool_decide (k ∈ init_arg_names)) (elements (dom kw))
  then
    vs ← kw_size kw "volume_size" (volume_size default_config);
    ps ← kw_size kw "patch_size" (patch_size default_config);
    ic ← kw_int kw "in_channels" (cfg_in_channels default_config);
    nc ← kw_int kw "num_classes" (num_classes default_config);
    ed ← kw_int kw "embed_dim" (embed_dim default_config);
    dp ← kw_int kw "depth" (depth default_config);
    nh ← kw_int kw "num_heads" (num_heads default_config);
    mr ← kw_float kw "mlp_ratio" (mlp_ratio default_config);
    qb ← kw_bool kw "qkv_bias" (qkv_bias default_config);
    dr ← kw_float kw "drop_rate" (drop_rate default_config);
    ar ← kw_float kw "attn_drop_rate" (attn_drop_rate default_config);
    uc ← kw_bool kw "use_checkpointing" (use_checkpointing default_config);
    VisionTransformer3D_init
      {| volume_size := vs; patch_size := ps; cfg_in_channels := ic;
         num_classes := nc; embed_dim := ed; depth := dp; num_heads := nh;
         mlp_ratio := mr; qkv_bias := qb; drop_rate := dr;
         attn_drop_rate := ar; use_checkpointing := uc |}
  else Raise TypeError.

Definition preset_kwargs (embed_dim depth num_heads : Z) (mlp_ratio : Q)
    (num_classes : Z) (use_checkpointing : bool) : gmap string kwval :=
  <["embed_dim" := K_int embed_dim]>
    (<["depth" := K_int depth]>
       (<["num_heads" := K_int num_heads]>
          (<["mlp_ratio" := K_float mlp_ratio]>
             (<["num_classes" := K_int num_classes]>
                (<["use_checkpointing" := K_bool use_checkpointing]> ∅))))).

Definition vit_tiny_3d (num_classes : Z) (use_checkpointing : bool)
    (kwargs : gmap string kwval) : result VisionTransformer3D :=
  let model_kwargs := preset_kwargs 192 12 3 4.0 num_classes use_checkpointing in
  let model_kwargs := dict_update model_kwargs kwargs in
  VisionTransformer3D_call model_kwargs.

Definition vit_small_3d (num_classes : Z) (use_checkpointing : bool)
    (kwargs : gmap string kwval) : result VisionTransformer3D :=
  let model_kwargs := preset_kwargs 384 12 6 4.0 num_classes use_checkpointing in
  let model_kwargs := dict_update model_kwargs kwargs in
  VisionTransformer3D_call model_kwargs.

Definition vit_base_3d (num_classes : Z) (use_checkpointing : bool)
    (kwargs : gmap string kwval) : result VisionTransformer3D :=
  let model_kwargs := preset_kwargs 768 12 12 4.0 num_classes use_checkpointing in
  let model_kwargs := dict_update model_kwargs kwargs in
  VisionTransformer3D_call model_kwargs.

Definition vit_large_3d (num_classes : Z) (use_checkpointing : bool)
    (kwargs : gmap string kwval) : result VisionTransformer3D :=
  let model_kwargs := preset_kwargs 1024 24 16 4.0 num_classes use_checkpointing in
  let model_kwargs := dict_update model_kwargs kwargs in
  VisionTransformer3D_call model_kwargs.

(** *** The forward pass

    Tensors and the numerical kernels are left abstract.  The state
    threaded through a forward pass is the random generator that dropout
    draws from, and the number of block calls that went through
    [torch.utils.checkpoint.checkpoint].  The kernels are total functions:
    an input that torch rejects (a width the heads do not divide, a batch of
    the wrong shape) is not told apart, so what is stated of the forward
    pass compares two runs on the same input and says nothing on whether
    a run returns. *)

Class TensorOps (T G : Type) := {
  conv3d : Conv3d -> T -> T;
  rearrange_patches : T -> T;          (* 'b e d h w -> b (d h w) e' *)
  linear : Linear -> T -> T;
  layer_norm : LayerNorm -> T -> T;
  activation : Activation -> T -> T;
  tensor_add : T -> T -> T;
  add_param : T -> Param -> T;         (* x + self.pos_embed *)
  cat_cls : Param -> T -> T;           (* cat((cls_token.expand(B,-1,-1), x), dim=1) *)
  split_qkv : Z -> Z -> T -> T * T * T;(* reshape, permute, qkv[0], qkv[1], qkv[2] *)
  transpose_last : T -> T;             (* k.transpose(-2, -1) *)
  matmul : T -> T -> T;
  scale_by : Scale -> T -> T;
  softmax_last : T -> T;
  merge_heads : T -> T;                (* transpose(1, 2).reshape(B, N, C) *)
  select_cls : T -> T;                 (* x[:, 0] *)
  dropout_mask : Q -> T -> G -> T * G  (* dropout in training mode *)
}.

Section Forward.
Context {T G : Type} `{TensorOps T G}.

Record FwdState := { rng : G; checkpoint_calls : nat }.

Definition Fwd (A : Type) : Type := FwdState -> A * FwdState.

#[global] Instance Fwd_ret : MRet Fwd := fun A a s => (a, s).
#[global] Instance Fwd_bind : MBind Fwd :=
  fun A B k c s => let '(a, s') := c s in k a s'.

(** [for b in bs: x = f(b, x)] *)
Fixpoint for_each {A} (f : A -> T -> Fwd T) (bs : list A) (x : T) : Fwd T :=
  match bs with
  | [] => mret x
  | b :: bs' => x' ← f b x; for_each f bs' x'
  end.

(** [nn.Dropout.forward]: the identity outside training mode. *)
Definition Dropout_forward (d : Dropout) (training : bool) (x : T) : Fwd T :=
  if training
  then fun s =>
         let '(y, g) := dropout_mask (p d) x (rng s) in
         (y, {| rng := g; checkpoint_calls := checkpoint_calls s |})
  else mret x.

(** [torch.utils.checkpoint.checkpoint(f, x)] is library code: in the
    forward pass it returns [f(x)] and changes only what is kept for the
    backward pass.  The call is counted, so that the path taken through
    [forward_features] can be observed. *)
Definition checkpoint (f : T -> Fwd T) (x : T) : Fwd T :=
  fun s =>
    let '(y, s') := f x s in
    (y, {| rng := rng s'; checkpoint_calls := S (checkpoint_calls s') |}).

Definition PatchEmbed3D_forward (self : PatchEmbed3D) (x : T) : T :=
  let x := conv3d (pe_proj self) x in
  rearrange_patches x.

Definition MultiHeadAttention3D_forward (self : MultiHeadAttention3D)
    (training : bool) (x : T) : Fwd T :=
  let '(q, k, v) :=
    split_qkv (mha_num_heads self) (mha_head_dim self)
      (linear (mha_qkv self) x) in
  let attn := scale_by (mha_scale self) (matmul q (transpose_last k)) in
  let attn := softmax_last attn in
  attn ← Dropout_forward (mha_attn_drop self) training attn;
  let x := merge_heads (matmul attn v) in
  let x := linear (mha_proj self) x in
  Dropout_forward (mha_proj_drop self) training x.

Definition MLP_forward (self : MLP) (training : bool) (x : T) : Fwd T :=
  let x := linear (mlp_fc1 self) x in
  let x := activation (mlp_act self) x in
  x ← Dropout_forward (mlp_drop self) training x;
  let x := linear (mlp_fc2 self) x in
  Dropout_forward (mlp_drop self) training x.

Definition TransformerBlock_forward (self : TransformerBlock)
    (training : bool) (x : T) : Fwd T :=
  a ← MultiHeadAttention3D_forward (blk_attn self) training
        (layer_norm (blk_norm1 self) x);
  let x := tensor_add x a in
  m ← MLP_forward (blk_mlp self) training (layer_norm (blk_norm2 self) x);
  mret (tensor_add x m).

Definition forward_features (self : VisionTransformer3D) (training : bool)
    (x : T) : Fwd T :=
  let x := PatchEmbed3D_forward (patch_embed self) x in
  let x := cat_cls (cls_token self) x in
  let x := add_param x (pos_embed self) in
  x ← Dropout_forward (pos_drop self) training x;
  x ← (if vit_use_checkpointing self && training
       then for_each (fun block x =>
                        checkpoint (TransformerBlock_forward block training) x)
              (blocks self) x
       else for_each (fun block x => TransformerBlock_forward block training x)
              (blocks self) x);
  let x := layer_norm (norm self) x in
  mret (select_cls x).

Definition Layer_forward (l : Layer) (training : bool) (x : T) : Fwd T :=
  match l with
  | L_Linear l => mret (linear l x)
  | L_Act a => mret (activation a x)
  | L_Dropout d => Dropout_forward d training x
  end.

Definition forward (self : VisionTransformer3D) (training : bool) (x : T)
    : Fwd T :=
  x ← forward_features self training x;
  for_each (fun l x => Layer_forward l training x) (head self) x.

End Forward.

(** The same model with the [use_checkpointing] attribute set to [b]. *)
Definition with_checkpointing (b : bool) (self : VisionTransformer3D) :=
  {| vit_num_classes := vit_num_classes self;
     vit_embed_dim := vit_embed_dim self;
     vit_use_checkpointing := b;
     patch_embed := patch_embed self;
     cls_token := cls_token self;
     pos_embed := pos_embed self;
     pos_drop := pos_drop self;
     blocks := blocks self;
     norm := norm self;
     head := head self |}.

End Vit3d.

(** ** src/data/preprocessing.py *)

Module Preprocessing.

(** *** Tensors and Python objects *)

(** A dense tensor: its shape and its elements in row-major order. *)
Record Tensor := { t_shape : list Z; t_data : list Q }.

Definition ndim (t : Tensor) : Z := Z.of_nat (length (t_shape t)).

Definition count (s : list Z) : nat := Z.to_nat (fold_right Z.mul 1 s).

Definition zeros_tensor (s : list Z) : Tensor :=
  {| t_shape := s; t_data := repeat 0%Q (count s) |}.

(** [torch.zeros(s, dtype=torch.float32)] *)
Definition torch_zeros (s : list Z) : result Tensor :=
  if forallb (fun d => 0 <=? d) s then Ok (zeros_tensor s)
  else Raise RuntimeError.

(** [t.unsqueeze(0)] *)
Definition unsqueeze0 (t : Tensor) : Tensor :=
  {| t_shape := 1 :: t_shape t; t_data := t_data t |}.

(** [t[0, ...]] *)
Definition select0 (t : Tensor) : result Tensor :=
  match t_shape t with
  | [] => Raise IndexError
  | d :: rest =>
      if d <=? 0 then Raise IndexError
      else Ok {| t_shape := rest; t_data := firstn (count rest) (t_data t) |}
  end.

(** [t.shape[0]] *)
Definition shape0 (t : Tensor) : result Z :=
  match t_shape t with
  | [] => Raise IndexError
  | d :: _ => Ok d
  end.

(** The spatial metadata a [MetaTensor] carries. *)
Record Meta := { pixdim : list Q; axcodes : string; filename : string }.

(** The objects that can sit under the key ["image"]. *)
Inductive pyobj :=
| P_str (s : string)
| P_Tensor (t : Tensor)
| P_MetaTensor (t : Tensor) (m : Meta)
| P_other.

(** *** Effects: the log, the directories made and the files written *)

Inductive level := WARNING | ERROR.

Inductive message :=
| UnexpectedChannel (path : string) (actual : list Z)
| ShapeMismatch (actual expected : list Z) (path : string)
| ProcessingError (path : string) (e : exn).

Record World := {
  log : list (level * message);
  dirs : list string;
  files : list (string * string * pyobj) }.

Definition IO (A : Type) : Type := World -> result A * World.

#[global] Instance IO_ret : MRet IO := fun A a w => (Ok a, w).
#[global] Instance IO_bind : MBind IO :=
  fun A B k c w =>
    match c w with
    | (Ok a, w') => k a w'
    | (Raise e, w') => (Raise e, w')
    end.

Definition lift {A} (r : result A) : IO A := fun w => (r, w).

(** [try: body  except Exception as e: handler(e)] *)
Definition try_except {A} (body : IO A) (handler : exn -> IO A) : IO A :=
  fun w =>
    match body w with
    | (Ok a, w') => (Ok a, w')
    | (Raise e, w') => handler e w'
    end.

Definition logger (l : level) (m : message) : IO unit :=
  fun w => (Ok tt, {| log := log w ++ [(l, m)]; dirs := dirs w; files := files w |}).

(** *** The MONAI transforms *)

Inductive Transform :=
| LoadImaged (keys : string) (image_only ensure_channel_first : bool)
    (reader : string)
| EnsureChannelFirstd (keys channel_dim : string)
| Orientationd (keys axcodes : string)
| Spacingd (keys : string) (pixdim : list Q) (mode : string)
    (align_corners : bool)
| ScaleIntensityRanged (keys : string) (a_min a_max b_min b_max : Q)
    (clip : bool)
| Resized (keys : string) (spatial_size : list Z) (mode : string)
| EnsureTyped (keys dtype : string) (track_meta : bool)
| SaveImaged (keys output_dir output_postfix : string)
    (resample separate_folder print_log : bool).

(** Modelled from the spec: the arithmetic of MONAI's intensity transform,
    which is library code outside the repository.  The spec has it clip
    to the configured range and rescale that range linearly; this is the
    library's own order of operations (rescale, then clip to the output
    range), with its guard for an empty input range. *)
Definition scale_intensity_range (a_min a_max b_min b_max : Q) (clip : bool)
    (x : Q) : Q :=
  (if Qeq_bool (a_max - a_min) 0 then x - a_min + b_min
   else
     let y := (x - a_min) / (a_max - a_min) in
     let y := y * (b_max - b_min) + b_min in
     if clip
     then (if Qle_bool y b_min then b_min
           else if Qle_bool b_max y then b_max else y)
     else y)%Q.

(** The step in the spec's words: clip to the configured range, then
    rescale that range linearly onto [0, 1]. *)
Definition clip_to_range (lo hi x : Q) : Q :=
  if Qle_bool x lo then lo else if Qle_bool hi x then hi else x.

Definition clip_then_rescale (lo hi x : Q) : Q :=
  ((clip_to_range lo hi x - lo) / (hi - lo))%Q.

Definition map_tensor (f : Q -> Q) (t : Tensor) : Tensor :=
  {| t_shape := t_shape t; t_data := map f (t_data t) |}.

(** The library kernels that stay abstract: reading a file, the spatial
    transforms, the final cast, and whether a write or a [mkdir] fails. *)
Class MonaiOps := {
  load_image : string -> string -> result pyobj;
  ensure_channel_first : string -> pyobj -> result pyobj;
  orientation : string -> pyobj -> result pyobj;
  spacing : list Q -> string -> bool -> pyobj -> result pyobj;
  resize : list Z -> string -> pyobj -> result pyobj;
  ensure_type : string -> bool -> pyobj -> result pyobj;
  write_error : string -> string -> pyobj -> option exn;
  mkdir_error : string -> option exn
}.

Section Pipeline.
Context `{MonaiOps}.

(** [d[key]] *)
Definition getitem (d : gmap string pyobj) (key : string) : result pyobj :=
  match d !! key with
  | Some v => Ok v
  | None => Raise KeyError
  end.

(** A dictionary transform rewrites the entry under its key. *)
Definition on_key (key : string) (f : pyobj -> result pyobj)
    (d : gmap string pyobj) : IO (gmap string pyobj) :=
  v ← lift (getitem d key);
  v' ← lift (f v);
  mret (<[key := v']> d).

Definition scale_intensity (a_min a_max b_min b_max : Q) (clip : bool)
    (v : pyobj) : result pyobj :=
  let f := scale_intensity_range a_min a_max b_min b_max clip in
  match v with
  | P_Tensor t => Ok (P_Tensor (map_tensor f t))
  | P_MetaTensor t m => Ok (P_MetaTensor (map_tensor f t) m)
  | _ => Raise TypeError
  end.

(** The image writer behind [SaveImaged]. *)
Definition write_image (output_dir postfix : string) (v : pyobj) : IO unit :=
  fun w =>
    match write_error output_dir postfix v with
    | Some e => (Raise e, w)
    | None =>
        (Ok tt, {| log := log w; dirs := dirs w;
                   files := files w ++ [(output_dir, postfix, v)] |})
    end.

(** [SaveImaged] is library code: it writes the entry under its key to
    disk and returns the dictionary it was given. *)
Definition save_image (key output_dir postfix : string)
    (d : gmap string pyobj) : IO (gmap string pyobj) :=
  v ← lift (getitem d key);
  _ ← write_image output_dir postfix v;
  mret d.

Definition apply_transform (t : Transform) (d : gmap string pyobj)
    : IO (gmap string pyobj) :=
  match t with
  | LoadImaged k _ _ reader =>
      on_key k (fun v => match v with
                         | P_str path => load_image reader path
                         | _ => Raise TypeError
                         end) d
  | EnsureChannelFirstd k cd => on_key k (ensure_channel_first cd) d
  | Orientationd k ax => on_key k (orientation ax) d
  | Spacingd k pd mode ac => on_key k (spacing pd mode ac) d
  | ScaleIntensityRanged k a b c e cl => on_key k (scale_intensity a b c e cl) d
  | Resized k sz mode => on_key k (resize sz mode) d
  | EnsureTyped k dt tm => on_key k (ensure_type dt tm) d
  | SaveImaged k dir post _ _ _ => save_image k dir post d
  end.

(** How [Compose] runs one transform: MONAI catches whatever the transform
    raises and raises [RuntimeError] (applying transform ...) from it. *)
Definition run_transform (t : Transform) (d : gmap string pyobj)
    : IO (gmap string pyobj) :=
  try_except (apply_transform t d) (fun _ => lift (Raise RuntimeError)).

(** [Compose(transforms)(data)] *)
Fixpoint Compose (transforms : list Transform) (d : gmap string pyobj)
    : IO (gmap string pyobj) :=
  match transforms with
  | [] => mret d
  | t :: ts => d' ← run_transform t d; Compose ts d'
  end.

(** [l.insert(i, x)] *)
Definition list_insert {A} (i : Z) (x : A) (l : list A) : list A :=
  let n := Z.of_nat (length l) in
  let i := if i <? 0 then Z.max 0 (i + n) else Z.min i n in
  firstn (Z.to_nat i) l ++ x :: skipn (Z.to_nat i) l.

(** [Path.mkdir(parents=True, exist_ok=True)] *)
Definition mkdir (path : string) : IO unit :=
  fun w =>
    match mkdir_error path with
    | Some e => (Raise e, w)
    | None => (Ok tt, {| log := log w; dirs := dirs w ++ [path];
                         files := files w |})
    end.

Definition create_monai_preprocessing_pipeline
    (target_spacing_xyz : list Q) (target_shape_dhw : list Z)
    (clip_hu_min clip_hu_max : Q) (orientation_axcodes : string)
    (save_transformed_path : option string) : IO (list Transform) :=
  let pixdim := target_spacing_xyz in
  let spatial_size := target_shape_dhw in
  let transforms :=
    [ LoadImaged "image" true false "NibabelReader";
      EnsureChannelFirstd "image" "no_channel";
      Orientationd "image" orientation_axcodes;
      Spacingd "image" pixdim "bilinear" true;
      ScaleIntensityRanged "image" clip_hu_min clip_hu_max 0.0 1.0 true;
      Resized "image" spatial_size "area";
      EnsureTyped "image" "float32" false ] in
  match save_transformed_path with
  | Some path =>
      _ ← mkdir path;
      mret (list_insert (-1)
              (SaveImaged "image" path "_transformed" false false true)
              transforms)
  | None => mret transforms
  end.

(** [processed_tensor.as_tensor()] for a [MetaTensor]; afterwards every
    use is a tensor attribute, which any other object lacks. *)
Definition as_tensor (o : pyobj) : result Tensor :=
  match o with
  | P_MetaTensor t _ => Ok t
  | P_Tensor t => Ok t
  | _ => Raise AttributeError
  end.

(** The [if ndim == 3 ... elif ndim == 4 and shape[0] != 1 ...] block. *)
Definition fix_channel_dim (nii_path : string) (t : Tensor) : IO Tensor :=
  if ndim t =? 3 then mret (unsqueeze0 t)
  else if ndim t =? 4
  then
    s0 ← lift (shape0 t);
    if negb (s0 =? 1)
    then
      _ ← logger WARNING (UnexpectedChannel nii_path (t_shape t));
      if 1 <? s0
      then t0 ← lift (select0 t); mret (unsqueeze0 t0)
      else mret t
    else mret t
  else mret t.

(** [t.shape[1:] != target_shape_dhw or t.shape[0] != 1] *)
Definition shape_mismatch (t : Tensor) (target_shape_dhw : list Z)
    : result bool :=
  if negb (bool_decide (skipn 1 (t_shape t) = target_shape_dhw))
  then Ok true
  else s0 ← shape0 t; Ok (negb (s0 =? 1)).

(** [preprocess_ct_volume_monai]; [preprocessing_pipeline] is any
    callable on the data dictionary.  [gc.collect()] has no effect on
    the values and is left out. *)
Definition preprocess_ct_volume_monai (nii_path : string)
    (preprocessing_pipeline : gmap string pyobj -> IO (gmap string pyobj))
    (target_shape_dhw : list Z) : IO Tensor :=
  let data_dict : gmap string pyobj := {[ "image" := P_str nii_path ]} in
  try_except
    (processed_data_dict ← preprocessing_pipeline data_dict;
     processed_tensor ← lift (getitem processed_data_dict "image");
     processed_tensor ← lift (as_tensor processed_tensor);
     processed_tensor ← fix_channel_dim nii_path processed_tensor;
     mismatch ← lift (shape_mismatch processed_tensor target_shape_dhw);
     if (mismatch : bool)
     then
       _ ← logger ERROR (ShapeMismatch (t_shape processed_tensor)
                           (1 :: target_shape_dhw) nii_path);
       lift (torch_zeros (1 :: target_shape_dhw))
     else mret processed_tensor)
    (fun e =>
       _ ← logger ERROR (ProcessingError nii_path e);
       lift (torch_zeros (1 :: target_shape_dhw))).

End Pipeline.

End Preprocessing.

(** ** src/evaluation/reporting.py *)

Module Reporting.

(** *** Python values *)

(** A numpy array: its elements are integers or floats; a zero-dimensional
    array is a single element. *)
#[warnings="-register-all"]
Inductive ndarray :=
| Nd_int (z : Z)
| Nd_float (q : Q)
| Nd_array (items : list ndarray).

(** The values the JSON helpers tell apart.  Dictionary keys are strings;
    a dictionary is the list of its items in insertion order. *)
#[warnings="-register-all"]
Inductive pyval :=
| V_none
| V_bool (b : bool)
| V_int (z : Z)
| V_float (q : Q)
| V_str (s : string)
| V_list (items : list pyval)
| V_dict (items : list (string * pyval))
| V_tuple (items : list pyval)
| V_np_integer (z : Z)
| V_np_floating (q : Q)
| V_ndarray (a : ndarray)
| V_path (p : string)
| V_object (str : string)   (* has a __dict__; [str] is what str(obj) returns *)
| V_opaque (tag : string).  (* any other object without a __dict__ *)

(** [a.tolist()] *)
Fixpoint tolist (a : ndarray) : pyval :=
  match a with
  | Nd_int z => V_int z
  | Nd_float q => V_float q
  | Nd_array items => V_list (map tolist items)
  end.

Definition json_serializable (obj : pyval) : pyval :=
  match obj with
  | V_np_integer z => V_int z
  | V_np_floating q => V_float q
  | V_ndarray a => tolist a
  | V_tuple items => V_list items
  | V_path p => V_str p
  | V_object s => V_str s
  | other => other
  end.

(** The local function [convert_item] of [safe_json_dump]. *)
Fixpoint convert_item (item : pyval) : pyval :=
  match item with
  | V_dict items => V_dict (map (fun kv => (kv.1, convert_item kv.2)) items)
  | V_list items => V_list (map convert_item items)
  | other => json_serializable other
  end.

(** *** Files and the log *)

Inductive content :=
| Csv (rows : list (list (string * pyval)))
| Json (v : pyval)
| Truncated.                (* opened for writing, the dump did not finish *)

Record Disk := {
  written : list (string * content);
  info : list string }.

Definition IO (A : Type) : Type := Disk -> result A * Disk.

#[global] Instance IO_ret : MRet IO := fun A a w => (Ok a, w).
#[global] Instance IO_bind : MBind IO :=
  fun A B k c w =>
    match c w with
    | (Ok a, w') => k a w'
    | (Raise e, w') => (Raise e, w')
    end.

Definition lift {A} (r : result A) : IO A := fun w => (r, w).

Definition logger_info (msg : string) : IO unit :=
  fun w => (Ok tt, {| written := written w; info := info w ++ [msg] |}).

(** What the library calls can fail with: opening a file for writing,
    [json.dump] on a converted value, [DataFrame.to_csv]. *)
Class Library := {
  open_error : string -> option exn;
  json_error : pyval -> option exn;
  to_csv_error : string -> option exn }.

(** [output_dir / name] *)
Definition joinpath (dir name : string) : string := dir +:+ "/" +:+ name.

Section Report.
Context `{Library}.

Definition safe_json_dump (data : pyval) (file_path : string) : IO unit :=
  let converted_data := convert_item data in
  fun w =>
    match open_error file_path with
    | Some e => (Raise e, w)
    | None =>
        match json_error converted_data with
        | Some e =>
            (Raise e, {| written := written w ++ [(file_path, Truncated)];
                         info := info w |})
        | None =>
            (Ok tt, {| written := written w ++ [(file_path, Json converted_data)];
                       info := info w |})
        end
    end.

(** [metrics_df.to_csv(csv_path, index=False)] *)
Definition to_csv (rows : list (list (string * pyval))) (csv_path : string)
    : IO unit :=
  fun w =>
    match to_csv_error csv_path with
    | Some e => (Raise e, w)
    | None => (Ok tt, {| written := written w ++ [(csv_path, Csv rows)];
                         info := info w |})
    end.

(** *** The training history and the configuration *)

(** A metric value: a Python or a numpy number. *)
Inductive number :=
| N_int (z : Z)
| N_float (q : Q)
| N_np_integer (z : Z)
| N_np_floating (q : Q).

(** [float(x)] *)
Definition py_float (x : number) : Q :=
  match x with
  | N_int z => inject_Z z
  | N_float q => q
  | N_np_integer z => inject_Z z
  | N_np_floating q => q
  end.

Definition value_of (x : number) : pyval :=
  match x with
  | N_int z => V_int z
  | N_float q => V_float q
  | N_np_integer z => V_np_integer z
  | N_np_floating q => V_np_floating q
  end.

Record History := {
  train_loss : list Q;
  valid_loss : list Q;
  metrics : list (list (string * number)) }.

(** The attributes of [config] the report reads; [None] where [hasattr]
    is false. *)
Record ReportConfig := {
  output_dir : string;
  model_type : option string;
  pathologies_columns : option (list string);
  training : option (Z * Q);                         (* batch_size, learning_rate *)
  image_processing : option (list Z * list Q) }.     (* target_shape_dhw, target_spacing *)

(** [d[k] = v] *)
Fixpoint dict_set {V} (k : string) (v : V) (d : list (string * V))
    : list (string * V) :=
  match d with
  | [] => [(k, v)]
  | (k', v') :: d' =>
      if String.eqb k' k then (k, v) :: d' else (k', v') :: dict_set k v d'
  end.

(** [d.get(k)] *)
Fixpoint dict_get {V} (d : list (string * V)) (k : string) : option V :=
  match d with
  | [] => None
  | (k', v) :: d' => if String.eqb k' k then Some v else dict_get d' k
  end.

(** [l[i]], with Python's negative indices. *)
Definition py_index {A} (l : list A) (i : Z) : result A :=
  let n := Z.of_nat (length l) in
  let j := if i <? 0 then i + n else i in
  if (0 <=? j) && (j <? n)
  then match nth_error l (Z.to_nat j) with
       | Some x => Ok x
       | None => Raise IndexError
       end
  else Raise IndexError.

(** [float(value)] for a numpy number, the value itself otherwise. *)
Definition cell_value (value : number) : pyval :=
  match value with
  | N_np_integer _ | N_np_floating _ => V_float (py_float value)
  | _ => value_of value
  end.

(** The body of the loop over the epochs: one row of the CSV. *)
Definition metrics_row (epoch : Z) (train_loss valid_loss : Q)
    (metrics : list (string * number)) (best_epoch_idx : Z)
    : list (string * pyval) :=
  let row :=
    [("epoch", V_int (epoch + 1));
     ("train_loss", V_float train_loss);
     ("valid_loss", V_float valid_loss);
     ("is_best", V_bool (epoch =? best_epoch_idx))] in
  fold_left (fun row kv => dict_set kv.1 (cell_value kv.2) row) metrics row.

(** [for epoch, (train_loss, valid_loss, metrics) in enumerate(zip(...))] *)
Fixpoint metrics_rows (epoch : Z) (train_losses valid_losses : list Q)
    (metrics : list (list (string * number))) (best_epoch_idx : Z)
    : list (list (string * pyval)) :=
  match train_losses, valid_losses, metrics with
  | t :: ts, v :: vs, m :: ms =>
      metrics_row epoch t v m best_epoch_idx
      :: metrics_rows (epoch + 1) ts vs ms best_epoch_idx
  | _, _, _ => []
  end.

Definition summary_stats (history : History) (config : ReportConfig)
    (best_epoch_idx : Z) : result (list (string * pyval)) :=
  best_metrics ← py_index (metrics history) best_epoch_idx;
  best_valid ← py_index (valid_loss history) best_epoch_idx;
  let best_auc :=
    match dict_get best_metrics "roc_auc_macro" with
    | Some x => py_float x
    | None => 0.0%Q
    end in
  final_train ← py_index (train_loss history) (-1);
  final_valid ← py_index (valid_loss history) (-1);
  Ok [("Total Epochs", V_int (Z.of_nat (length (train_loss history))));
      ("Best Epoch", V_int (best_epoch_idx + 1));
      ("Best Validation Loss", V_float best_valid);
      ("Best ROC AUC (Macro)", V_float best_auc);
      ("Final Training Loss", V_float final_train);
      ("Final Validation Loss", V_float final_valid);
      ("Training Time per Epoch (avg)", V_str "Not tracked");
      ("Model Type",
       V_str match model_type config with Some t => t | None => "Unknown" end);
      ("Number of Pathologies",
       match pathologies_columns config with
       | Some cols => V_int (Z.of_nat (length cols))
       | None => V_str "Unknown"
       end);
      ("Batch Size",
       match training config with
       | Some (batch_size, _) => V_int batch_size
       | None => V_str "Unknown"
       end);
      ("Learning Rate",
       match training config with
       | Some (_, learning_rate) => V_float learning_rate
       | None => V_str "Unknown"
       end);
      ("Target Shape (DHW)",
       match image_processing config with
       | Some (shape, _) => V_list (map V_int shape)
       | None => V_str "Unknown"
       end);
      ("Target Spacing (mm)",
       match image_processing config with
       | Some (_, spacing) => V_list (map V_float spacing)
       | None => V_str "Unknown"
       end)].

Definition generate_csv_report (history : History) (config : ReportConfig)
    (best_epoch_idx : Z) : IO unit :=
  let metrics_data :=
    metrics_rows 0 (train_loss history) (valid_loss history) (metrics history)
      best_epoch_idx in
  let csv_path := joinpath (output_dir config) "training_metrics_detailed.csv" in
  _ ← to_csv metrics_data csv_path;
  _ ← logger_info ("Detailed metrics CSV saved to: " +:+ csv_path);
  summary ← lift (summary_stats history config best_epoch_idx);
  let summary_path := joinpath (output_dir config) "training_summary.json" in
  _ ← safe_json_dump (V_dict summary) summary_path;
  logger_info ("Training summary saved to: " +:+ summary_path).

End Report.

(** *** Vocabulary of the statements *)

(** Plain JSON data: [None], booleans, numbers, strings, and lists and
    dictionaries of plain data. *)
Fixpoint plain (v : pyval) : bool :=
  match v with
  | V_none | V_bool _ | V_int _ | V_float _ | V_str _ => true
  | V_list items => forallb plain items
  | V_dict items => forallb (fun kv => plain kv.2) items
  | _ => false
  end.

(** No opaque object, and only plain data inside tuples. *)
Fixpoint convertible (v : pyval) : bool :=
  match v with
  | V_list items => forallb convertible items
  | V_dict items => forallb (fun kv => convertible kv.2) items
  | V_tuple items => forallb plain items
  | V_opaque _ => false
  | _ => true
  end.

(** [i] is a valid (possibly negative) index of [l]. *)
Definition in_range {A} (l : list A) (i : Z) : Prop :=
  - Z.of_nat (length l) <= i < Z.of_nat (length l).

(** The row of an epoch before the metrics are added. *)
Definition fixed_columns (epoch : Z) (train_loss valid_loss : Q)
    (best_epoch_idx : Z) : list (string * pyval) :=
  [("epoch", V_int (epoch + 1));
   ("train_loss", V_float train_loss);
   ("valid_loss", V_float valid_loss);
   ("is_best", V_bool (epoch =? best_epoch_idx))].

(** A run of three epochs, and a history that is empty. *)
Definition sample_history : History :=
  {| train_loss := [0.9; 0.7; 0.6]%Q;
     valid_loss := [1.0; 0.8; 0.85]%Q;
     metrics := [[("roc_auc_macro", N_float 0.6)];
                 [("roc_auc_macro", N_np_floating 0.7); ("epoch", N_int 99)];
                 [("roc_auc_macro", N_float 0.65)]] |}.

Definition empty_history : History :=
  {| train_loss := []; valid_loss := []; metrics := [] |}.

Definition sample_config : ReportConfig :=
  {| output_dir := "out"; model_type := Some "vit_tiny";
     pathologies_columns := Some ["Cardiomegaly"; "Atelectasis"];
     training := Some (2, 0.0001%Q);
     image_processing := None |}.

(** A library whose calls all succeed. *)
Definition sound_library : Library :=
  {| open_error := fun _ => None;
     json_error := fun _ => None;
     to_csv_error := fun _ => None |}.

Definition empty_disk : Disk := {| written := []; info := [] |}.

(** A tuple holding a numpy integer. *)
Definition tuple_of_numpy : pyval := V_tuple [V_np_integer 3].

End Reporting.

Import Vit3d.
Import Preprocessing.

(** ** Vocabulary of the statements *)

(** Configurations every constructor call accepts: positive patch edges,
    non-negative sizes, at least one embedding dimension per head, and
    dropout rates that are probabilities. *)
Definition valid_config (c : Config) : Prop :=
  let '(v0, v1, v2) := volume_size c in
  let '(p0, p1, p2) := patch_size c in
  (0 < p0 /\ 0 < p1 /\ 0 < p2) /\
  (0 <= v0 /\ 0 <= v1 /\ 0 <= v2) /\
  0 <= cfg_in_channels c /\
  0 <= num_classes c /\
  0 < num_heads c <= embed_dim c /\
  (0 <= mlp_ratio c)%Q /\
  (0 <= drop_rate c <= 1)%Q /\
  (0 <= attn_drop_rate c <= 1)%Q.

Definition floor_patches (c : Config) : Z :=
  let '(v0, v1, v2) := volume_size c in
  let '(p0, p1, p2) := patch_size c in
  (v0 / p0) * (v1 / p1) * (v2 / p2).

(** Every patch edge divides the matching volume edge. *)
Definition evenly_divisible (c : Config) : bool :=
  let '(v0, v1, v2) := volume_size c in
  let '(p0, p1, p2) := patch_size c in
  (v0 mod p0 =? 0) && (v1 mod p1 =? 0) && (v2 mod p2 =? 0).

(** [c] with another volume and patch size. *)
Definition with_sizes (v p : Z * Z * Z) (c : Config) : Config :=
  {| volume_size := v; patch_size := p;
     cfg_in_channels := cfg_in_channels c; num_classes := num_classes c;
     embed_dim := embed_dim c; depth := depth c; num_heads := num_heads c;
     mlp_ratio := mlp_ratio c; qkv_bias := qkv_bias c; drop_rate := drop_rate c;
     attn_drop_rate := attn_drop_rate c;
     use_checkpointing := use_checkpointing c |}.

(** The default model on a volume whose depth 100 is not a multiple of 16. *)
Definition ragged_config : Config :=
  with_sizes (100, 224, 224) (16, 16, 16) default_config.

(** The three initialisation schemes the spec names. *)
Definition stated_scheme (i : Init) : Prop :=
  i = TruncNormal 0.02 \/ i = Constant 0 \/ i = Constant 1.

Definition cube32_config : Config :=
  with_sizes (32, 32, 32) (16, 16, 16) default_config.

(** The parameters of a list of modules, and the closed form of the
    total for a configuration. *)
Definition modules_numel (ms : list (string * module)) : Z :=
  fold_right Z.add 0 (map (fun nm => params_numel (own_parameters nm.2)) ms).

Definition linear_params (i o : Z) (bias : bool) : Z :=
  o * i + (if bias then o else 0).

Definition block_params (c : Config) : Z :=
  let e := embed_dim c in
  let h :=
    py_or (Some (int_of_float
                   (float_mul (float_of_int e) (float_of (mlp_ratio c))))) e in
  2 * e + linear_params e (e * 3) (qkv_bias c) + linear_params e e true
  + 2 * e + linear_params e h true + linear_params h e true.

Definition closed_form_params (c : Config) : Z :=
  let e := embed_dim c in
  let '(p0, p1, p2) := patch_size c in
  e + (floor_patches c + 1) * e
  + (e * cfg_in_channels c * p0 * p1 * p2 + e)
  + Z.of_nat (Z.to_nat (depth c)) * block_params c
  + 2 * e
  + linear_params e 256 true
  + linear_params 256 (num_classes c) true.

(** The configuration a preset factory passes on when the caller
    overrides nothing. *)
Definition preset_config (e d h : Z) (r : Q) (nc : Z) (uc : bool) : Config :=
  {| volume_size := (96, 224, 224); patch_size := (16, 16, 16);
     cfg_in_channels := 1; num_classes := nc; embed_dim := e; depth := d;
     num_heads := h; mlp_ratio := r; qkv_bias := true; drop_rate := 0;
     attn_drop_rate := 0; use_checkpointing := uc |}.

(** A model built with a dropout rate other than the head's. *)
Definition dropout_config : Config :=
  {| volume_size := (32, 32, 32); patch_size := (16, 16, 16);
     cfg_in_channels := 1; num_classes := 5; embed_dim := 8; depth := 1;
     num_heads := 2; mlp_ratio := 4.0; qkv_bias := true; drop_rate := 0.1;
     attn_drop_rate := 0; use_checkpointing := false |}.

(** One step of the loop of [_init_weights] on a named module. *)
Definition init_named (nm : string * module) : string * module :=
  (nm.1, init_module nm.2).

(** A computation that draws from the generator and leaves the count of
    checkpointed calls alone. *)
Definition count_free {G A : Type} (f : Fwd (G := G) A) : Prop :=
  forall g, exists y g',
    forall n, f {| rng := g; checkpoint_calls := n |}
              = (y, {| rng := g'; checkpoint_calls := n |}).

Definition is_save (t : Transform) : bool :=
  match t with SaveImaged _ _ _ _ _ _ => true | _ => false end.

(** What a call of [preprocess_ct_volume_monai] that returned [t] and left
    the world [w'] must satisfy: the shape, the zero tensor with a logged
    error for each way of failing, and the processed tensor itself
    otherwise. *)
Definition preprocess_outcome (path : string)
    (pipeline : gmap string pyobj -> IO (gmap string pyobj))
    (target : list Z) (w : World) (t : Tensor) (w' : World) : Prop :=
  t_shape t = 1 :: target /\
  (forall e w1,
     pipeline {[ "image" := P_str path ]} w = (Raise e, w1) ->
     t = zeros_tensor (1 :: target) /\
     log w' = log w1 ++ [(ERROR, ProcessingError path e)]) /\
  (forall d w1,
     pipeline {[ "image" := P_str path ]} w = (Ok d, w1) ->
     d !! "image" = None ->
     t = zeros_tensor (1 :: target) /\
     log w' = log w1 ++ [(ERROR, ProcessingError path KeyError)]) /\
  (forall d w1 v e,
     pipeline {[ "image" := P_str path ]} w = (Ok d, w1) ->
     d !! "image" = Some v -> as_tensor v = Raise e ->
     t = zeros_tensor (1 :: target) /\
     log w' = log w1 ++ [(ERROR, ProcessingError path e)]) /\
  (forall d w1 v t0 t1 w2,
     pipeline {[ "image" := P_str path ]} w = (Ok d, w1) ->
     d !! "image" = Some v -> as_tensor v = Ok t0 ->
     fix_channel_dim path t0 w1 = (Ok t1, w2) ->
     t_shape t1 <> 1 :: target ->
     t = zeros_tensor (1 :: target) /\
     exists m, log w' = log w2 ++ [(ERROR, m)]) /\
  (forall d w1 v t0 t1 w2,
     pipeline {[ "image" := P_str path ]} w = (Ok d, w1) ->
     d !! "image" = Some v -> as_tensor v = Ok t0 ->
     fix_channel_dim path t0 w1 = (Ok t1, w2) ->
     t_shape t1 = 1 :: target ->
     t = t1 /\ w' = w2).

(** Concrete inputs for the examples. *)
Definition empty_world : World := {| log := []; dirs := []; files := [] |}.

Definition two_channel : Tensor :=
  {| t_shape := [2; 1; 1; 2]; t_data := [0.25; 0.5; 0.75; 1]%Q |}.

Definition raw_scan : pyobj :=
  P_MetaTensor {| t_shape := [1; 1; 2]; t_data := [-1000; 400]%Q |}
    {| pixdim := [1; 1; 1]%Q; axcodes := "LPS"; filename := "scan.nii.gz" |}.

(** Library kernels that leave the voxels alone: enough to run a pipeline. *)
Definition plain_ops : MonaiOps := {|
  load_image := fun _ _ => Ok raw_scan;
  ensure_channel_first := fun _ v =>
    match v with
    | P_MetaTensor t m => Ok (P_MetaTensor (unsqueeze0 t) m)
    | _ => Raise ValueError
    end;
  orientation := fun _ v => Ok v;
  spacing := fun _ _ _ v => Ok v;
  resize := fun _ _ v => Ok v;
  ensure_type := fun _ _ v =>
    match v with
    | P_MetaTensor t _ => Ok (P_Tensor t)
    | o => Ok o
    end;
  write_error := fun _ _ _ => None;
  mkdir_error := fun _ => None |}.

(** A pipeline that fails like [LoadImaged] on a missing file. *)
Definition missing_file_pipeline (d : gmap string pyobj) : IO (gmap string pyobj) :=
  fun w => (Raise OSError, w).

(** A pipeline that yields a two-channel volume. *)
Definition two_channel_pipeline (d : gmap string pyobj) : IO (gmap string pyobj) :=
  fun w => (Ok (<["image" := P_Tensor two_channel]> d), w).

(** ** Further vocabulary *)

(** A scan with a voxel at each bound of the range [-1000, 400] and one
    below it, and library kernels whose reader returns it. *)
Definition hu_scan : pyobj :=
  P_MetaTensor {| t_shape := [1; 1; 3]; t_data := [-1000; 400; -1600]%Q |}
    {| pixdim := [1; 1; 1]%Q; axcodes := "LPS"; filename := "scan.nii.gz" |}.

Definition hu_ops : MonaiOps := {|
  load_image := fun _ _ => Ok hu_scan;
  ensure_channel_first := fun _ v =>
    match v with
    | P_MetaTensor t m => Ok (P_MetaTensor (unsqueeze0 t) m)
    | _ => Raise ValueError
    end;
  orientation := fun _ v => Ok v;
  spacing := fun _ _ _ v => Ok v;
  resize := fun _ _ v => Ok v;
  ensure_type := fun _ _ v =>
    match v with
    | P_MetaTensor t _ => Ok (P_Tensor t)
    | o => Ok o
    end;
  write_error := fun _ _ _ => None;
  mkdir_error := fun _ => None |}.

(** What the intensity step makes of a voxel [x]: the clipped and rescaled
    value, inside the unit interval, 0 from the lower bound down and 1 from
    the upper bound up. *)
Definition normalised (lo hi x y : Q) : Prop :=
  (y == clip_then_rescale lo hi x)%Q /\ (0 <= y <= 1)%Q /\
  ((x <= lo)%Q -> (y == 0)%Q) /\ ((hi <= x)%Q -> (y == 1)%Q).

(** A configuration whose patch size has a zero edge. *)
Definition flat_patch_config : Config :=
  with_sizes (96, 224, 224) (16, 0, 16) default_config.

(** Sixteen heads on an embedding of width eight. *)
Definition crowded_config : Config :=
  {| volume_size := (32, 32, 32); patch_size := (16, 16, 16);
     cfg_in_channels := 1; num_classes := 5; embed_dim := 8; depth := 1;
     num_heads := 16; mlp_ratio := 4.0; qkv_bias := true; drop_rate := 0;
     attn_drop_rate := 0; use_checkpointing := false |}.

(** No blocks and no heads. *)
Definition blockless_config : Config :=
  {| volume_size := (32, 32, 32); patch_size := (16, 16, 16);
     cfg_in_channels := 1; num_classes := 5; embed_dim := 8; depth := 0;
     num_heads := 0; mlp_ratio := 4.0; qkv_bias := true; drop_rate := 0;
     attn_drop_rate := 0; use_checkpointing := false |}.

(** Three heads on an embedding of width eight. *)
Definition uneven_heads_config : Config :=
  {| volume_size := (32, 32, 32); patch_size := (16, 16, 16);
     cfg_in_channels := 1; num_classes := 5; embed_dim := 8; depth := 2;
     num_heads := 3; mlp_ratio := 4.0; qkv_bias := false; drop_rate := 0.1;
     attn_drop_rate := 0.2; use_checkpointing := true |}.

(** The arguments that decide how many parameters a model has. *)
Definition same_sizes (c c' : Config) : Prop :=
  volume_size c = volume_size c' /\ patch_size c = patch_size c' /\
  cfg_in_channels c = cfg_in_channels c' /\ num_classes c = num_classes c' /\
  embed_dim c = embed_dim c' /\ Z.to_nat (depth c) = Z.to_nat (depth c') /\
  mlp_ratio c = mlp_ratio c' /\ qkv_bias c = qkv_bias c'.

(** The name and the shape of every parameter. *)
Definition parameter_shapes (self : VisionTransformer3D) : list (string * list Z) :=
  map (fun np => (np.1, shape np.2)) (named_parameters self).

(** [uneven_heads_config] with other heads, dropout and checkpointing. *)
Definition even_heads_config : Config :=
  {| volume_size := (32, 32, 32); patch_size := (16, 16, 16);
     cfg_in_channels := 1; num_classes := 5; embed_dim := 8; depth := 2;
     num_heads := 2; mlp_ratio := 4.0; qkv_bias := false; drop_rate := 0;
     attn_drop_rate := 0; use_checkpointing := false |}.

(** Overrides for the four arguments the presets fix. *)
Definition full_override : gmap string kwval :=
  <["embed_dim" := K_int 8]>
    (<["depth" := K_int 1]>
       (<["num_heads" := K_int 2]> (<["mlp_ratio" := K_float 2.0]> ∅))).

(** A misspelt keyword. *)
Definition misspelt_override : gmap string kwval :=
  <["embed_dims" := K_int 8]> ∅.

(** [w'] is [w] with at most [n] more log records, and nothing else. *)
Definition only_logged (n : nat) (w w' : World) : Prop :=
  dirs w' = dirs w /\ files w' = files w /\
  exists extra, log w' = log w ++ extra /\ (length extra <= n)%nat.

(** A volume without a channel dimension, one with a single channel and one
    with an empty channel dimension. *)
Definition bare_volume : Tensor :=
  {| t_shape := [1; 1; 2]; t_data := [0.25; 0.5]%Q |}.
Definition channel_volume : Tensor :=
  {| t_shape := [1; 1; 1; 2]; t_data := [0.25; 0.5]%Q |}.
Definition empty_channel_volume : Tensor :=
  {| t_shape := [0; 1; 1; 2]; t_data := [] |}.

Definition constant_pipeline (v : pyobj) (d : gmap string pyobj)
    : IO (gmap string pyobj) :=
  fun w => (Ok (<["image" := v]> d), w).

(** Library kernels whose reader finds no file. *)
Definition unreadable_ops : MonaiOps := {|
  load_image := fun _ _ => Raise OSError;
  ensure_channel_first := fun _ v => Ok v;
  orientation := fun _ v => Ok v;
  spacing := fun _ _ _ v => Ok v;
  resize := fun _ _ v => Ok v;
  ensure_type := fun _ _ v => Ok v;
  write_error := fun _ _ _ => None;
  mkdir_error := fun _ => None |}.

(** ** Construction: when it succeeds and what it returns *)

Section InitFacts.

Lemma bind_Ok {A B} (r : result A) (k : A -> result B) (b : B) :
  r ≫= k = Ok b -> exists a, r = Ok a /\ k a = Ok b.
Proof. destruct r as [a|e]; [eauto|discriminate]. Qed.

Lemma allocatable_true (s : list Z) :
  allocatable s = true <-> Forall (fun d => 0 <= d) s.
Proof.
  unfold allocatable. rewrite forallb_forall, Forall_forall.
  split; intros Hs d Hd.
  - apply Z.leb_le, Hs. by apply list_elem_of_In.
  - apply Z.leb_le, Hs. by apply list_elem_of_In.
Qed.

Lemma nn_Dropout_ok (q : Q) :
  (0 <= q <= 1)%Q -> nn_Dropout q = Ok {| p := q |}.
Proof.
  intros [H0 H1]. unfold nn_Dropout.
  apply Qle_bool_iff in H0, H1. by rewrite H0, H1.
Qed.

Lemma nn_Dropout_inv (q : Q) (d : Dropout) :
  nn_Dropout q = Ok d -> d = {| p := q |}.
Proof. unfold nn_Dropout. case_match; congruence. Qed.

Lemma list_comp_Ok {A} (n : nat) (x : A) :
  list_comp n (Ok x) = Ok (repeat x n).
Proof. induction n as [|n IH]; [reflexivity|]. cbn. by rewrite IH. Qed.

Lemma list_comp_inv {A} (n : nat) (f : result A) (l : list A) :
  list_comp n f = Ok l -> Forall (fun x => f = Ok x) l /\ length l = n.
Proof.
  revert l. induction n as [|n IH]; intros l; cbn.
  - intros [= <-]. split; [constructor|reflexivity].
  - destruct f as [x|e]; [|discriminate]. cbn.
    destruct (list_comp n (Ok x)) as [xs|e] eqn:E; [|discriminate].
    cbn. intros [= <-]. destruct (IH xs eq_refl) as [Hall Hlen].
    split; [by constructor|cbn; congruence].
Qed.

Lemma int_of_float_nonneg (q : Q) : (0 <= q)%Q -> 0 <= int_of_float q.
Proof.
  intros Hq. unfold int_of_float. apply Z.quot_pos; [|lia].
  unfold Qle in Hq. cbn in Hq. lia.
Qed.

Lemma round_half_even_nonneg (n d : Z) :
  0 <= n -> 0 < d -> 0 <= round_half_even n d.
Proof.
  intros Hn Hd. unfold round_half_even.
  assert (0 <= n / d) by (apply Z.div_pos; lia).
  destruct (2 * (n mod d) ?= d); [destruct (Z.even (n / d))| |]; lia.
Qed.

Lemma significand_nonneg (n d e : Z) : 0 <= n -> 0 < d -> 0 <= significand n d e.
Proof.
  intros Hn Hd. unfold significand, scaled.
  destruct (0 <=? e) eqn:E.
  - apply Z.leb_le in E. apply round_half_even_nonneg; [exact Hn|].
    assert (0 < 2 ^ e) by (apply Z.pow_pos_nonneg; lia). nia.
  - apply Z.leb_gt in E. apply round_half_even_nonneg; [|exact Hd].
    assert (0 < 2 ^ (- e)) by (apply Z.pow_pos_nonneg; lia). nia.
Qed.

Lemma times_pow2_nonneg (m e : Z) : 0 <= m -> (0 <= times_pow2 m e)%Q.
Proof.
  intros Hm. unfold times_pow2. destruct (0 <=? e) eqn:E.
  - apply Z.leb_le in E. unfold Qle. cbn.
    assert (0 < 2 ^ e) by (apply Z.pow_pos_nonneg; lia). nia.
  - unfold Qle. cbn. lia.
Qed.

Lemma float_of_nonneg (x : Q) : (0 <= x)%Q -> (0 <= float_of x)%Q.
Proof.
  intros Hx. unfold float_of.
  destruct (Z.abs (Qnum x) =? 0); [apply Qle_refl|].
  assert (Hn : 0 <= Qnum x) by (unfold Qle in Hx; cbn in Hx; lia).
  apply times_pow2_nonneg.
  pose proof (significand_nonneg (Z.abs (Qnum x)) (Z.pos (Qden x))
                (exponent (Z.abs (Qnum x)) (Z.pos (Qden x)))
                (Z.abs_nonneg _) (Pos2Z.is_pos _)).
  pose proof (Z.sgn_nonneg (Qnum x)). nia.
Qed.

Lemma hidden_width_nonneg (dim : Z) (r : Q) :
  0 <= dim -> (0 <= r)%Q ->
  0 <= int_of_float (float_mul (float_of_int dim) (float_of r)).
Proof.
  intros Hdim Hr. apply int_of_float_nonneg, float_of_nonneg.
  apply Qmult_le_0_compat; apply float_of_nonneg; [|exact Hr].
  unfold Qle; cbn; lia.
Qed.

Lemma py_or_nonneg (x d : Z) : 0 <= x -> 0 <= d -> 0 <= py_or (Some x) d.
Proof. intros. unfold py_or. case_match; lia. Qed.

Ltac run_ok lem :=
  let x := fresh "x" in
  destruct lem as [x ->]; cbn [mbind result_bind Py.bind].

Lemma nn_Linear_valid (i o : Z) (b : bool) :
  0 <= i -> 0 <= o -> exists l, nn_Linear i o b = Ok l.
Proof.
  intros. unfold nn_Linear.
  rewrite (proj2 (allocatable_true [o; i])) by (repeat constructor; lia).
  eauto.
Qed.

Lemma nn_LayerNorm_valid (d : Z) : 0 <= d -> exists n, nn_LayerNorm d = Ok n.
Proof.
  intros. unfold nn_LayerNorm.
  rewrite (proj2 (allocatable_true [d])) by (repeat constructor; lia).
  eauto.
Qed.

Lemma nn_Dropout_valid (q : Q) : (0 <= q <= 1)%Q -> exists d, nn_Dropout q = Ok d.
Proof. intros. rewrite nn_Dropout_ok by assumption. eauto. Qed.

Lemma torch_zeros_valid (s : list Z) :
  Forall (fun d => 0 <= d) s ->
  Torch.torch_zeros s = Ok {| shape := s; init := Constant 0 |}.
Proof.
  intros Hs. unfold Torch.torch_zeros.
  by rewrite (proj2 (allocatable_true s)).
Qed.

Lemma MultiHeadAttention3D_init_valid (dim nh : Z) (qb : bool) (ar dr : Q) :
  0 < nh <= dim -> (0 <= ar <= 1)%Q -> (0 <= dr <= 1)%Q ->
  exists a, MultiHeadAttention3D_init dim nh qb ar dr = Ok a.
Proof.
  intros Hh Ha Hd. unfold MultiHeadAttention3D_init, floordiv.
  replace (nh =? 0) with false by (symmetry; apply Z.eqb_neq; lia).
  cbn [mbind result_bind Py.bind].
  unfold pow_minus_half.
  assert (0 < dim / nh) by (apply Z.div_str_pos; lia).
  replace (dim / nh =? 0) with false by (symmetry; apply Z.eqb_neq; lia).
  cbn [mbind result_bind Py.bind].
  run_ok (nn_Linear_valid dim (dim * 3) qb ltac:(lia) ltac:(lia)).
  run_ok (nn_Dropout_valid ar Ha).
  run_ok (nn_Linear_valid dim dim true ltac:(lia) ltac:(lia)).
  run_ok (nn_Dropout_valid dr Hd).
  eauto.
Qed.

Lemma MLP_init_valid (dim hid : Z) (act : Activation) (dr : Q) :
  0 <= dim -> 0 <= hid -> (0 <= dr <= 1)%Q ->
  exists m, MLP_init dim (Some hid) None act dr = Ok m.
Proof.
  intros Hdim Hhid Hd. unfold MLP_init.
  change (py_or None dim) with dim.
  pose proof (py_or_nonneg hid dim Hhid Hdim) as Hh.
  run_ok (nn_Linear_valid dim (py_or (Some hid) dim) true Hdim Hh).
  run_ok (nn_Linear_valid (py_or (Some hid) dim) dim true Hh Hdim).
  run_ok (nn_Dropout_valid dr Hd).
  eauto.
Qed.

Lemma TransformerBlock_init_valid (dim nh : Z) (r : Q) (qb : bool) (dr ar : Q) :
  0 < nh <= dim -> (0 <= r)%Q -> (0 <= dr <= 1)%Q -> (0 <= ar <= 1)%Q ->
  exists b, TransformerBlock_init dim nh r qb dr ar = Ok b.
Proof.
  intros Hh Hr Hd Ha. unfold TransformerBlock_init.
  assert (Hdim : 0 <= dim) by lia.
  run_ok (nn_LayerNorm_valid dim Hdim).
  run_ok (MultiHeadAttention3D_init_valid dim nh qb ar dr Hh Ha Hd).
  pose proof (hidden_width_nonneg dim r Hdim Hr) as Hhid.
  run_ok (MLP_init_valid dim _ GELU dr Hdim Hhid Hd).
  eauto.
Qed.

Lemma floor_patches_nonneg (c : Config) :
  valid_config c -> 0 <= floor_patches c.
Proof.
  unfold valid_config, floor_patches.
  destruct (volume_size c) as [[v0 v1] v2], (patch_size c) as [[p0 p1] p2].
  intros ((? & ? & ?) & (? & ? & ?) & _).
  assert (0 <= v0 / p0) by (apply Z.div_pos; lia).
  assert (0 <= v1 / p1) by (apply Z.div_pos; lia).
  assert (0 <= v2 / p2) by (apply Z.div_pos; lia).
  nia.
Qed.

Lemma PatchEmbed3D_init_valid (v p : Z * Z * Z) (ic e : Z) :
  0 < p.1.1 -> 0 < p.1.2 -> 0 < p.2 -> 0 <= ic -> 0 <= e ->
  exists pe, PatchEmbed3D_init v p ic e = Ok pe /\
             n_patches pe = (v.1.1 / p.1.1) * (v.1.2 / p.1.2) * (v.2 / p.2).
Proof.
  destruct v as [[v0 v1] v2], p as [[p0 p1] p2]. cbn [fst snd].
  intros. unfold PatchEmbed3D_init, floordiv.
  replace (p0 =? 0) with false by (symmetry; apply Z.eqb_neq; lia).
  replace (p1 =? 0) with false by (symmetry; apply Z.eqb_neq; lia).
  replace (p2 =? 0) with false by (symmetry; apply Z.eqb_neq; lia).
  cbn [mbind result_bind Py.bind].
  unfold nn_Conv3d.
  rewrite (proj2 (allocatable_true [e; ic; p0; p1; p2]))
    by (repeat constructor; lia).
  cbn [mbind result_bind Py.bind]. eauto.
Qed.

Lemma init_valid (c : Config) :
  valid_config c ->
  exists m,
    VisionTransformer3D_init c = Ok m /\
    n_patches (patch_embed m) = floor_patches c /\
    shape (pos_embed m) = [1; floor_patches c + 1; embed_dim c].
Proof.
  intros Hv. pose proof (floor_patches_nonneg c Hv) as Hn.
  unfold valid_config, floor_patches in *.
  unfold VisionTransformer3D_init.
  destruct (volume_size c) as [[v0 v1] v2], (patch_size c) as [[p0 p1] p2].
  destruct Hv as ((? & ? & ?) & (? & ? & ?) & Hic & Hnc & Hh & Hr & Hd & Ha).
  assert (He : 0 <= embed_dim c) by lia.
  destruct (PatchEmbed3D_init_valid (v0, v1, v2) (p0, p1, p2)
              (cfg_in_channels c) (embed_dim c)) as (pe & -> & Hpe);
    [assumption..|].
  cbn [fst snd] in Hpe. cbn [mbind result_bind Py.bind].
  rewrite (torch_zeros_valid [1; 1; embed_dim c])
    by (repeat constructor; lia).
  cbn [mbind result_bind Py.bind].
  rewrite (torch_zeros_valid [1; n_patches pe + 1; embed_dim c])
    by (repeat constructor; lia).
  cbn [mbind result_bind Py.bind].
  run_ok (nn_Dropout_valid _ Hd).
  run_ok (TransformerBlock_init_valid (embed_dim c) (num_heads c)
            (mlp_ratio c) (qkv_bias c) (drop_rate c) (attn_drop_rate c)
            Hh Hr Hd Ha).
  rewrite list_comp_Ok. cbn [mbind result_bind Py.bind].
  run_ok (nn_LayerNorm_valid _ He).
  run_ok (nn_Linear_valid (embed_dim c) 256 true He ltac:(lia)).
  run_ok (nn_Dropout_valid 0.5 ltac:(split; unfold Qle; cbn; lia)).
  run_ok (nn_Linear_valid 256 (num_classes c) true ltac:(lia) Hnc).
  eexists. split; [reflexivity|]. cbn. rewrite Hpe. split; reflexivity.
Qed.


(** Inversion of the constructors. *)

Lemma nn_Linear_inv (i o : Z) (b : bool) (l : Linear) :
  nn_Linear i o b = Ok l ->
  l = {| in_features := i; out_features := o;
         lin_weight := {| shape := [o; i]; init := DefaultKaimingUniform |};
         lin_bias := if b
                     then Some {| shape := [o]; init := DefaultFanInUniform |}
                     else None |}.
Proof. unfold nn_Linear. case_match; congruence. Qed.

Lemma nn_LayerNorm_inv (d : Z) (n : LayerNorm) :
  nn_LayerNorm d = Ok n ->
  n = {| normalized_shape := d;
         ln_weight := {| shape := [d]; init := Constant 1 |};
         ln_bias := {| shape := [d]; init := Constant 0 |} |}.
Proof. unfold nn_LayerNorm. case_match; congruence. Qed.

Lemma nn_Conv3d_inv (i o kd kh kw : Z) (s : Z * Z * Z) (cv : Conv3d) :
  nn_Conv3d i o (kd, kh, kw) s = Ok cv ->
  cv = {| in_channels := i; out_channels := o; kernel_size := (kd, kh, kw);
          stride := s;
          conv_weight := {| shape := [o; i; kd; kh; kw];
                            init := DefaultKaimingUniform |};
          conv_bias := {| shape := [o]; init := DefaultFanInUniform |} |}.
Proof. unfold nn_Conv3d. case_match; congruence. Qed.

Lemma torch_zeros_inv (s : list Z) (q : Param) :
  Torch.torch_zeros s = Ok q -> q = {| shape := s; init := Constant 0 |}.
Proof. unfold Torch.torch_zeros. case_match; congruence. Qed.

Lemma floordiv_inv (a b q : Z) : floordiv a b = Ok q -> b <> 0 /\ q = a / b.
Proof.
  unfold floordiv. destruct (b =? 0) eqn:E; [discriminate|].
  apply Z.eqb_neq in E. intros [= <-]. done.
Qed.

Lemma pow_minus_half_inv (n : Z) (s : Scale) :
  pow_minus_half n = Ok s -> s = InvSqrt n.
Proof. unfold pow_minus_half. case_match; congruence. Qed.

Ltac inv_step :=
  match goal with
  | H : (_ ≫= _) = Ok _ |- _ =>
      apply bind_Ok in H as (? & ? & H); cbv beta zeta in H
  | H : nn_Linear _ _ _ = Ok _ |- _ => apply nn_Linear_inv in H
  | H : nn_LayerNorm _ = Ok _ |- _ => apply nn_LayerNorm_inv in H
  | H : nn_Conv3d _ _ _ _ = Ok _ |- _ => apply nn_Conv3d_inv in H
  | H : nn_Dropout _ = Ok _ |- _ => apply nn_Dropout_inv in H
  | H : Torch.torch_zeros _ = Ok _ |- _ => apply torch_zeros_inv in H
  | H : floordiv _ _ = Ok _ |- _ => apply floordiv_inv in H as [? H]
  | H : pow_minus_half _ = Ok _ |- _ => apply pow_minus_half_inv in H
  | H : Ok _ = Ok _ |- _ => injection H as H
  end.

Lemma TransformerBlock_init_inv (dim nh : Z) (r : Q) (qb : bool) (dr ar : Q)
    (b : TransformerBlock) :
  TransformerBlock_init dim nh r qb dr ar = Ok b ->
  let h :=
    py_or (Some (int_of_float (float_mul (float_of_int dim) (float_of r))))
      dim in
  b = {| blk_norm1 := {| normalized_shape := dim;
                         ln_weight := {| shape := [dim]; init := Constant 1 |};
                         ln_bias := {| shape := [dim]; init := Constant 0 |} |};
         blk_attn :=
           {| mha_num_heads := nh; mha_head_dim := dim / nh;
              mha_scale := InvSqrt (dim / nh);
              mha_qkv :=
                {| in_features := dim; out_features := dim * 3;
                   lin_weight := {| shape := [dim * 3; dim];
                                    init := DefaultKaimingUniform |};
                   lin_bias := if qb
                               then Some {| shape := [dim * 3];
                                            init := DefaultFanInUniform |}
                               else None |};
              mha_attn_drop := {| p := ar |};
              mha_proj :=
                {| in_features := dim; out_features := dim;
                   lin_weight := {| shape := [dim; dim];
                                    init := DefaultKaimingUniform |};
                   lin_bias := Some {| shape := [dim];
                                       init := DefaultFanInUniform |} |};
              mha_proj_drop := {| p := dr |} |};
         blk_norm2 := {| normalized_shape := dim;
                         ln_weight := {| shape := [dim]; init := Constant 1 |};
                         ln_bias := {| shape := [dim]; init := Constant 0 |} |};
         blk_mlp :=
           {| mlp_fc1 :=
                {| in_features := dim; out_features := h;
                   lin_weight := {| shape := [h; dim];
                                    init := DefaultKaimingUniform |};
                   lin_bias := Some {| shape := [h];
                                       init := DefaultFanInUniform |} |};
              mlp_act := GELU;
              mlp_fc2 :=
                {| in_features := h; out_features := dim;
                   lin_weight := {| shape := [dim; h];
                                    init := DefaultKaimingUniform |};
                   lin_bias := Some {| shape := [dim];
                                       init := DefaultFanInUniform |} |};
              mlp_drop := {| p := dr |} |} |}.
Proof.
  intros Hb h. unfold TransformerBlock_init, MultiHeadAttention3D_init,
    MLP_init in Hb.
  change (py_or None dim) with dim in Hb. fold h in Hb.
  repeat inv_step. subst. reflexivity.
Qed.

Lemma PatchEmbed3D_init_inv (v0 v1 v2 p0 p1 p2 ic e : Z) (pe : PatchEmbed3D) :
  PatchEmbed3D_init (v0, v1, v2) (p0, p1, p2) ic e = Ok pe ->
  (p0 <> 0 /\ p1 <> 0 /\ p2 <> 0) /\
  pe = {| pe_volume_size := (v0, v1, v2); pe_patch_size := (p0, p1, p2);
          n_patches := (v0 / p0) * (v1 / p1) * (v2 / p2);
          pe_proj :=
            {| in_channels := ic; out_channels := e;
               kernel_size := (p0, p1, p2); stride := (p0, p1, p2);
               conv_weight := {| shape := [e; ic; p0; p1; p2];
                                 init := DefaultKaimingUniform |};
               conv_bias := {| shape := [e];
                               init := DefaultFanInUniform |} |} |}.
Proof.
  unfold PatchEmbed3D_init. intros Hpe. repeat inv_step. subst. done.
Qed.

(** What a successful construction returns. *)
Lemma init_inv (c : Config) (m : VisionTransformer3D) :
  VisionTransformer3D_init c = Ok m ->
  exists pe blks,
    PatchEmbed3D_init (volume_size c) (patch_size c) (cfg_in_channels c)
      (embed_dim c) = Ok pe /\
    Forall (fun b => TransformerBlock_init (embed_dim c) (num_heads c)
                       (mlp_ratio c) (qkv_bias c) (drop_rate c)
                       (attn_drop_rate c) = Ok b) blks /\
    length blks = Z.to_nat (depth c) /\
    m = _init_weights
          {| vit_num_classes := num_classes c;
             vit_embed_dim := embed_dim c;
             vit_use_checkpointing := use_checkpointing c;
             patch_embed := pe;
             cls_token := {| shape := [1; 1; embed_dim c]; init := Constant 0 |};
             pos_embed := {| shape := [1; n_patches pe + 1; embed_dim c];
                             init := Constant 0 |};
             pos_drop := {| p := drop_rate c |};
             blocks := blks;
             norm := {| normalized_shape := embed_dim c;
                        ln_weight := {| shape := [embed_dim c];
                                        init := Constant 1 |};
                        ln_bias := {| shape := [embed_dim c];
                                      init := Constant 0 |} |};
             head :=
               [L_Linear
                  {| in_features := embed_dim c; out_features := 256;
                     lin_weight := {| shape := [256; embed_dim c];
                                      init := DefaultKaimingUniform |};
                     lin_bias := Some {| shape := [256];
                                         init := DefaultFanInUniform |} |};
                L_Act ReLU;
                L_Dropout {| p := 0.5 |};
                L_Linear
                  {| in_features := 256; out_features := num_classes c;
                     lin_weight := {| shape := [num_classes c; 256];
                                      init := DefaultKaimingUniform |};
                     lin_bias := Some {| shape := [num_classes c];
                                         init := DefaultFanInUniform |} |}] |}.
Proof.
  unfold VisionTransformer3D_init. intros Hm.
  apply bind_Ok in Hm as (pe & Hpe & Hm). cbv beta zeta in Hm.
  repeat inv_step.
  match goal with H : list_comp _ _ = Ok _ |- _ =>
    apply list_comp_inv in H as [Hall Hlen] end.
  subst. eauto 10.
Qed.

(** Counting parameters. *)

Lemma params_numel_app (l1 l2 : list (string * Param)) :
  params_numel (l1 ++ l2) = params_numel l1 + params_numel l2.
Proof.
  unfold params_numel. induction l1 as [|x l1 IH]; cbn; [reflexivity|].
  rewrite IH. lia.
Qed.

Lemma params_numel_rename (f : string -> string) (ps : list (string * Param)) :
  params_numel (map (fun '(n, q) => (f n, q)) ps) = params_numel ps.
Proof.
  unfold params_numel. induction ps as [|[n q] ps IH]; cbn; [reflexivity|].
  by rewrite IH.
Qed.

Lemma modules_numel_app (l1 l2 : list (string * module)) :
  modules_numel (l1 ++ l2) = modules_numel l1 + modules_numel l2.
Proof.
  unfold modules_numel. induction l1 as [|x l1 IH]; cbn; [reflexivity|].
  rewrite IH. lia.
Qed.

Lemma modules_numel_cons (x : string * module) (l : list (string * module)) :
  modules_numel (x :: l) = params_numel (own_parameters x.2) + modules_numel l.
Proof. reflexivity. Qed.

Lemma num_params_modules (self : VisionTransformer3D) :
  num_params self
  = numel (cls_token self) + numel (pos_embed self)
    + modules_numel (named_modules self).
Proof.
  unfold num_params, named_parameters.
  enough (E : forall ms,
            params_numel
              (concat (map (fun '(pre, m) =>
                              map (fun '(n, q) => (child pre n, q))
                                (own_parameters m)) ms))
            = modules_numel ms).
  { change (?x :: ?y :: ?l) with ([x; y] ++ l).
    rewrite params_numel_app, E. cbn. lia. }
  induction ms as [|[pre m] ms IH]; [reflexivity|].
  cbn [map concat]. rewrite params_numel_app, IH, modules_numel_cons.
  by rewrite (params_numel_rename (child pre)).
Qed.

Lemma modules_numel_blocks (f : nat -> TransformerBlock -> list (string * module))
    (blks : list TransformerBlock) (k : Z) :
  (forall i b, b ∈ blks -> modules_numel (f i b) = k) ->
  modules_numel (concat (imap f blks)) = Z.of_nat (length blks) * k.
Proof.
  revert f. induction blks as [|b blks IH]; intros f Hf; [reflexivity|].
  cbn [imap concat length]. rewrite modules_numel_app.
  rewrite (Hf 0%nat b) by left.
  rewrite IH; [lia|]. intros i b' Hb'. apply Hf. by right.
Qed.

(** [_init_weights] visits every module once, in place. *)

Lemma modules_TransformerBlock_init (pre : string) (b : TransformerBlock) :
  modules_TransformerBlock pre (visit_TransformerBlock init_module b)
  = map init_named (modules_TransformerBlock pre b).
Proof. reflexivity. Qed.

Lemma modules_blocks_init (name : nat -> string) (blks : list TransformerBlock) :
  concat (imap (fun i b => modules_TransformerBlock (name i) b)
            (map (visit_TransformerBlock init_module) blks))
  = map init_named
      (concat (imap (fun i b => modules_TransformerBlock (name i) b) blks)).
Proof.
  revert name. induction blks as [|b blks IH]; intros name; [reflexivity|].
  cbn [map imap concat]. rewrite map_app, modules_TransformerBlock_init.
  f_equal. apply (IH (name ∘ S)).
Qed.

Lemma modules_head_init (name : nat -> string) (ls : list Layer) :
  imap (fun i l => (name i, module_of_Layer l)) (map (visit_Layer init_module) ls)
  = map init_named (imap (fun i l => (name i, module_of_Layer l)) ls).
Proof.
  revert name. induction ls as [|l ls IH]; intros name; [reflexivity|].
  cbn [map imap]. f_equal; [by destruct l|]. apply (IH (name ∘ S)).
Qed.

Lemma named_modules_init_weights (self : VisionTransformer3D) :
  named_modules (_init_weights self) = map init_named (named_modules self).
Proof.
  unfold _init_weights, visit_modules, named_modules.
  cbn [patch_embed pos_drop blocks norm head].
  rewrite modules_blocks_init, modules_head_init.
  repeat (rewrite map_app || rewrite map_cons). reflexivity.
Qed.

Lemma own_parameters_init_numel (m : module) :
  params_numel (own_parameters (init_module m))
  = params_numel (own_parameters m).
Proof. destruct m as [l| | | | |]; try reflexivity. cbn. by destruct (lin_bias l). Qed.

Lemma modules_numel_init (ms : list (string * module)) :
  modules_numel (map init_named ms) = modules_numel ms.
Proof.
  induction ms as [|[n m] ms IH]; [reflexivity|].
  cbn [map]. rewrite !modules_numel_cons, IH.
  cbn [init_named fst snd]. by rewrite own_parameters_init_numel.
Qed.

Lemma block_numel (c : Config) (pre : string) (b : TransformerBlock) :
  TransformerBlock_init (embed_dim c) (num_heads c) (mlp_ratio c) (qkv_bias c)
    (drop_rate c) (attn_drop_rate c) = Ok b ->
  modules_numel (modules_TransformerBlock pre b) = block_params c.
Proof.
  intros Hb. apply TransformerBlock_init_inv in Hb. cbv zeta in Hb. subst b.
  unfold block_params, linear_params.
  set (h := py_or _ _). set (e := embed_dim c).
  unfold modules_TransformerBlock, modules_MultiHeadAttention3D, modules_MLP.
  cbn [blk_norm1 blk_attn blk_norm2 blk_mlp mha_qkv mha_attn_drop mha_proj
       mha_proj_drop mlp_fc1 mlp_act mlp_fc2 mlp_drop app].
  unfold modules_numel, params_numel.
  cbn [map fold_right own_parameters snd lin_weight lin_bias ln_weight ln_bias].
  destruct (qkv_bias c); cbn [map fold_right snd]; unfold numel;
    cbn [shape fold_right]; lia.
Qed.

Lemma num_params_closed_form (c : Config) (m : VisionTransformer3D) :
  VisionTransformer3D_init c = Ok m -> num_params m = closed_form_params c.
Proof.
  intros Hm. apply init_inv in Hm as (pe & blks & Hpe & Hblks & Hlen & ->).
  rewrite num_params_modules, named_modules_init_weights, modules_numel_init.
  unfold closed_form_params, floor_patches.
  destruct (volume_size c) as [[v0 v1] v2], (patch_size c) as [[p0 p1] p2].
  apply PatchEmbed3D_init_inv in Hpe as [_ ->].
  unfold named_modules.
  cbn [patch_embed pos_drop blocks norm head _init_weights visit_modules
       cls_token pos_embed].
  rewrite !modules_numel_cons, modules_numel_app, !modules_numel_cons,
    modules_numel_app.
  rewrite (modules_numel_blocks _ blks (block_params c)).
  2:{ intros i b Hb. rewrite Forall_forall in Hblks.
      apply block_numel, Hblks, Hb. }
  rewrite Hlen. unfold linear_params.
  set (e := embed_dim c). set (bp := block_params c).
  set (n := Z.of_nat (Z.to_nat (depth c))).
  unfold modules_numel, params_numel, numel.
  cbn. lia.
Qed.

End InitFacts.

(** ** Claims about model construction *)

(** Construction with a zero patch edge stops at the first floor division. *)
Lemma zero_patch_raises (c : Config) :
  (let '(p0, p1, p2) := patch_size c in p0 = 0 \/ p1 = 0 \/ p2 = 0) ->
  VisionTransformer3D_init c = Raise ZeroDivisionError.
Proof.
  unfold VisionTransformer3D_init, PatchEmbed3D_init.
  destruct (volume_size c) as [[v0 v1] v2], (patch_size c) as [[p0 p1] p2].
  unfold floordiv.
  destruct (p0 =? 0) eqn:E0; [reflexivity|].
  destruct (p1 =? 0) eqn:E1; [reflexivity|].
  destruct (p2 =? 0) eqn:E2; [reflexivity|].
  apply Z.eqb_neq in E0, E1, E2. lia.
Qed.

(** C2, counterexample.  The default model on a 100 x 224 x 224 volume with
    16 x 16 x 16 patches: 16 does not divide 100, and construction returns a
    model with 6 * 14 * 14 patches instead of raising. *)
Lemma indivisible_volume_constructs :
  evenly_divisible ragged_config = false /\
  exists m, VisionTransformer3D_init ragged_config = Ok m /\
            n_patches (patch_embed m) = 6 * 14 * 14.
Proof.
  split; [reflexivity|]. eexists. split; [vm_compute; reflexivity|reflexivity].
Qed.

(** C2, as amended.  Construction does not check divisibility: for every
    admissible configuration, divisible or not, it returns a model whose
    patch count is the product of the per-axis floor quotients. *)
Theorem construction_floors_patch_count (c : Config) :
  valid_config c ->
  exists m,
    VisionTransformer3D_init c = Ok m /\
    n_patches (patch_embed m) = floor_patches c.
Proof.
  intros Hv. destruct (init_valid c Hv) as (m & Hm & Hn & _). eauto.
Qed.

Lemma ragged_valid : valid_config ragged_config.
Proof. unfold valid_config. cbn. repeat split; try lia; unfold Qle; cbn; lia. Qed.

Lemma construction_floors_patch_count_witness :
  exists m,
    VisionTransformer3D_init ragged_config = Ok m /\
    n_patches (patch_embed m) = floor_patches ragged_config.
Proof. apply (construction_floors_patch_count ragged_config). exact ragged_valid. Defined.

(** C4.  When every volume edge is an exact multiple of the patch edge,
    the patch count is the product of the three ratios and the positional
    table has one more row than there are patches. *)
Theorem patch_count_and_sequence_length (c : Config) (qd qh qw : Z) :
  valid_config c ->
  (let '(v0, v1, v2) := volume_size c in
   let '(p0, p1, p2) := patch_size c in
   v0 = qd * p0 /\ v1 = qh * p1 /\ v2 = qw * p2) ->
  exists m,
    VisionTransformer3D_init c = Ok m /\
    n_patches (patch_embed m) = qd * qh * qw /\
    shape (pos_embed m) = [1; qd * qh * qw + 1; embed_dim c].
Proof.
  intros Hv Hdiv. destruct (init_valid c Hv) as (m & Hm & Hn & Hp).
  exists m. split; [exact Hm|].
  assert (E : floor_patches c = qd * qh * qw).
  { unfold floor_patches, valid_config in *.
    destruct (volume_size c) as [[v0 v1] v2], (patch_size c) as [[p0 p1] p2].
    destruct Hdiv as (-> & -> & ->). destruct Hv as ((? & ? & ?) & _).
    rewrite !Z.div_mul by lia. reflexivity. }
  rewrite Hn, Hp, E. split; reflexivity.
Qed.

(** volume_size = (32, 32, 32) with patch_size = (16, 16, 16): 8 patches,
    sequence length 9. *)
Lemma patch_count_and_sequence_length_witness :
  exists m,
    VisionTransformer3D_init cube32_config = Ok m /\
    n_patches (patch_embed m) = 8 /\
    shape (pos_embed m) = [1; 9; 768].
Proof.
  refine (patch_count_and_sequence_length cube32_config 2 2 2 _ _).
  - unfold valid_config. cbn. repeat split; try lia; unfold Qle; cbn; lia.
  - cbn. lia.
Defined.

(** C10.  Whatever the configuration, the head is Linear(embed_dim, 256),
    ReLU, Dropout(0.5), Linear(256, num_classes); [drop_rate] does not reach
    it. *)
Theorem head_is_fixed (c : Config) (m : VisionTransformer3D) :
  VisionTransformer3D_init c = Ok m ->
  head m
  = [L_Linear {| in_features := embed_dim c; out_features := 256;
                 lin_weight := {| shape := [256; embed_dim c];
                                  init := TruncNormal 0.02 |};
                 lin_bias := Some {| shape := [256]; init := Constant 0 |} |};
     L_Act ReLU;
     L_Dropout {| p := 0.5 |};
     L_Linear {| in_features := 256; out_features := num_classes c;
                 lin_weight := {| shape := [num_classes c; 256];
                                  init := TruncNormal 0.02 |};
                 lin_bias := Some {| shape := [num_classes c];
                                     init := Constant 0 |} |}].
Proof.
  intros Hm. apply init_inv in Hm as (pe & blks & _ & _ & _ & ->). reflexivity.
Qed.

Lemma head_is_fixed_witness :
  exists m,
    VisionTransformer3D_init dropout_config = Ok m /\
    head m
    = [L_Linear {| in_features := 8; out_features := 256;
                   lin_weight := {| shape := [256; 8];
                                    init := TruncNormal 0.02 |};
                   lin_bias := Some {| shape := [256]; init := Constant 0 |} |};
       L_Act ReLU;
       L_Dropout {| p := 0.5 |};
       L_Linear {| in_features := 256; out_features := 5;
                   lin_weight := {| shape := [5; 256];
                                    init := TruncNormal 0.02 |};
                   lin_bias := Some {| shape := [5]; init := Constant 0 |} |}].
Proof.
  destruct (VisionTransformer3D_init dropout_config) as [m|e] eqn:E.
  - exists m. split; [reflexivity|]. exact (head_is_fixed dropout_config m E).
  - vm_compute in E. discriminate E.
Defined.

(** ** The preset factories *)

Lemma preset_call (e d h : Z) (r : Q) (nc : Z) (uc : bool) :
  VisionTransformer3D_call
    (dict_update (preset_kwargs e d h r nc uc) ∅)
  = VisionTransformer3D_init (preset_config e d h r nc uc).
Proof. reflexivity. Qed.

Lemma preset_valid (e d h : Z) (nc : Z) (uc : bool) :
  0 < h <= e -> 0 <= nc -> valid_config (preset_config e d h 4.0 nc uc).
Proof.
  intros. unfold valid_config. cbn.
  repeat split; try lia; unfold Qle; cbn; lia.
Qed.

Lemma preset_params (e d h : Z) (nc : Z) (uc : bool) :
  0 < e ->
  int_of_float (float_mul (float_of_int e) (float_of 4.0)) = 4 * e ->
  closed_form_params (preset_config e d h 4.0 nc uc)
  = e + 1177 * e + (e * 4096 + e)
    + Z.of_nat (Z.to_nat d) * (12 * e * e + 13 * e)
    + 2 * e + (256 * e + 256) + 257 * nc.
Proof.
  intros He Hw.
  unfold closed_form_params, block_params, linear_params, floor_patches.
  cbn [preset_config volume_size patch_size cfg_in_channels num_classes embed_dim
       depth num_heads mlp_ratio qkv_bias].
  assert (Hh : py_or (Some (int_of_float
                              (float_mul (float_of_int e) (float_of 4.0)))) e
               = 4 * e).
  { rewrite Hw. unfold py_or.
    destruct (4 * e =? 0) eqn:E; [|reflexivity]. apply Z.eqb_eq in E. lia. }
  rewrite Hh. change (96 / 16) with 6. change (224 / 16) with 14.
  set (n := Z.of_nat (Z.to_nat d)). nia.
Qed.

(** C7.  For one and the same number of classes the four presets return
    models with strictly increasing parameter counts. *)
Theorem preset_parameter_counts_increase (num_classes : Z) (uc : bool) :
  0 <= num_classes ->
  exists tiny small base large,
    vit_tiny_3d num_classes uc ∅ = Ok tiny /\
    vit_small_3d num_classes uc ∅ = Ok small /\
    vit_base_3d num_classes uc ∅ = Ok base /\
    vit_large_3d num_classes uc ∅ = Ok large /\
    num_params tiny < num_params small /\
    num_params small < num_params base /\
    num_params base < num_params large.
Proof.
  intros Hnc. unfold vit_tiny_3d, vit_small_3d, vit_base_3d, vit_large_3d.
  cbv zeta. rewrite !preset_call.
  destruct (init_valid (preset_config 192 12 3 4.0 num_classes uc))
    as (tiny & Ht & _); [apply preset_valid; lia|].
  destruct (init_valid (preset_config 384 12 6 4.0 num_classes uc))
    as (small & Hs & _); [apply preset_valid; lia|].
  destruct (init_valid (preset_config 768 12 12 4.0 num_classes uc))
    as (base & Hb & _); [apply preset_valid; lia|].
  destruct (init_valid (preset_config 1024 24 16 4.0 num_classes uc))
    as (large & Hl & _); [apply preset_valid; lia|].
  exists tiny, small, base, large.
  rewrite (num_params_closed_form _ _ Ht), (num_params_closed_form _ _ Hs),
    (num_params_closed_form _ _ Hb), (num_params_closed_form _ _ Hl).
  rewrite (preset_params 192), (preset_params 384), (preset_params 768),
    (preset_params 1024) by (try lia; vm_compute; reflexivity).
  change (Z.of_nat (Z.to_nat 12)) with 12.
  change (Z.of_nat (Z.to_nat 24)) with 24.
  repeat split; try assumption; lia.
Qed.

Lemma preset_parameter_counts_increase_witness :
  0 <= 18 /\
  exists tiny small base large,
    vit_tiny_3d 18 false ∅ = Ok tiny /\
    vit_small_3d 18 false ∅ = Ok small /\
    vit_base_3d 18 false ∅ = Ok base /\
    vit_large_3d 18 false ∅ = Ok large /\
    num_params tiny < num_params small /\
    num_params small < num_params base /\
    num_params base < num_params large.
Proof.
  split; [lia|]. apply (preset_parameter_counts_increase 18 false). lia.
Defined.

(** The hidden width of a block is the integer part of a rounded product:
    [int(100 * 0.29)] is 28, [int(320 * 0.3)] is 96 and
    [int(768 * 2.6666666666666665)] is 2048. *)
Example hidden_width_is_rounded :
  int_of_float (float_mul (float_of_int 100) (float_of 0.29)) = 28 /\
  int_of_float (float_mul (float_of_int 320) (float_of 0.3)) = 96 /\
  int_of_float (float_mul (float_of_int 768) (float_of 2.6666666666666665))
  = 2048.
Proof. repeat split; vm_compute; reflexivity. Qed.

(** The tiny preset with 18 classes has 6,405,586 parameters. *)
Example tiny_params :
  (m ← vit_tiny_3d 18 false ∅; Ok (num_params m)) = Ok 6405586.
Proof. vm_compute. reflexivity. Qed.

(** ** Weight initialisation *)

Section InitWeightsFacts.

Lemma init_module_Linear (m : module) (l : Linear) :
  init_module m = M_Linear l ->
  init (lin_weight l) = TruncNormal 0.02 /\
  forall b, lin_bias l = Some b -> init b = Constant 0.
Proof.
  destruct m as [l0| | | | |]; try discriminate. cbn. intros [= <-]. cbn.
  split; [reflexivity|]. intros b. destruct (lin_bias l0); [|discriminate].
  by intros [= <-].
Qed.

Lemma init_module_LayerNorm (m : module) (n : LayerNorm) :
  init_module m = M_LayerNorm n ->
  init (ln_weight n) = Constant 1 /\ init (ln_bias n) = Constant 0.
Proof. destruct m; try discriminate. cbn. by intros [= <-]. Qed.

Lemma init_module_Conv3d (m : module) (cv : Conv3d) :
  init_module m = M_Conv3d cv -> m = M_Conv3d cv.
Proof. destruct m; try discriminate. by cbn. Qed.

Lemma blocks_have_no_conv (name : nat -> string) (blks : list TransformerBlock)
    (n : string) (cv : Conv3d) :
  ~ In (n, M_Conv3d cv)
      (concat (imap (fun i b => modules_TransformerBlock (name i) b) blks)).
Proof.
  revert name. induction blks as [|b blks IH]; intros name; [intros []|].
  cbn [imap concat]. rewrite in_app_iff. intros [Hb|Hr].
  - cbn in Hb. intuition congruence.
  - exact (IH (name ∘ S) Hr).
Qed.

Lemma head_has_no_conv (name : nat -> string) (ls : list Layer)
    (n : string) (cv : Conv3d) :
  ~ In (n, M_Conv3d cv) (imap (fun i l => (name i, module_of_Layer l)) ls).
Proof.
  revert name. induction ls as [|l ls IH]; intros name; [intros []|].
  cbn [imap]. intros [Hl|Hr].
  - destruct l; discriminate.
  - exact (IH (name ∘ S) Hr).
Qed.

(** The only convolution of the model is the patch projection. *)
Lemma conv_modules (self : VisionTransformer3D) (n : string) (cv : Conv3d) :
  In (n, M_Conv3d cv) (named_modules self) ->
  n = "patch_embed.proj" /\ cv = pe_proj (patch_embed self).
Proof.
  unfold named_modules, modules_PatchEmbed3D.
  cbn [app In]. rewrite in_app_iff. cbn [In].
  intros [H|[H|[H|[H|[H|[H|[H|[H|H]]]]]]]]; try discriminate.
  - by injection H as <- <-.
  - by apply blocks_have_no_conv in H.
  - by apply head_has_no_conv in H.
Qed.

Lemma in_named_modules_init (self : VisionTransformer3D) (n : string) (m : module) :
  In (n, m) (named_modules (_init_weights self)) ->
  exists m0, In (n, m0) (named_modules self) /\ m = init_module m0.
Proof.
  rewrite named_modules_init_weights, in_map_iff.
  intros ([n0 m0] & [= <- <-] & Hin). eauto.
Qed.

Lemma in_named_parameters (self : VisionTransformer3D) (n : string) (q : Param) :
  In (n, q) (named_parameters self) ->
  (n = "cls_token" /\ q = cls_token self) \/
  (n = "pos_embed" /\ q = pos_embed self) \/
  exists pre m pn, In (pre, m) (named_modules self) /\
                   In (pn, q) (own_parameters m) /\ n = child pre pn.
Proof.
  unfold named_parameters. cbn [In]. intros [H|[H|H]].
  - left. by injection H as <- <-.
  - right; left. by injection H as <- <-.
  - right; right. apply in_concat in H as (ps & Hps & Hin).
    apply in_map_iff in Hps as ([pre m] & <- & Hm).
    apply in_map_iff in Hin as ([pn q'] & [= <- <-] & Hq). eauto 10.
Qed.

End InitWeightsFacts.

(** C3, as amended.  After construction the CLS token, the positional
    table and every linear weight are truncated-normal with std 0.02, every
    linear bias is zero, every normalisation layer has scale one and bias
    zero; the one module left out is the patch projection, a convolution,
    whose weight and bias keep the initialisation [nn.Conv3d] gave them. *)
Theorem weight_initialisation (c : Config) (m : VisionTransformer3D) :
  VisionTransformer3D_init c = Ok m ->
  init (cls_token m) = TruncNormal 0.02 /\
  init (pos_embed m) = TruncNormal 0.02 /\
  (forall n l, In (n, M_Linear l) (named_modules m) ->
     init (lin_weight l) = TruncNormal 0.02 /\
     forall b, lin_bias l = Some b -> init b = Constant 0) /\
  (forall n ln, In (n, M_LayerNorm ln) (named_modules m) ->
     init (ln_weight ln) = Constant 1 /\ init (ln_bias ln) = Constant 0) /\
  (forall n cv, In (n, M_Conv3d cv) (named_modules m) ->
     n = "patch_embed.proj" /\
     init (conv_weight cv) = DefaultKaimingUniform /\
     init (conv_bias cv) = DefaultFanInUniform) /\
  (forall n q, In (n, q) (named_parameters m) ->
     (n = "patch_embed.proj.weight" /\ init q = DefaultKaimingUniform) \/
     (n = "patch_embed.proj.bias" /\ init q = DefaultFanInUniform) \/
     stated_scheme (init q)).
Proof.
  intros Hm. apply init_inv in Hm as (pe & blks & Hpe & _ & _ & ->).
  set (m0 := {| vit_num_classes := num_classes c |}).
  assert (HL : forall n l, In (n, M_Linear l) (named_modules (_init_weights m0)) ->
     init (lin_weight l) = TruncNormal 0.02 /\
     forall b, lin_bias l = Some b -> init b = Constant 0).
  { intros n l Hin. apply in_named_modules_init in Hin as (m1 & _ & E).
    by apply (init_module_Linear m1). }
  assert (HN : forall n ln, In (n, M_LayerNorm ln) (named_modules (_init_weights m0)) ->
     init (ln_weight ln) = Constant 1 /\ init (ln_bias ln) = Constant 0).
  { intros n ln Hin. apply in_named_modules_init in Hin as (m1 & _ & E).
    by apply (init_module_LayerNorm m1). }
  assert (HC : forall n cv, In (n, M_Conv3d cv) (named_modules (_init_weights m0)) ->
     n = "patch_embed.proj" /\
     init (conv_weight cv) = DefaultKaimingUniform /\
     init (conv_bias cv) = DefaultFanInUniform).
  { intros n cv Hin. apply in_named_modules_init in Hin as (m1 & Hin & E).
    symmetry in E. apply init_module_Conv3d in E. subst m1.
    apply conv_modules in Hin as [-> ->]. split; [reflexivity|].
    destruct (volume_size c) as [[v0 v1] v2], (patch_size c) as [[p0 p1] p2].
    apply PatchEmbed3D_init_inv in Hpe as [_ ->]. by cbn. }
  split; [reflexivity|]. split; [reflexivity|].
  split; [exact HL|]. split; [exact HN|]. split; [exact HC|].
  intros n q Hin. apply in_named_parameters in Hin
    as [[-> ->]|[[-> ->]|(pre & m1 & pn & Hm1 & Hq & ->)]].
  - right; right. by left.
  - right; right. by left.
  - destruct m1 as [l|ln|cv| | |]; cbn in Hq; try contradiction.
    + right; right. destruct (HL _ _ Hm1) as [Hw Hb].
      destruct Hq as [[= <- <-]|Hq]; [by left|].
      destruct (lin_bias l) as [b|] eqn:Eb; [|contradiction].
      destruct Hq as [[= <- <-]|[]]. right; left. by apply Hb.
    + right; right. destruct (HN _ _ Hm1) as [Hw Hb].
      destruct Hq as [[= <- <-]|[[= <- <-]|[]]].
      * right; right. exact Hw.
      * right; left. exact Hb.
    + destruct (HC _ _ Hm1) as (-> & Hw & Hb).
      destruct Hq as [[= <- <-]|[[= <- <-]|[]]].
      * left. by split.
      * right; left. by split.
Qed.

Lemma weight_initialisation_witness :
  exists m,
    VisionTransformer3D_init dropout_config = Ok m /\
    init (cls_token m) = TruncNormal 0.02 /\
    forall n q, In (n, q) (named_parameters m) ->
      (n = "patch_embed.proj.weight" /\ init q = DefaultKaimingUniform) \/
      (n = "patch_embed.proj.bias" /\ init q = DefaultFanInUniform) \/
      stated_scheme (init q).
Proof.
  destruct (VisionTransformer3D_init dropout_config) as [m|e] eqn:E.
  - exists m. split; [reflexivity|].
    pose proof (weight_initialisation dropout_config m E) as (Hc & _ & _ & _ & _ & Hp).
    split; [exact Hc|exact Hp].
  - vm_compute in E. discriminate E.
Defined.

(** C3, counterexample.  In the default model the parameter
    [patch_embed.proj.weight] carries none of the three stated schemes. *)
Lemma conv_projection_keeps_default_init :
  exists m q,
    VisionTransformer3D_init default_config = Ok m /\
    In ("patch_embed.proj.weight", q) (named_parameters m) /\
    ~ stated_scheme (init q).
Proof.
  destruct (VisionTransformer3D_init default_config) as [m|e] eqn:E;
    [|vm_compute in E; discriminate E].
  exists m, {| shape := [768; 1; 16; 16; 16]; init := DefaultKaimingUniform |}.
  split; [reflexivity|].
  vm_compute in E. injection E as <-.
  split.
  - right; right; left. reflexivity.
  - intros [H|[H|H]]; discriminate H.
Qed.

(** ** Gradient checkpointing *)

Section CheckpointFacts.
Context {T G : Type} `{TensorOps T G}.

Lemma count_free_ret {A} (a : A) : count_free (G := G) (mret a).
Proof. intros g. by exists a, g. Qed.

Lemma count_free_bind {A B} (c : Fwd A) (k : A -> Fwd B) :
  count_free c -> (forall a, count_free (G := G) (k a)) -> count_free (G := G) (c ≫= k).
Proof.
  intros Hc Hk g. destruct (Hc g) as (a & g1 & Ha).
  destruct (Hk a g1) as (b & g2 & Hb). exists b, g2. intros n.
  unfold mbind, Fwd_bind. by rewrite Ha, Hb.
Qed.

Lemma count_free_Dropout (d : Dropout) (training : bool) (x : T) :
  count_free (G := G) (Dropout_forward d training x).
Proof.
  unfold Dropout_forward. destruct training; [|apply count_free_ret].
  intros g. destruct (dropout_mask (p d) x g) as [y g'] eqn:E.
  exists y, g'. intros n. cbn. by rewrite E.
Qed.

Lemma count_free_MultiHeadAttention3D (self : MultiHeadAttention3D)
    (training : bool) (x : T) :
  count_free (G := G) (MultiHeadAttention3D_forward self training x).
Proof.
  unfold MultiHeadAttention3D_forward.
  destruct (split_qkv _ _ _) as [[q k] v].
  apply count_free_bind; intros; apply count_free_Dropout.
Qed.

Lemma count_free_MLP (self : MLP) (training : bool) (x : T) :
  count_free (G := G) (MLP_forward self training x).
Proof.
  unfold MLP_forward. apply count_free_bind; intros; apply count_free_Dropout.
Qed.

Lemma count_free_TransformerBlock (self : TransformerBlock) (training : bool)
    (x : T) :
  count_free (G := G) (TransformerBlock_forward self training x).
Proof.
  unfold TransformerBlock_forward.
  apply count_free_bind; [apply count_free_MultiHeadAttention3D|]. intros a.
  apply count_free_bind; [apply count_free_MLP|]. intros m.
  apply count_free_ret.
Qed.

Lemma count_free_for_each {A} (f : A -> T -> Fwd T) (bs : list A) (x : T) :
  (forall b x, count_free (G := G) (f b x)) -> count_free (G := G) (for_each f bs x).
Proof.
  intros Hf. revert x. induction bs as [|b bs IH]; intros x; cbn [for_each].
  - apply count_free_ret.
  - apply count_free_bind; [apply Hf|]. intros x'. apply IH.
Qed.

(** Wrapping each call in [checkpoint] changes the count and nothing else. *)
Lemma for_each_checkpoint {A} (f : A -> T -> Fwd T) (bs : list A) (x : T) (g : G) :
  (forall b x, count_free (G := G) (f b x)) ->
  exists y g',
    forall n,
      for_each f bs x {| rng := g; checkpoint_calls := n |}
      = (y, {| rng := g'; checkpoint_calls := n |}) /\
      for_each (fun b x => checkpoint (f b) x) bs x
        {| rng := g; checkpoint_calls := n |}
      = (y, {| rng := g'; checkpoint_calls := (n + length bs)%nat |}).
Proof.
  intros Hf. revert x g. induction bs as [|b bs IH]; intros x g.
  - exists x, g. intros n. cbn. by rewrite Nat.add_0_r.
  - destruct (Hf b x g) as (x1 & g1 & H1).
    destruct (IH x1 g1) as (y & g' & Hy). exists y, g'. intros n.
    cbn [for_each length]. unfold mbind, Fwd_bind. split.
    + rewrite H1. by destruct (Hy n) as [-> _].
    + unfold checkpoint at 1. rewrite H1. cbn [rng checkpoint_calls].
      destruct (Hy (S n)) as [_ ->].
      replace (S n + length bs)%nat with (n + S (length bs))%nat by lia.
      reflexivity.
Qed.

End CheckpointFacts.

(** C6.  With [use_checkpointing] on or off the forward pass returns the
    same tensor and leaves the generator in the same state; blocks go
    through [checkpoint] only in training mode (then all of them do). *)
Theorem checkpointing_is_transparent {T G : Type} `{TensorOps T G}
    (self : VisionTransformer3D) (training : bool) (x : T) (s : FwdState) :
  let on := forward (with_checkpointing true self) training x s in
  let off := forward (with_checkpointing false self) training x s in
  on.1 = off.1 /\
  rng on.2 = rng off.2 /\
  checkpoint_calls off.2 = checkpoint_calls s /\
  checkpoint_calls on.2
  = (checkpoint_calls s + if training then length (blocks self) else 0)%nat.
Proof.
  destruct s as [g n]. cbv zeta.
  unfold forward, forward_features.
  cbn [with_checkpointing vit_use_checkpointing patch_embed cls_token pos_embed
       pos_drop blocks norm head andb].
  set (x0 := add_param _ _).
  destruct (count_free_Dropout (pos_drop self) training x0 g) as (x1 & g1 & H1).
  destruct (for_each_checkpoint
              (fun block x => TransformerBlock_forward block training x)
              (blocks self) x1 g1) as (x2 & g2 & H2).
  { intros b x'. apply count_free_TransformerBlock. }
  set (x3 := select_cls (layer_norm (norm self) x2)).
  destruct (count_free_for_each (fun l x => Layer_forward l training x)
              (head self) x3) with (g := g2) as (y & g3 & H3).
  { intros l x'. destruct l; cbn; try apply count_free_ret.
    apply count_free_Dropout. }
  assert (E1 : forall n,
            for_each (fun block x => TransformerBlock_forward block training x)
              (blocks self) x1 {| rng := g1; checkpoint_calls := n |}
            = (x2, {| rng := g2; checkpoint_calls := n |}))
    by (intros k; exact (proj1 (H2 k))).
  assert (E2 : forall n,
            for_each (fun block x =>
                        checkpoint (TransformerBlock_forward block training) x)
              (blocks self) x1 {| rng := g1; checkpoint_calls := n |}
            = (x2, {| rng := g2;
                      checkpoint_calls := (n + length (blocks self))%nat |}))
    by (intros k; exact (proj2 (H2 k))).
  unfold mbind, Fwd_bind. rewrite !H1.
  destruct training.
  - rewrite E1, E2.
    unfold mret, Fwd_ret. fold x3. rewrite !H3. cbn. auto.
  - rewrite E1.
    unfold mret, Fwd_ret. fold x3. rewrite !H3. cbn.
    repeat split; lia.
Qed.

(** ** Preprocessing: the fail-soft boundary *)

Section PreprocessFacts.

Lemma torch_zeros_ok (s : list Z) :
  Forall (fun d => 0 <= d) s ->
  Preprocessing.torch_zeros s = Ok (zeros_tensor s).
Proof.
  intros Hs. unfold Preprocessing.torch_zeros.
  replace (forallb (fun d => 0 <=? d) s) with true; [reflexivity|].
  symmetry. apply forallb_forall. intros d Hd.
  rewrite Forall_forall in Hs. apply Z.leb_le. apply Hs.
  by apply list_elem_of_In.
Qed.

(** The handler of the [except] clause. *)
Lemma handler_result (path : string) (target : list Z) (e : exn) (w : World) :
  Forall (fun d => 0 <= d) target ->
  (_ ← logger ERROR (ProcessingError path e);
   lift (Preprocessing.torch_zeros (1 :: target))) w
  = (Ok (zeros_tensor (1 :: target)),
     {| log := log w ++ [(ERROR, ProcessingError path e)];
        dirs := dirs w; files := files w |}).
Proof.
  intros Ht. unfold mbind, IO_bind, logger, lift. cbn.
  rewrite torch_zeros_ok; [reflexivity|]. constructor; [lia|exact Ht].
Qed.

Lemma shape_mismatch_false (t : Tensor) (target : list Z) :
  shape_mismatch t target = Ok false -> t_shape t = 1 :: target.
Proof.
  unfold shape_mismatch. case_bool_decide as Hd; cbn; [|discriminate].
  unfold shape0. destruct (t_shape t) as [|d rest] eqn:E; cbn; [discriminate|].
  destruct (d =? 1) eqn:E1; cbn; [|discriminate].
  intros _. apply Z.eqb_eq in E1. change (rest = target) in Hd. by subst.
Qed.

Lemma shape_mismatch_true (t : Tensor) (target : list Z) :
  t_shape t <> 1 :: target ->
  shape_mismatch t target = Ok true \/ exists e, shape_mismatch t target = Raise e.
Proof.
  intros Hne. destruct (shape_mismatch t target) as [[|]|e] eqn:E; eauto.
  apply shape_mismatch_false in E. contradiction.
Qed.

Lemma shape_mismatch_exact (t : Tensor) (target : list Z) :
  t_shape t = 1 :: target -> shape_mismatch t target = Ok false.
Proof.
  intros E. unfold shape_mismatch, shape0. rewrite E. cbn.
  by rewrite bool_decide_eq_true_2.
Qed.

(** The channel fix never raises. *)
Lemma fix_channel_dim_returns (path : string) (t : Tensor) (w : World) :
  exists t' w', fix_channel_dim path t w = (Ok t', w').
Proof.
  unfold fix_channel_dim, ndim.
  destruct (Z.of_nat (length (t_shape t)) =? 3); [cbn; eauto|].
  destruct (Z.of_nat (length (t_shape t)) =? 4) eqn:E4; [|cbn; eauto].
  unfold shape0, select0.
  destruct (t_shape t) as [|d rest]; [discriminate E4|].
  unfold mbind, IO_bind, lift, logger, mret, IO_ret. cbn.
  destruct (d =? 1) eqn:E1; cbn; [eauto|].
  destruct (1 <? d) eqn:E2; cbn; [|eauto].
  apply Z.ltb_lt in E2.
  replace (d <=? 0) with false by (symmetry; apply Z.leb_gt; lia).
  eauto.
Qed.

End PreprocessFacts.

Ltac same_run :=
  repeat match goal with
  | H : ?c = (_, _), H' : ?c = (_, _) |- _ => rewrite H in H'; simplify_eq
  | H : ?c = Some _, H' : ?c = Some _ |- _ => rewrite H in H'; simplify_eq
  | H : ?c = Ok _, H' : ?c = Ok _ |- _ => rewrite H in H'; simplify_eq
  | H : ?c = Ok _, H' : ?c = Raise _ |- _ => rewrite H in H'; simplify_eq
  | H : ?c = Raise _, H' : ?c = Raise _ |- _ => rewrite H in H'; simplify_eq
  | H : ?c = Some _, H' : ?c = None |- _ => rewrite H in H'; simplify_eq
  end.

Ltac outcome :=
  eexists _, _; split; [reflexivity|]; cbn;
  repeat split; intros; same_run; cbn in *; simplify_eq; same_run;
  try contradiction;
  try match goal with
      | H : t_shape ?t = 1 :: ?target |- _ =>
          pose proof (shape_mismatch_exact _ _ H); same_run
      end;
  eauto.

(** C1.  For every path and every pipeline the call returns (it does not
    raise) a tensor of shape (1, *target_shape_dhw); when the pipeline
    raises, when the entry is missing or is no tensor, or when the shape
    after the channel fix is not the target, that tensor is all zero and the
    error is logged. *)
Theorem preprocess_fail_soft (path : string)
    (pipeline : gmap string pyobj -> IO (gmap string pyobj))
    (target : list Z) (w : World) :
  Forall (fun d => 0 <= d) target ->
  exists t w',
    preprocess_ct_volume_monai path pipeline target w = (Ok t, w') /\
    preprocess_outcome path pipeline target w t w'.
Proof.
  intros Ht. unfold preprocess_ct_volume_monai, try_except, preprocess_outcome.
  unfold mbind at 1. unfold IO_bind at 1.
  destruct (pipeline {[ "image" := P_str path ]} w) as [[d|e] w1] eqn:Ep.
  2:{ rewrite handler_result by exact Ht. outcome. }
  unfold mbind at 1. unfold IO_bind at 1. unfold lift at 1.
  unfold getitem.
  destruct (d !! "image") as [v|] eqn:Ev.
  2:{ rewrite handler_result by exact Ht. outcome. }
  unfold mbind at 1. unfold IO_bind at 1. unfold lift at 1.
  destruct (as_tensor v) as [t0|e] eqn:Et.
  2:{ rewrite handler_result by exact Ht. outcome. }
  unfold mbind at 1. unfold IO_bind at 1.
  destruct (fix_channel_dim path t0 w1) as [[t1|e] w2] eqn:Ef.
  2:{ rewrite handler_result by exact Ht. outcome. }
  unfold mbind at 1. unfold IO_bind at 1. unfold lift at 1.
  destruct (shape_mismatch t1 target) as [[|]|e] eqn:Em.
  - (* mismatch: logged, zero tensor *)
    unfold mbind, IO_bind, logger, lift. cbn.
    rewrite torch_zeros_ok by (constructor; [lia|exact Ht]).
    outcome.
  - (* the processed tensor is returned *)
    apply shape_mismatch_false in Em. outcome.
  - rewrite handler_result by exact Ht. outcome.
Qed.

Lemma preprocess_fail_soft_witness :
  Forall (fun d => 0 <= d) [2; 2; 2] /\
  exists t w',
    preprocess_ct_volume_monai "missing.nii.gz" missing_file_pipeline [2; 2; 2]
      empty_world = (Ok t, w') /\
    preprocess_outcome "missing.nii.gz" missing_file_pipeline [2; 2; 2]
      empty_world t w'.
Proof.
  assert (Ht : Forall (fun d => 0 <= d) [2; 2; 2]) by (repeat constructor; lia).
  split; [exact Ht|].
  exact (preprocess_fail_soft "missing.nii.gz" missing_file_pipeline [2; 2; 2]
           empty_world Ht).
Defined.

(** A missing file gives the zero tensor of shape (1, 2, 2, 2) and one
    logged error. *)
Example missing_file_gives_zeros :
  preprocess_ct_volume_monai "missing.nii.gz" missing_file_pipeline [2; 2; 2]
    empty_world
  = (Ok (zeros_tensor [1; 2; 2; 2]),
     {| log := [(ERROR, ProcessingError "missing.nii.gz" OSError)];
        dirs := []; files := [] |}).
Proof. reflexivity. Qed.

(** C9.  A four-dimensional result with more than one channel is not
    replaced by zeros: a warning is logged, channel 0 is kept under a new
    singleton dimension, and that tensor is returned when its spatial shape
    is the target. *)
Theorem extra_channels_keep_first (path : string)
    (pipeline : gmap string pyobj -> IO (gmap string pyobj))
    (target : list Z) (w w1 : World) (d : gmap string pyobj) (v : pyobj)
    (t : Tensor) (c : Z) :
  pipeline {[ "image" := P_str path ]} w = (Ok d, w1) ->
  d !! "image" = Some v ->
  as_tensor v = Ok t ->
  t_shape t = c :: target ->
  length target = 3%nat ->
  1 < c ->
  preprocess_ct_volume_monai path pipeline target w
  = (Ok {| t_shape := 1 :: target;
           t_data := firstn (count target) (t_data t) |},
     {| log := log w1 ++ [(WARNING, UnexpectedChannel path (c :: target))];
        dirs := dirs w1; files := files w1 |}).
Proof.
  intros Hp Hv Ht Hs Hl Hc.
  unfold preprocess_ct_volume_monai, try_except.
  unfold mbind at 1. unfold IO_bind at 1. rewrite Hp.
  unfold mbind at 1. unfold IO_bind at 1. unfold lift at 1.
  unfold getitem. rewrite Hv.
  unfold mbind at 1. unfold IO_bind at 1. unfold lift at 1. rewrite Ht.
  assert (Hf : fix_channel_dim path t w1
               = (Ok {| t_shape := 1 :: target;
                        t_data := firstn (count target) (t_data t) |},
                  {| log := log w1 ++ [(WARNING, UnexpectedChannel path (c :: target))];
                     dirs := dirs w1; files := files w1 |})).
  { unfold fix_channel_dim, ndim. rewrite Hs. cbn [length]. rewrite Hl.
    change (Z.of_nat 4 =? 3) with false. change (Z.of_nat 4 =? 4) with true.
    cbv iota. unfold shape0, select0. rewrite Hs.
    unfold mbind, IO_bind, lift, logger, mret, IO_ret. cbn.
    replace (c =? 1) with false by (symmetry; apply Z.eqb_neq; lia).
    cbn. replace (1 <? c) with true by (symmetry; apply Z.ltb_lt; lia).
    replace (c <=? 0) with false by (symmetry; apply Z.leb_gt; lia).
    reflexivity. }
  unfold mbind at 1. unfold IO_bind at 1. rewrite Hf.
  unfold mbind at 1. unfold IO_bind at 1. unfold lift at 1.
  unfold shape_mismatch. cbn.
  rewrite bool_decide_eq_true_2 by reflexivity. cbn. reflexivity.
Qed.

Lemma extra_channels_keep_first_witness :
  preprocess_ct_volume_monai "scan.nii.gz" two_channel_pipeline [1; 1; 2]
    empty_world
  = (Ok {| t_shape := [1; 1; 1; 2]; t_data := [0.25; 0.5]%Q |},
     {| log := [(WARNING, UnexpectedChannel "scan.nii.gz" [2; 1; 1; 2])];
        dirs := []; files := [] |}).
Proof.
  refine (extra_channels_keep_first "scan.nii.gz" two_channel_pipeline
            [1; 1; 2] empty_world empty_world
            (<["image" := P_Tensor two_channel]> {[ "image" := P_str "scan.nii.gz" ]})
            (P_Tensor two_channel) two_channel 2 _ _ _ _ _ _).
  - reflexivity.
  - vm_compute. reflexivity.
  - reflexivity.
  - reflexivity.
  - reflexivity.
  - lia.
Defined.

(** ** Preprocessing: the transform chain *)

Section ComposeFacts.
Context `{MonaiOps}.

(** A keyed transform neither reads nor writes the world. *)
Lemma on_key_world (k : string) (f : pyobj -> result pyobj)
    (d : gmap string pyobj) (w : World) :
  on_key k f d w = (v ← getitem d k; v' ← f v; Ok (<[k := v']> d), w).
Proof.
  unfold on_key, mbind, IO_bind, lift, result_bind, mret, IO_ret.
  destruct (getitem d k) as [v|e]; cbn; [|reflexivity].
  destruct (f v); reflexivity.
Qed.

Lemma apply_transform_world (t : Transform) (d : gmap string pyobj)
    (w w0 : World) :
  is_save t = false ->
  apply_transform t d w = (fst (apply_transform t d w0), w).
Proof.
  destruct t; cbn; try discriminate; intros _;
    rewrite !on_key_world; reflexivity.
Qed.

Lemma run_transform_world (t : Transform) (d : gmap string pyobj)
    (w w0 : World) :
  is_save t = false ->
  run_transform t d w = (fst (run_transform t d w0), w).
Proof.
  intros Ht. unfold run_transform, try_except, lift.
  rewrite (apply_transform_world t d w w0 Ht).
  rewrite (apply_transform_world t d w0 w0 Ht).
  destruct (fst (apply_transform t d w0)); reflexivity.
Qed.

(** A transform that returns does so through [Compose] as well; one that
    raises comes out as [RuntimeError]. *)
Lemma run_transform_Ok (t : Transform) (d d' : gmap string pyobj)
    (w w' : World) :
  run_transform t d w = (Ok d', w') <-> apply_transform t d w = (Ok d', w').
Proof.
  unfold run_transform, try_except, lift.
  destruct (apply_transform t d w) as [[d1|e] w1]; split; congruence.
Qed.

Lemma run_transform_Raise (t : Transform) (d : gmap string pyobj)
    (w w' : World) (e : exn) :
  apply_transform t d w = (Raise e, w') ->
  run_transform t d w = (Raise RuntimeError, w').
Proof. unfold run_transform, try_except, lift. by intros ->. Qed.

Lemma Compose_world (ts : list Transform) (d : gmap string pyobj)
    (w w0 : World) :
  forallb (fun t => negb (is_save t)) ts = true ->
  Compose ts d w = (fst (Compose ts d w0), w).
Proof.
  revert d. induction ts as [|t ts IH]; intros d Hts; [reflexivity|].
  cbn in Hts. apply andb_prop in Hts as [Ht Hts].
  apply negb_true_iff in Ht.
  cbn [Compose]. unfold mbind, IO_bind.
  rewrite (run_transform_world t d w w0 Ht).
  rewrite (run_transform_world t d w0 w0 Ht).
  destruct (fst (run_transform t d w0)) as [d1|e]; [|reflexivity].
  apply IH, Hts.
Qed.

Lemma Compose_app (l1 l2 : list Transform) (d : gmap string pyobj) (w : World) :
  Compose (l1 ++ l2) d w
  = match Compose l1 d w with
    | (Ok d1, w1) => Compose l2 d1 w1
    | (Raise e, w1) => (Raise e, w1)
    end.
Proof.
  revert d w. induction l1 as [|t l1 IH]; intros d w; [reflexivity|].
  cbn [app Compose]. unfold mbind, IO_bind.
  destruct (run_transform t d w) as [[d1|e] w1]; [apply IH|reflexivity].
Qed.

(** [SaveImaged] hands its input on. *)
Lemma save_image_value (k dir post : string) (d d' : gmap string pyobj)
    (w w' : World) :
  save_image k dir post d w = (Ok d', w') ->
  d' = d /\ exists v, d !! k = Some v /\ log w' = log w /\ dirs w' = dirs w /\
                      files w' = files w ++ [(dir, post, v)].
Proof.
  unfold save_image, mbind, IO_bind, lift, write_image, getitem.
  destruct (d !! k) as [v|]; [|discriminate].
  destruct (write_error dir post v); [discriminate|].
  cbn. intros [= <- <-]. cbn. eauto 10.
Qed.

Lemma Compose_insert_save (l1 l2 : list Transform) (k dir post : string)
    (b1 b2 b3 : bool) (d d' : gmap string pyobj) (w w' : World) :
  forallb (fun t => negb (is_save t)) (l1 ++ l2) = true ->
  Compose (l1 ++ SaveImaged k dir post b1 b2 b3 :: l2) d w = (Ok d', w') ->
  Compose (l1 ++ l2) d w = (Ok d', w) /\
  exists d1 v, Compose l1 d w = (Ok d1, w) /\ d1 !! k = Some v /\
               log w' = log w /\ dirs w' = dirs w /\
               files w' = files w ++ [(dir, post, v)].
Proof.
  rewrite forallb_app. intros [H1 H2]%andb_prop.
  rewrite !Compose_app.
  rewrite (Compose_world l1 d w w H1).
  destruct (fst (Compose l1 d w)) as [d1|e]; [|discriminate].
  cbn [Compose]. unfold mbind at 1. unfold IO_bind at 1.
  destruct (run_transform (SaveImaged k dir post b1 b2 b3) d1 w)
    as [[d2|e] w2] eqn:Es; [|discriminate].
  apply run_transform_Ok in Es. cbn [apply_transform] in Es.
  apply save_image_value in Es as [-> (v & Hv & Hl & Hd & Hf)].
  rewrite (Compose_world l2 d1 w2 w H2).
  rewrite (Compose_world l2 d1 w w H2).
  destruct (fst (Compose l2 d1 w)) as [d3|e]; [|discriminate].
  intros [= <- <-]. split; [reflexivity|]. eauto 10.
Qed.

End ComposeFacts.

(** C8.  A pipeline built with a save path is the pipeline built without
    one with [SaveImaged] inserted before the final [EnsureTyped]; whenever
    it returns a dictionary, the pipeline without the save returns the same
    dictionary, and what was written is the entry as it stood before the
    cast. *)
Theorem save_path_keeps_value `{MonaiOps}
    (target_spacing_xyz : list Q) (target_shape_dhw : list Z)
    (clip_hu_min clip_hu_max : Q) (orientation_axcodes path : string)
    (w0 w1 : World) (with_save : list Transform)
    (d d' : gmap string pyobj) (w w' : World) :
  create_monai_preprocessing_pipeline target_spacing_xyz target_shape_dhw
    clip_hu_min clip_hu_max orientation_axcodes (Some path) w0
  = (Ok with_save, w1) ->
  Compose with_save d w = (Ok d', w') ->
  exists without_save,
    create_monai_preprocessing_pipeline target_spacing_xyz target_shape_dhw
      clip_hu_min clip_hu_max orientation_axcodes None w0
    = (Ok without_save, w0) /\
    with_save
    = firstn 6 without_save
      ++ SaveImaged "image" path "_transformed" false false true
      :: skipn 6 without_save /\
    skipn 6 without_save = [EnsureTyped "image" "float32" false] /\
    Compose without_save d w = (Ok d', w) /\
    exists before_cast v,
      Compose (firstn 6 without_save) d w = (Ok before_cast, w) /\
      before_cast !! "image" = Some v /\
      files w' = files w ++ [(path, "_transformed", v)].
Proof.
  unfold create_monai_preprocessing_pipeline.
  unfold mbind, IO_bind, mkdir.
  destruct (mkdir_error path); [discriminate|].
  cbn. intros [= <- <-] Hrun.
  eexists. split; [reflexivity|].
  cbn [firstn skipn].
  split; [reflexivity|]. split; [reflexivity|].
  change ([?a; ?b; ?c; ?e; ?f; ?g; ?s; ?t]) with ([a; b; c; e; f; g] ++ s :: [t]) in Hrun.
  apply Compose_insert_save in Hrun as [Hv (d1 & v & H1 & H2 & _ & _ & H3)];
    [|reflexivity].
  split; [exact Hv|]. exists d1, v. split; [exact H1|]. split; [exact H2|exact H3].
Qed.

Lemma save_path_keeps_value_witness :
  let ops := plain_ops in
  let d : gmap string pyobj := {[ "image" := P_str "scan.nii.gz" ]} in
  match create_monai_preprocessing_pipeline [1; 1; 1]%Q [1; 1; 2] (-1000) 400
          "LPS" (Some "out") empty_world with
  | (Ok with_save, _) =>
      match Compose with_save d empty_world with
      | (Ok d', w') =>
          exists without_save,
            create_monai_preprocessing_pipeline [1; 1; 1]%Q [1; 1; 2] (-1000) 400
              "LPS" None empty_world = (Ok without_save, empty_world) /\
            Compose without_save d empty_world = (Ok d', empty_world) /\
            length (files w') = 1%nat
      | (Raise _, _) => False
      end
  | (Raise _, _) => False
  end.
Proof.
  intros ops d.
  destruct (create_monai_preprocessing_pipeline [1; 1; 1]%Q [1; 1; 2] (-1000) 400
              "LPS" (Some "out") empty_world) as [[with_save|e] w1] eqn:E1;
    [|vm_compute in E1; discriminate E1].
  destruct (Compose with_save d empty_world) as [[d'|e] w'] eqn:E2.
  - destruct (save_path_keeps_value [1; 1; 1]%Q [1; 1; 2] (-1000) 400 "LPS" "out"
                empty_world w1 with_save d d' empty_world w' E1 E2)
      as (without_save & Hc & _ & _ & Hv & before_cast & v & _ & _ & Hf).
    exists without_save. split; [exact Hc|]. split; [exact Hv|].
    rewrite Hf. reflexivity.
  - vm_compute in E1. injection E1 as <- <-. vm_compute in E2. discriminate E2.
Defined.

(** ** Preprocessing: intensity normalisation *)

Lemma Qle_bool_false (a b : Q) : Qle_bool a b = false -> (b < a)%Q.
Proof.
  intros E. apply Qnot_le_lt. intros L. apply Qle_bool_iff in L. congruence.
Qed.

Lemma rescale_unit (lo hi x : Q) :
  ((x - lo) / (hi - lo) * (1.0 - 0.0) + 0.0 == (x - lo) / (hi - lo))%Q.
Proof.
  assert (E : (1.0 - 0.0 == 1)%Q) by reflexivity.
  rewrite E. assert (E0 : (0.0 == 0)%Q) by reflexivity. rewrite E0. ring.
Qed.

Lemma scale_intensity_range_spec (lo hi x : Q) :
  (lo < hi)%Q ->
  (scale_intensity_range lo hi 0.0 1.0 true x
   == clip_then_rescale lo hi x)%Q.
Proof.
  intros Hlt. unfold scale_intensity_range, clip_then_rescale, clip_to_range.
  assert (Hpos : (0 < hi - lo)%Q) by lra.
  destruct (Qeq_bool (hi - lo) 0) eqn:E0.
  { apply Qeq_bool_iff in E0. lra. }
  set (y := ((x - lo) / (hi - lo) * (1.0 - 0.0) + 0.0)%Q).
  assert (Ey : (y == (x - lo) / (hi - lo))%Q) by apply rescale_unit.
  assert (E1 : (1.0 == 1)%Q) by reflexivity.
  assert (E00 : (0.0 == 0)%Q) by reflexivity.
  destruct (Qle_bool y 0.0) eqn:Ylo.
  - apply Qle_bool_iff in Ylo. rewrite Ey, E00 in Ylo.
    assert (Hx : (x <= lo)%Q).
    { destruct (Qlt_le_dec lo x) as [L|L]; [|exact L].
      exfalso. assert ((0 < (x - lo) / (hi - lo))%Q).
      { apply Qlt_shift_div_l; lra. } lra. }
    apply Qle_bool_iff in Hx. rewrite Hx. rewrite E00.
    unfold Qdiv. ring.
  - apply Qle_bool_false in Ylo. rewrite Ey, E00 in Ylo.
    assert (Hx : (lo < x)%Q).
    { destruct (Qlt_le_dec lo x) as [L|L]; [exact L|].
      exfalso. assert (((x - lo) / (hi - lo) <= 0)%Q).
      { apply Qle_shift_div_r; lra. } lra. }
    destruct (Qle_bool x lo) eqn:Xlo.
    { apply Qle_bool_iff in Xlo. lra. }
    destruct (Qle_bool 1.0 y) eqn:Yhi.
    + apply Qle_bool_iff in Yhi. rewrite Ey, E1 in Yhi.
      assert (Hh : (hi <= x)%Q).
      { destruct (Qlt_le_dec x hi) as [L|L]; [|exact L].
        exfalso. assert (((x - lo) / (hi - lo) < 1)%Q).
        { apply Qlt_shift_div_r; lra. } lra. }
      apply Qle_bool_iff in Hh. rewrite Hh. rewrite E1. field. lra.
    + apply Qle_bool_false in Yhi. rewrite Ey, E1 in Yhi.
      assert (Hh : (x < hi)%Q).
      { destruct (Qlt_le_dec x hi) as [L|L]; [exact L|].
        exfalso. assert ((1 <= (x - lo) / (hi - lo))%Q).
        { apply Qle_shift_div_l; lra. } lra. }
      destruct (Qle_bool hi x) eqn:Xhi.
      { apply Qle_bool_iff in Xhi. lra. }
      exact Ey.
Qed.

Lemma clip_then_rescale_unit (lo hi x : Q) :
  (lo < hi)%Q -> (0 <= clip_then_rescale lo hi x <= 1)%Q.
Proof.
  intros Hlt. unfold clip_then_rescale, clip_to_range.
  assert (Hpos : (0 < hi - lo)%Q) by lra.
  destruct (Qle_bool x lo) eqn:Xlo.
  - split.
    + apply Qle_shift_div_l; lra.
    + apply Qle_shift_div_r; lra.
  - apply Qle_bool_false in Xlo.
    destruct (Qle_bool hi x) eqn:Xhi.
    + split; [apply Qle_shift_div_l|apply Qle_shift_div_r]; lra.
    + apply Qle_bool_false in Xhi.
      split; [apply Qle_shift_div_l|apply Qle_shift_div_r]; lra.
Qed.

Lemma clip_then_rescale_ends (lo hi x : Q) :
  (lo < hi)%Q ->
  ((x <= lo)%Q -> (clip_then_rescale lo hi x == 0)%Q) /\
  ((hi <= x)%Q -> (clip_then_rescale lo hi x == 1)%Q).
Proof.
  intros Hlt. unfold clip_then_rescale, clip_to_range. split; intros Hx.
  - apply Qle_bool_iff in Hx. rewrite Hx. unfold Qdiv. ring.
  - destruct (Qle_bool x lo) eqn:Xlo; [apply Qle_bool_iff in Xlo; lra|].
    apply Qle_bool_iff in Hx. rewrite Hx. field. lra.
Qed.

Lemma scale_intensity_range_normalised (lo hi x : Q) :
  (lo < hi)%Q -> normalised lo hi x (scale_intensity_range lo hi 0.0 1.0 true x).
Proof.
  intros Hlt. pose proof (scale_intensity_range_spec lo hi x Hlt) as E.
  pose proof (clip_then_rescale_unit lo hi x Hlt) as Hu.
  pose proof (clip_then_rescale_ends lo hi x Hlt) as [H0 H1].
  unfold normalised. rewrite E.
  split; [reflexivity|]. split; [exact Hu|]. split; assumption.
Qed.

Section IntensityFacts.
Context `{MonaiOps}.

(** What the step does to the entry under its key. *)
Lemma scale_intensity_voxels (lo hi : Q) (v : pyobj) (t : Tensor) :
  as_tensor v = Ok t ->
  exists v',
    scale_intensity lo hi 0.0 1.0 true v = Ok v' /\
    as_tensor v'
    = Ok (map_tensor (scale_intensity_range lo hi 0.0 1.0 true) t).
Proof.
  destruct v as [s|t0|t0 m|]; try discriminate; intros [= ->]; cbn; eauto.
Qed.

Lemma built_pipeline_prefix (spacing : list Q) (shape : list Z) (lo hi : Q)
    (axcodes : string) (save : option string) (w0 w1 : World)
    (ts : list Transform) :
  create_monai_preprocessing_pipeline spacing shape lo hi axcodes save w0
  = (Ok ts, w1) ->
  firstn 5 ts
  = firstn 4 ts ++ [ScaleIntensityRanged "image" lo hi 0.0 1.0 true].
Proof.
  unfold create_monai_preprocessing_pipeline. destruct save as [path|].
  - unfold mbind, IO_bind, mkdir. destruct (mkdir_error path); [discriminate|].
    cbn. intros [= <- <-]. reflexivity.
  - cbn. intros [= <- <-]. reflexivity.
Qed.

End IntensityFacts.

(** C5.  The fifth step of every pipeline is the intensity transform with
    the configured bounds, output range [0, 1] and clipping on.  Run after
    the four steps before it, it leaves the shape of the image alone and
    replaces every voxel by its clip to the configured range rescaled
    linearly onto [0, 1]: a voxel at or below the lower bound gives 0, one
    at or above the upper bound gives 1.  With bounds -1000 and 400 a voxel
    at -1000 gives 0.0, one at 400 gives 1.0 and one at -1600 gives 0.0. *)
Theorem intensity_step_clips_and_rescales `{MonaiOps}
    (clip_hu_min clip_hu_max : Q) (target_spacing_xyz : list Q)
    (target_shape_dhw : list Z) (orientation_axcodes : string)
    (save : option string) (w0 w1 : World) (transforms : list Transform) :
  (clip_hu_min < clip_hu_max)%Q ->
  create_monai_preprocessing_pipeline target_spacing_xyz target_shape_dhw
    clip_hu_min clip_hu_max orientation_axcodes save w0 = (Ok transforms, w1) ->
  transforms !! 4%nat
  = Some (ScaleIntensityRanged "image" clip_hu_min clip_hu_max 0.0 1.0 true) /\
  forall d w d4 w4 v t,
    Compose (firstn 4 transforms) d w = (Ok d4, w4) ->
    d4 !! "image" = Some v ->
    as_tensor v = Ok t ->
    exists v' t',
      Compose (firstn 5 transforms) d w = (Ok (<["image" := v']> d4), w4) /\
      as_tensor v' = Ok t' /\
      t_shape t' = t_shape t /\
      length (t_data t') = length (t_data t) /\
      forall i x,
        t_data t !! i = Some x ->
        exists y,
          t_data t' !! i = Some y /\
          normalised clip_hu_min clip_hu_max x y.
Proof.
  intros Hlt Hc. split.
  - revert Hc. unfold create_monai_preprocessing_pipeline.
    destruct save as [path|].
    + unfold mbind, IO_bind, mkdir. destruct (mkdir_error path); [discriminate|].
      cbn. intros [= <- <-]. reflexivity.
    + cbn. intros [= <- <-]. reflexivity.
  - intros d w d4 w4 v t H4 Hv Ht.
    destruct (scale_intensity_voxels clip_hu_min clip_hu_max v t Ht)
      as (v' & Hs & Ht').
    exists v', (map_tensor
                  (scale_intensity_range clip_hu_min clip_hu_max 0.0 1.0 true) t).
    split; [|split; [exact Ht'|split; [reflexivity|split]]].
    + rewrite (built_pipeline_prefix _ _ _ _ _ _ _ _ _ Hc), Compose_app, H4.
      cbn [Compose]. unfold mbind at 1. unfold IO_bind at 1.
      assert (Hstep : apply_transform
                        (ScaleIntensityRanged "image" clip_hu_min clip_hu_max
                           0.0 1.0 true) d4 w4
                      = (Ok (<["image" := v']> d4), w4)).
      { cbn [apply_transform]. rewrite on_key_world. unfold getitem.
        rewrite Hv. cbn. by rewrite Hs. }
      apply run_transform_Ok in Hstep. by rewrite Hstep.
    + cbn. apply length_map.
    + intros i x Hx. cbn [map_tensor t_data]. rewrite list_lookup_fmap.
      change (@lookup nat Q (list Q) _ i (t_data t)) with (t_data t !! i).
      rewrite Hx. cbn. eexists. split; [reflexivity|].
      by apply scale_intensity_range_normalised.
Qed.

Lemma intensity_step_clips_and_rescales_witness :
  let ops := hu_ops in
  let d : gmap string pyobj := {[ "image" := P_str "scan.nii.gz" ]} in
  match create_monai_preprocessing_pipeline [1; 1; 1]%Q [1; 1; 3] (-1000) 400
          "LPS" None empty_world with
  | (Ok transforms, _) =>
      (-1000 < 400)%Q /\
      exists d5 v' t' y0 y1 y2,
        Compose (firstn 5 transforms) d empty_world = (Ok d5, empty_world) /\
        d5 !! "image" = Some v' /\
        as_tensor v' = Ok t' /\
        t_data t' = [y0; y1; y2] /\
        (y0 == 0)%Q /\ (y1 == 1)%Q /\ (y2 == 0)%Q
  | (Raise _, _) => False
  end.
Proof.
  intros ops d.
  assert (Hlt : (-1000 < 400)%Q) by reflexivity.
  destruct (create_monai_preprocessing_pipeline [1; 1; 1]%Q [1; 1; 3] (-1000) 400
              "LPS" None empty_world) as [[ts|e] w1] eqn:E;
    [|vm_compute in E; discriminate E].
  split; [exact Hlt|].
  pose proof (intensity_step_clips_and_rescales (-1000) 400 [1; 1; 1]%Q
                [1; 1; 3] "LPS" None empty_world w1 ts Hlt E) as [_ Hrun].
  cbn in E. injection E as <- <-.
  edestruct (Hrun d empty_world) as (v' & t' & H5 & Ht' & _ & Hlen & Hvox);
    [vm_compute; reflexivity|vm_compute; reflexivity|reflexivity|].
  destruct (Hvox 0%nat (-1000)%Q eq_refl) as (y0 & Hy0 & _ & _ & H0 & _).
  destruct (Hvox 1%nat 400%Q eq_refl) as (y1 & Hy1 & _ & _ & _ & H1).
  destruct (Hvox 2%nat (-1600)%Q eq_refl) as (y2 & Hy2 & _ & _ & H2 & _).
  eexists _, v', t', y0, y1, y2.
  split; [exact H5|]. split; [apply lookup_insert_eq|]. split; [exact Ht'|].
  split.
  - destruct (t_data t') as [|a [|b [|c [|c' l]]]]; try discriminate Hlen.
    cbn in Hy0, Hy1, Hy2. congruence.
  - split; [apply H0; unfold Qle; cbn; lia|].
    split; [apply H1; unfold Qle; cbn; lia|apply H2; unfold Qle; cbn; lia].
Defined.


(** ** Construction: errors and the shape of the result *)

(** X1.  A patch size with a zero edge makes construction raise
    [ZeroDivisionError]: [PatchEmbed3D.__init__] divides the volume size by
    the patch size with [//] before any parameter is allocated. *)
Theorem zero_patch_edge_raises (c : Config) :
  (patch_size c).1.1 = 0 \/ (patch_size c).1.2 = 0 \/ (patch_size c).2 = 0 ->
  VisionTransformer3D_init c = Raise ZeroDivisionError.
Proof.
  intros Hz. apply zero_patch_raises.
  destruct (patch_size c) as [[p0 p1] p2]. exact Hz.
Qed.

Lemma zero_patch_edge_raises_witness :
  VisionTransformer3D_init flat_patch_config = Raise ZeroDivisionError.
Proof.
  apply (zero_patch_edge_raises flat_patch_config). right; left. reflexivity.
Defined.

Section HeadFacts.

Lemma list_comp_Raise {A} (n : nat) (e : exn) :
  list_comp (A := A) (S n) (Raise e) = Raise e.
Proof. reflexivity. Qed.

Lemma MultiHeadAttention3D_init_no_head_dim (dim nh : Z) (qb : bool) (ar dr : Q) :
  nh = 0 \/ dim / nh = 0 ->
  MultiHeadAttention3D_init dim nh qb ar dr = Raise ZeroDivisionError.
Proof.
  intros Hh. unfold MultiHeadAttention3D_init, floordiv.
  destruct (nh =? 0) eqn:E; [reflexivity|].
  apply Z.eqb_neq in E. destruct Hh as [Hh|Hh]; [contradiction|].
  cbn. unfold pow_minus_half. rewrite Hh. reflexivity.
Qed.

End HeadFacts.

(** X2.  With at least one block, [num_heads = 0] or
    [num_heads > embed_dim] makes construction raise [ZeroDivisionError]:
    the first in [dim // num_heads], the second in [head_dim ** -0.5] with
    a head dimension of zero. *)
Theorem too_many_heads_raises (c : Config) :
  (0 < (patch_size c).1.1 /\ 0 < (patch_size c).1.2 /\ 0 < (patch_size c).2) ->
  (0 <= (volume_size c).1.1 /\ 0 <= (volume_size c).1.2 /\ 0 <= (volume_size c).2) ->
  0 <= cfg_in_channels c ->
  (0 <= drop_rate c <= 1)%Q ->
  1 <= depth c ->
  0 <= embed_dim c ->
  num_heads c = 0 \/ embed_dim c < num_heads c ->
  VisionTransformer3D_init c = Raise ZeroDivisionError.
Proof.
  intros (Hp0 & Hp1 & Hp2) (Hv0 & Hv1 & Hv2) Hic Hd Hdepth He Hh.
  unfold VisionTransformer3D_init.
  destruct (volume_size c) as [[v0 v1] v2], (patch_size c) as [[p0 p1] p2].
  cbn [fst snd] in *.
  destruct (PatchEmbed3D_init_valid (v0, v1, v2) (p0, p1, p2)
              (cfg_in_channels c) (embed_dim c)) as (pe & -> & Hpe);
    [assumption..|].
  cbn [fst snd] in Hpe. cbn [mbind result_bind Py.bind].
  assert (0 <= n_patches pe).
  { rewrite Hpe.
    assert (0 <= v0 / p0) by (apply Z.div_pos; lia).
    assert (0 <= v1 / p1) by (apply Z.div_pos; lia).
    assert (0 <= v2 / p2) by (apply Z.div_pos; lia). nia. }
  rewrite (torch_zeros_valid [1; 1; embed_dim c]) by (repeat constructor; lia).
  cbn [mbind result_bind Py.bind].
  rewrite (torch_zeros_valid [1; n_patches pe + 1; embed_dim c])
    by (repeat constructor; lia).
  cbn [mbind result_bind Py.bind].
  rewrite (nn_Dropout_ok _ Hd). cbn [mbind result_bind Py.bind].
  assert (Hblk : TransformerBlock_init (embed_dim c) (num_heads c) (mlp_ratio c)
                   (qkv_bias c) (drop_rate c) (attn_drop_rate c)
                 = Raise ZeroDivisionError).
  { unfold TransformerBlock_init.
    destruct (nn_LayerNorm_valid (embed_dim c) He) as [n1 ->].
    cbn [mbind result_bind Py.bind].
    rewrite MultiHeadAttention3D_init_no_head_dim; [reflexivity|].
    destruct Hh as [Hh|Hh]; [by left|right].
    apply Z.div_small. lia. }
  rewrite Hblk.
  destruct (Z.to_nat (depth c)) as [|n] eqn:En; [lia|].
  rewrite list_comp_Raise. reflexivity.
Qed.

Lemma too_many_heads_raises_witness :
  VisionTransformer3D_init crowded_config = Raise ZeroDivisionError.
Proof.
  apply (too_many_heads_raises crowded_config); cbn;
    try lia; try (split; unfold Qle; cbn; lia).
Defined.

(** X3.  A constructed model has [depth] blocks (none when [depth] is
    negative), and all of them are built alike. *)
Theorem blocks_follow_depth (c : Config) (m : VisionTransformer3D) :
  VisionTransformer3D_init c = Ok m ->
  length (blocks m) = Z.to_nat (depth c) /\
  forall b b', In b (blocks m) -> In b' (blocks m) -> b = b'.
Proof.
  intros Hm. apply init_inv in Hm as (pe & blks & _ & Hall & Hlen & ->).
  cbn [_init_weights visit_modules blocks]. split.
  - by rewrite length_map.
  - intros b b' Hb Hb'.
    apply in_map_iff in Hb as (b0 & <- & Hb0).
    apply in_map_iff in Hb' as (b0' & <- & Hb0').
    rewrite Forall_forall in Hall.
    pose proof (Hall b0 (proj2 (list_elem_of_In _ _) Hb0)) as E.
    pose proof (Hall b0' (proj2 (list_elem_of_In _ _) Hb0')) as E'.
    rewrite E in E'. by injection E' as <-.
Qed.

Lemma blocks_follow_depth_witness :
  exists m,
    VisionTransformer3D_init uneven_heads_config = Ok m /\
    length (blocks m) = 2%nat.
Proof.
  destruct (VisionTransformer3D_init uneven_heads_config) as [m|e] eqn:E.
  - exists m. split; [reflexivity|].
    exact (proj1 (blocks_follow_depth uneven_heads_config m E)).
  - vm_compute in E. discriminate E.
Defined.

(** X4.  With [depth <= 0] no block is built, so [num_heads] is never
    used: construction succeeds whatever [num_heads] is, zero included. *)
Theorem no_blocks_no_head_check (c : Config) :
  (0 < (patch_size c).1.1 /\ 0 < (patch_size c).1.2 /\ 0 < (patch_size c).2) ->
  (0 <= (volume_size c).1.1 /\ 0 <= (volume_size c).1.2 /\ 0 <= (volume_size c).2) ->
  0 <= cfg_in_channels c ->
  0 <= num_classes c ->
  0 <= embed_dim c ->
  (0 <= drop_rate c <= 1)%Q ->
  depth c <= 0 ->
  exists m, VisionTransformer3D_init c = Ok m /\ blocks m = [].
Proof.
  intros (Hp0 & Hp1 & Hp2) (Hv0 & Hv1 & Hv2) Hic Hnc He Hd Hdepth.
  unfold VisionTransformer3D_init.
  destruct (volume_size c) as [[v0 v1] v2], (patch_size c) as [[p0 p1] p2].
  cbn [fst snd] in *.
  destruct (PatchEmbed3D_init_valid (v0, v1, v2) (p0, p1, p2)
              (cfg_in_channels c) (embed_dim c)) as (pe & -> & Hpe);
    [assumption..|].
  cbn [fst snd] in Hpe. cbn [mbind result_bind Py.bind].
  assert (0 <= n_patches pe).
  { rewrite Hpe.
    assert (0 <= v0 / p0) by (apply Z.div_pos; lia).
    assert (0 <= v1 / p1) by (apply Z.div_pos; lia).
    assert (0 <= v2 / p2) by (apply Z.div_pos; lia). nia. }
  rewrite (torch_zeros_valid [1; 1; embed_dim c]) by (repeat constructor; lia).
  cbn [mbind result_bind Py.bind].
  rewrite (torch_zeros_valid [1; n_patches pe + 1; embed_dim c])
    by (repeat constructor; lia).
  cbn [mbind result_bind Py.bind].
  rewrite (nn_Dropout_ok _ Hd). cbn [mbind result_bind Py.bind].
  replace (Z.to_nat (depth c)) with 0%nat by lia.
  cbn [list_comp mbind result_bind Py.bind].
  destruct (nn_LayerNorm_valid _ He) as [nrm ->]. cbn [mbind result_bind Py.bind].
  destruct (nn_Linear_valid (embed_dim c) 256 true He ltac:(lia)) as [h0 ->].
  cbn [mbind result_bind Py.bind].
  rewrite nn_Dropout_ok by (split; unfold Qle; cbn; lia).
  cbn [mbind result_bind Py.bind].
  destruct (nn_Linear_valid 256 (num_classes c) true ltac:(lia) Hnc) as [h3 ->].
  cbn [mbind result_bind Py.bind].
  eexists. split; reflexivity.
Qed.

Lemma no_blocks_no_head_check_witness :
  exists m, VisionTransformer3D_init blockless_config = Ok m /\ blocks m = [].
Proof.
  apply (no_blocks_no_head_check blockless_config); cbn;
    try lia; try (split; unfold Qle; cbn; lia).
Defined.

(** X5.  The number of parameters of a constructed model, read off its
    configuration: the CLS token, the position table, the patch projection,
    [depth] blocks, the final norm and the two linear layers of the head. *)
Theorem parameter_count_closed_form (c : Config) (m : VisionTransformer3D) :
  VisionTransformer3D_init c = Ok m ->
  num_params m
  = embed_dim c
    + (floor_patches c + 1) * embed_dim c
    + (embed_dim c * cfg_in_channels c
       * (patch_size c).1.1 * (patch_size c).1.2 * (patch_size c).2
       + embed_dim c)
    + Z.of_nat (Z.to_nat (depth c)) * block_params c
    + 2 * embed_dim c
    + (256 * embed_dim c + 256)
    + (num_classes c * 256 + num_classes c).
Proof.
  intros Hm. rewrite (num_params_closed_form c m Hm).
  unfold closed_form_params, linear_params.
  destruct (patch_size c) as [[p0 p1] p2]. reflexivity.
Qed.

Lemma parameter_count_closed_form_witness :
  exists m,
    VisionTransformer3D_init uneven_heads_config = Ok m /\
    num_params m = 8 + 9 * 8 + (8 * 4096 + 8) + 2 * (16 + 192 + 72 + 16 + 288 + 264)
                   + 16 + (256 * 8 + 256) + (5 * 256 + 5).
Proof.
  destruct (VisionTransformer3D_init uneven_heads_config) as [m|e] eqn:E.
  - exists m. split; [reflexivity|].
    rewrite (parameter_count_closed_form uneven_heads_config m E). reflexivity.
  - vm_compute in E. discriminate E.
Defined.

(** X6.  Two models that differ only in [num_heads], the dropout rates
    and [use_checkpointing] have the same number of parameters. *)
Theorem parameter_count_ignores_heads_and_dropout (c c' : Config)
    (m m' : VisionTransformer3D) :
  same_sizes c c' ->
  VisionTransformer3D_init c = Ok m ->
  VisionTransformer3D_init c' = Ok m' ->
  num_params m = num_params m'.
Proof.
  intros (Hv & Hp & Hic & Hnc & He & Hd & Hr & Hq) Hm Hm'.
  rewrite (num_params_closed_form c m Hm), (num_params_closed_form c' m' Hm').
  unfold closed_form_params, block_params, floor_patches.
  by rewrite Hv, Hp, Hic, Hnc, He, Hd, Hr, Hq.
Qed.

Lemma parameter_count_ignores_heads_and_dropout_witness :
  exists m m',
    VisionTransformer3D_init uneven_heads_config = Ok m /\
    VisionTransformer3D_init even_heads_config = Ok m' /\
    num_params m = num_params m'.
Proof.
  destruct (VisionTransformer3D_init uneven_heads_config) as [m|e] eqn:E;
    [|vm_compute in E; discriminate E].
  destruct (VisionTransformer3D_init even_heads_config) as [m'|e] eqn:E';
    [|vm_compute in E'; discriminate E'].
  exists m, m'. split; [reflexivity|]. split; [reflexivity|].
  apply (parameter_count_ignores_heads_and_dropout uneven_heads_config
           even_heads_config m m'); [|exact E|exact E'].
  repeat split; reflexivity.
Defined.

Section InitWeightsAgain.

Lemma own_parameters_init_shapes (m : module) :
  map (fun np => (np.1, shape np.2)) (own_parameters (init_module m))
  = map (fun np => (np.1, shape np.2)) (own_parameters m).
Proof. destruct m as [l| | | | |]; try reflexivity. cbn. by destruct (lin_bias l). Qed.

End InitWeightsAgain.

(** X7.  [_init_weights] changes how parameters are filled, never their
    names, their order, their shapes or their number. *)
Theorem init_weights_keeps_names_and_shapes (self : VisionTransformer3D) :
  parameter_shapes (_init_weights self) = parameter_shapes self /\
  num_params (_init_weights self) = num_params self.
Proof.
  split.
  - unfold parameter_shapes, named_parameters.
    rewrite named_modules_init_weights.
    cbn [map fst snd cls_token pos_embed _init_weights visit_modules
         trunc_normal_ shape].
    do 2 f_equal.
    induction (named_modules self) as [|[pre m] ms IH]; [reflexivity|].
    cbn [map concat init_named fst snd]. rewrite !map_app, IH. f_equal.
    rewrite !map_map.
    pose proof (own_parameters_init_shapes m) as E.
    revert E. generalize (own_parameters (init_module m)), (own_parameters m).
    intros l1. induction l1 as [|[n q] l1 IH1]; intros [|[n' q'] l2] E;
      try discriminate; [reflexivity|].
    cbn in E. injection E as -> Hs E. cbn. rewrite Hs. f_equal. by apply IH1.
  - rewrite !num_params_modules, named_modules_init_weights, modules_numel_init.
    reflexivity.
Qed.

Section KeywordFacts.

Lemma preset_lookup (e d h : Z) (r : Q) (nc : Z) (uc : bool) (k : string) :
  k <> "embed_dim" -> k <> "depth" -> k <> "num_heads" -> k <> "mlp_ratio" ->
  preset_kwargs e d h r nc uc !! k
  = (<["num_classes" := K_int nc]>
       (<["use_checkpointing" := K_bool uc]> (∅ : gmap string kwval))) !! k.
Proof.
  intros. unfold preset_kwargs.
  do 4 (rewrite lookup_insert_ne by congruence). reflexivity.
Qed.

Lemma overridden_presets_agree (e d h e' d' h' : Z) (r r' : Q) (nc : Z)
    (uc : bool) (kw : gmap string kwval) :
  is_Some (kw !! "embed_dim") -> is_Some (kw !! "depth") ->
  is_Some (kw !! "num_heads") -> is_Some (kw !! "mlp_ratio") ->
  dict_update (preset_kwargs e d h r nc uc) kw
  = dict_update (preset_kwargs e' d' h' r' nc uc) kw.
Proof.
  intros [v1 H1] [v2 H2] [v3 H3] [v4 H4]. unfold dict_update.
  apply map_eq. intros k. rewrite !lookup_union.
  destruct (kw !! k) as [v|] eqn:Ek.
  { by rewrite !(union_Some_l). }
  assert (k <> "embed_dim") by congruence.
  assert (k <> "depth") by congruence.
  assert (k <> "num_heads") by congruence.
  assert (k <> "mlp_ratio") by congruence.
  by rewrite !preset_lookup.
Qed.

End KeywordFacts.

(** X9.  The keyword arguments override the defaults of a preset: a call
    that passes [embed_dim], [depth], [num_heads] and [mlp_ratio] gets the
    same result from each of the four factories. *)
Theorem presets_agree_when_overridden (nc : Z) (uc : bool)
    (kwargs : gmap string kwval) :
  is_Some (kwargs !! "embed_dim") -> is_Some (kwargs !! "depth") ->
  is_Some (kwargs !! "num_heads") -> is_Some (kwargs !! "mlp_ratio") ->
  vit_tiny_3d nc uc kwargs = vit_small_3d nc uc kwargs /\
  vit_small_3d nc uc kwargs = vit_base_3d nc uc kwargs /\
  vit_base_3d nc uc kwargs = vit_large_3d nc uc kwargs.
Proof.
  intros H1 H2 H3 H4. unfold vit_tiny_3d, vit_small_3d, vit_base_3d, vit_large_3d.
  cbv zeta.
  rewrite (overridden_presets_agree 192 12 3 384 12 6 4.0 4.0 nc uc kwargs)
    by assumption.
  rewrite (overridden_presets_agree 384 12 6 768 12 12 4.0 4.0 nc uc kwargs)
    by assumption.
  rewrite (overridden_presets_agree 768 12 12 1024 24 16 4.0 4.0 nc uc kwargs)
    by assumption.
  done.
Qed.

Lemma presets_agree_when_overridden_witness :
  vit_tiny_3d 5 false full_override = vit_small_3d 5 false full_override /\
  vit_small_3d 5 false full_override = vit_base_3d 5 false full_override /\
  vit_base_3d 5 false full_override = vit_large_3d 5 false full_override.
Proof.
  apply (presets_agree_when_overridden 5 false full_override);
    vm_compute; eauto.
Defined.

Section KeywordErrors.

Lemma call_rejects_unknown (kw : gmap string kwval) (k : string) :
  is_Some (kw !! k) -> ~ In k init_arg_names ->
  VisionTransformer3D_call kw = Raise TypeError.
Proof.
  intros Hk Hn. unfold VisionTransformer3D_call.
  destruct (forallb _ _) eqn:E; [|reflexivity].
  exfalso. rewrite forallb_forall in E.
  assert (Hin : In k (elements (dom kw))).
  { apply list_elem_of_In, elem_of_elements, elem_of_dom, Hk. }
  specialize (E k Hin). apply bool_decide_eq_true_1 in E.
  apply Hn. by apply list_elem_of_In.
Qed.

Lemma update_keeps_keys (d kw : gmap string kwval) (k : string) :
  is_Some (kw !! k) -> is_Some (dict_update d kw !! k).
Proof.
  intros [v Hv]. exists v. unfold dict_update. by apply lookup_union_Some_l.
Qed.

End KeywordErrors.

(** X10.  A keyword that is not an argument of
    [VisionTransformer3D.__init__] makes every factory raise [TypeError]:
    the factories pass their keywords on unchecked. *)
Theorem unknown_keyword_raises (nc : Z) (uc : bool)
    (kwargs : gmap string kwval) (k : string) :
  is_Some (kwargs !! k) ->
  ~ In k init_arg_names ->
  vit_tiny_3d nc uc kwargs = Raise TypeError /\
  vit_small_3d nc uc kwargs = Raise TypeError /\
  vit_base_3d nc uc kwargs = Raise TypeError /\
  vit_large_3d nc uc kwargs = Raise TypeError.
Proof.
  intros Hk Hn. unfold vit_tiny_3d, vit_small_3d, vit_base_3d, vit_large_3d.
  cbv zeta.
  repeat split; apply (call_rejects_unknown _ k);
    try exact Hn; by apply update_keeps_keys.
Qed.

Lemma unknown_keyword_raises_witness :
  vit_tiny_3d 5 false misspelt_override = Raise TypeError /\
  vit_small_3d 5 false misspelt_override = Raise TypeError /\
  vit_base_3d 5 false misspelt_override = Raise TypeError /\
  vit_large_3d 5 false misspelt_override = Raise TypeError.
Proof.
  apply (unknown_keyword_raises 5 false misspelt_override "embed_dims").
  - vm_compute. eauto.
  - cbn. intros H. repeat (destruct H as [H|H]; [discriminate H|]). exact H.
Defined.

(** X12.  In every block of a constructed model the head dimension is
    [embed_dim // num_heads] and is not zero; the heads cover the embedding
    exactly when [num_heads] divides [embed_dim], which construction does
    not ask for. *)
Theorem head_split_floors (c : Config) (m : VisionTransformer3D)
    (b : TransformerBlock) :
  VisionTransformer3D_init c = Ok m ->
  In b (blocks m) ->
  mha_num_heads (blk_attn b) = num_heads c /\
  mha_head_dim (blk_attn b) = embed_dim c / num_heads c /\
  num_heads c <> 0 /\
  mha_head_dim (blk_attn b) <> 0 /\
  (num_heads c * mha_head_dim (blk_attn b) = embed_dim c
   <-> embed_dim c mod num_heads c = 0).
Proof.
  intros Hm Hb. apply init_inv in Hm as (pe & blks & _ & Hall & _ & ->).
  cbn [_init_weights visit_modules blocks] in Hb.
  apply in_map_iff in Hb as (b0 & <- & Hb0).
  rewrite Forall_forall in Hall.
  pose proof (Hall b0 (proj2 (list_elem_of_In _ _) Hb0)) as E.
  assert (Hnz : num_heads c <> 0 /\ embed_dim c / num_heads c <> 0).
  { unfold TransformerBlock_init in E.
    apply bind_Ok in E as (n1 & _ & E). apply bind_Ok in E as (a & Ea & _).
    unfold MultiHeadAttention3D_init in Ea.
    apply bind_Ok in Ea as (hd & Hhd & Ea). apply bind_Ok in Ea as (sc & Hsc & _).
    apply floordiv_inv in Hhd as [Hnh ->]. split; [exact Hnh|].
    unfold pow_minus_half in Hsc.
    destruct (embed_dim c / num_heads c =? 0) eqn:E0; [discriminate|].
    by apply Z.eqb_neq in E0. }
  apply TransformerBlock_init_inv in E. cbv zeta in E. subst b0.
  cbn [visit_TransformerBlock blk_attn visit_MultiHeadAttention3D mha_num_heads
       mha_head_dim].
  destruct Hnz as [Hnh Hhd].
  repeat split; try assumption.
  - intros Hx. apply Z.div_exact; [exact Hnh|]. by symmetry.
  - intros Hx. symmetry. by apply Z.div_exact.
Qed.

Lemma head_split_floors_witness :
  exists m b,
    VisionTransformer3D_init uneven_heads_config = Ok m /\
    In b (blocks m) /\
    mha_num_heads (blk_attn b) = 3 /\
    mha_head_dim (blk_attn b) = 2.
Proof.
  destruct (VisionTransformer3D_init uneven_heads_config) as [m|e] eqn:E;
    [|vm_compute in E; discriminate E].
  destruct (blocks m) as [|b bs] eqn:Eb.
  { vm_compute in E. injection E as <-. discriminate Eb. }
  exists m, b. split; [reflexivity|].
  assert (Hb : In b (blocks m)) by (rewrite Eb; left; reflexivity).
  rewrite Eb in Hb |- *. split; [left; reflexivity|].
  rewrite <- Eb in Hb.
  destruct (head_split_floors uneven_heads_config m b E Hb) as (H1 & H2 & _).
  split; [exact H1|exact H2].
Defined.

(** ** Preprocessing: what is returned and what is touched *)

Section ReturnFacts.

Lemma run_after_pipeline (path : string)
    (pipeline : gmap string pyobj -> IO (gmap string pyobj))
    (target : list Z) (w w1 : World) (d : gmap string pyobj) (v : pyobj)
    (t : Tensor) :
  pipeline {[ "image" := P_str path ]} w = (Ok d, w1) ->
  d !! "image" = Some v ->
  as_tensor v = Ok t ->
  preprocess_ct_volume_monai path pipeline target w
  = match fix_channel_dim path t w1 with
    | (Ok t1, w2) =>
        match shape_mismatch t1 target with
        | Ok true =>
            match Preprocessing.torch_zeros (1 :: target) with
            | Ok z =>
                (Ok z, {| log := log w2 ++ [(ERROR, ShapeMismatch (t_shape t1)
                                                      (1 :: target) path)];
                          dirs := dirs w2; files := files w2 |})
            | Raise e =>
                (_ ← logger ERROR (ProcessingError path e);
                 lift (Preprocessing.torch_zeros (1 :: target)))
                  {| log := log w2 ++ [(ERROR, ShapeMismatch (t_shape t1)
                                                 (1 :: target) path)];
                     dirs := dirs w2; files := files w2 |}
            end
        | Ok false => (Ok t1, w2)
        | Raise e =>
            (_ ← logger ERROR (ProcessingError path e);
             lift (Preprocessing.torch_zeros (1 :: target))) w2
        end
    | (Raise e, w2) =>
        (_ ← logger ERROR (ProcessingError path e);
         lift (Preprocessing.torch_zeros (1 :: target))) w2
    end.
Proof.
  intros Hp Hv Ht. unfold preprocess_ct_volume_monai, try_except.
  unfold mbind at 1. unfold IO_bind at 1. rewrite Hp.
  unfold mbind at 1. unfold IO_bind at 1. unfold lift at 1.
  unfold getitem. rewrite Hv.
  unfold mbind at 1. unfold IO_bind at 1. unfold lift at 1. rewrite Ht.
  unfold mbind at 1. unfold IO_bind at 1.
  destruct (fix_channel_dim path t w1) as [[t1|e] w2]; [|reflexivity].
  unfold mbind at 1. unfold IO_bind at 1. unfold lift at 1.
  destruct (shape_mismatch t1 target) as [[|]|e]; [|reflexivity|reflexivity].
  unfold mbind at 1. unfold IO_bind at 1. unfold logger at 1.
  unfold lift at 1.
  destruct (Preprocessing.torch_zeros (1 :: target)); reflexivity.
Qed.

End ReturnFacts.

(** X13.  A three-dimensional result of the target shape is given a
    leading channel dimension and returned; nothing is logged. *)
Theorem volume_without_channel_is_returned (path : string)
    (pipeline : gmap string pyobj -> IO (gmap string pyobj))
    (target : list Z) (w w1 : World) (d : gmap string pyobj) (v : pyobj)
    (t : Tensor) :
  pipeline {[ "image" := P_str path ]} w = (Ok d, w1) ->
  d !! "image" = Some v ->
  as_tensor v = Ok t ->
  t_shape t = target ->
  length target = 3%nat ->
  preprocess_ct_volume_monai path pipeline target w
  = (Ok {| t_shape := 1 :: target; t_data := t_data t |}, w1).
Proof.
  intros Hp Hv Ht Hs Hl.
  rewrite (run_after_pipeline path pipeline target w w1 d v t Hp Hv Ht).
  unfold fix_channel_dim, ndim. rewrite Hs, Hl.
  change (Z.of_nat 3 =? 3) with true. cbv iota.
  unfold mret, IO_ret, unsqueeze0. rewrite Hs.
  rewrite shape_mismatch_exact by reflexivity. reflexivity.
Qed.

Lemma volume_without_channel_is_returned_witness :
  preprocess_ct_volume_monai "scan.nii.gz"
    (constant_pipeline (P_Tensor bare_volume)) [1; 1; 2] empty_world
  = (Ok {| t_shape := [1; 1; 1; 2]; t_data := [0.25; 0.5]%Q |}, empty_world).
Proof.
  refine (volume_without_channel_is_returned "scan.nii.gz"
            (constant_pipeline (P_Tensor bare_volume)) [1; 1; 2]
            empty_world empty_world
            (<["image" := P_Tensor bare_volume]> {[ "image" := P_str "scan.nii.gz" ]})
            (P_Tensor bare_volume) bare_volume _ _ _ _ _).
  - reflexivity.
  - vm_compute. reflexivity.
  - reflexivity.
  - reflexivity.
  - reflexivity.
Defined.

(** X14.  A result that already has the shape [1 :: target] is returned
    as it is; nothing is logged. *)
Theorem single_channel_volume_is_returned (path : string)
    (pipeline : gmap string pyobj -> IO (gmap string pyobj))
    (target : list Z) (w w1 : World) (d : gmap string pyobj) (v : pyobj)
    (t : Tensor) :
  pipeline {[ "image" := P_str path ]} w = (Ok d, w1) ->
  d !! "image" = Some v ->
  as_tensor v = Ok t ->
  t_shape t = 1 :: target ->
  length target <> 2%nat ->
  preprocess_ct_volume_monai path pipeline target w = (Ok t, w1).
Proof.
  intros Hp Hv Ht Hs Hl.
  rewrite (run_after_pipeline path pipeline target w w1 d v t Hp Hv Ht).
  assert (Hf : fix_channel_dim path t w1 = (Ok t, w1)).
  { unfold fix_channel_dim, ndim, shape0. rewrite Hs. cbn [length].
    replace (Z.of_nat (S (length target)) =? 3) with false
      by (symmetry; apply Z.eqb_neq; lia).
    destruct (Z.of_nat (S (length target)) =? 4); reflexivity. }
  rewrite Hf. by rewrite shape_mismatch_exact.
Qed.

Lemma single_channel_volume_is_returned_witness :
  preprocess_ct_volume_monai "scan.nii.gz"
    (constant_pipeline (P_Tensor channel_volume)) [1; 1; 2] empty_world
  = (Ok channel_volume, empty_world).
Proof.
  refine (single_channel_volume_is_returned "scan.nii.gz"
            (constant_pipeline (P_Tensor channel_volume)) [1; 1; 2]
            empty_world empty_world
            (<["image" := P_Tensor channel_volume]> {[ "image" := P_str "scan.nii.gz" ]})
            (P_Tensor channel_volume) channel_volume _ _ _ _ _).
  - reflexivity.
  - vm_compute. reflexivity.
  - reflexivity.
  - reflexivity.
  - cbn. lia.
Defined.

(** X15.  A target shape of two dimensions is never met: the expected
    shape then has three dimensions, and no tensor leaves the channel fix
    with three, so the call returns the zero tensor whatever the pipeline
    does. *)
Theorem flat_target_is_never_met (path : string)
    (pipeline : gmap string pyobj -> IO (gmap string pyobj))
    (target : list Z) (w : World) :
  length target = 2%nat ->
  Forall (fun d => 0 <= d) target ->
  exists w',
    preprocess_ct_volume_monai path pipeline target w
    = (Ok (zeros_tensor (1 :: target)), w').
Proof.
  intros Hl Ht.
  assert (Hz : Preprocessing.torch_zeros (1 :: target) = Ok (zeros_tensor (1 :: target))).
  { apply torch_zeros_ok. constructor; [lia|exact Ht]. }
  assert (Hh : forall e w0, exists w',
             (_ ← logger ERROR (ProcessingError path e);
              lift (Preprocessing.torch_zeros (1 :: target))) w0
             = (Ok (zeros_tensor (1 :: target)), w')).
  { intros e w0. rewrite handler_result by exact Ht. eauto. }
  destruct (pipeline {[ "image" := P_str path ]} w) as [[d|e] w1] eqn:Hp.
  2:{ unfold preprocess_ct_volume_monai, try_except.
      unfold mbind at 1. unfold IO_bind at 1. rewrite Hp. apply Hh. }
  destruct (d !! "image") as [v|] eqn:Hv.
  2:{ unfold preprocess_ct_volume_monai, try_except.
      unfold mbind at 1. unfold IO_bind at 1. rewrite Hp.
      unfold mbind at 1. unfold IO_bind at 1. unfold lift at 1.
      unfold getitem. rewrite Hv. apply Hh. }
  destruct (as_tensor v) as [t|e] eqn:Hta.
  2:{ unfold preprocess_ct_volume_monai, try_except.
      unfold mbind at 1. unfold IO_bind at 1. rewrite Hp.
      unfold mbind at 1. unfold IO_bind at 1. unfold lift at 1.
      unfold getitem. rewrite Hv.
      unfold mbind at 1. unfold IO_bind at 1. unfold lift at 1. rewrite Hta.
      apply Hh. }
  rewrite (run_after_pipeline path pipeline target w w1 d v t Hp Hv Hta).
  destruct (fix_channel_dim path t w1) as [[t1|e] w2] eqn:Hf; [|apply Hh].
  destruct (shape_mismatch t1 target) as [[|]|e] eqn:Hm; [| |apply Hh].
  - rewrite Hz. eauto.
  - exfalso. apply shape_mismatch_false in Hm.
    (* the fixed tensor has three dimensions, so it came out of unsqueeze *)
    unfold fix_channel_dim, ndim in Hf.
    destruct (Z.of_nat (length (t_shape t)) =? 3) eqn:E3.
    + injection Hf as <- <-. cbn in Hm. injection Hm as Hm.
      apply Z.eqb_eq in E3. rewrite Hm in E3. cbn in E3. lia.
    + destruct (Z.of_nat (length (t_shape t)) =? 4) eqn:E4.
      * apply Z.eqb_eq in E4.
        unfold shape0, select0 in Hf.
        destruct (t_shape t) as [|c rest] eqn:Es; [discriminate E4|].
        unfold mbind, IO_bind, lift, logger, mret, IO_ret in Hf. cbn in Hf.
        destruct (c =? 1) eqn:E1; cbn in Hf.
        { injection Hf as <- <-. rewrite Es in Hm. injection Hm as _ Hm.
          subst rest. cbn in E4. lia. }
        destruct (1 <? c) eqn:E2; cbn in Hf.
        { destruct (c <=? 0); [discriminate Hf|].
          injection Hf as <- <-. cbn in Hm. injection Hm as Hm.
          subst rest. cbn in E4. lia. }
        injection Hf as <- <-. rewrite Es in Hm. injection Hm as _ Hm.
        subst rest. cbn in E4. lia.
      * injection Hf as <- <-. apply Z.eqb_neq in E3.
        rewrite Hm in E3. cbn in E3. lia.
Qed.

Lemma flat_target_is_never_met_witness :
  exists w',
    preprocess_ct_volume_monai "slice.nii.gz"
      (constant_pipeline (P_Tensor bare_volume)) [1; 2] empty_world
    = (Ok (zeros_tensor [1; 1; 2]), w').
Proof.
  apply (flat_target_is_never_met "slice.nii.gz"
           (constant_pipeline (P_Tensor bare_volume)) [1; 2] empty_world).
  - reflexivity.
  - repeat constructor; lia.
Defined.

(** X16.  A four-dimensional result with an empty channel dimension is
    warned about, left as it is by the channel fix, and then replaced by the
    zero tensor after a shape-mismatch error. *)
Theorem empty_channel_dimension_is_rejected (path : string)
    (pipeline : gmap string pyobj -> IO (gmap string pyobj))
    (target : list Z) (w w1 : World) (d : gmap string pyobj) (v : pyobj)
    (t : Tensor) :
  pipeline {[ "image" := P_str path ]} w = (Ok d, w1) ->
  d !! "image" = Some v ->
  as_tensor v = Ok t ->
  t_shape t = 0 :: target ->
  length target = 3%nat ->
  Forall (fun d => 0 <= d) target ->
  preprocess_ct_volume_monai path pipeline target w
  = (Ok (zeros_tensor (1 :: target)),
     {| log := log w1 ++ [(WARNING, UnexpectedChannel path (0 :: target));
                          (ERROR, ShapeMismatch (0 :: target) (1 :: target) path)];
        dirs := dirs w1; files := files w1 |}).
Proof.
  intros Hp Hv Ht Hs Hl Hn.
  rewrite (run_after_pipeline path pipeline target w w1 d v t Hp Hv Ht).
  assert (Hf : fix_channel_dim path t w1
               = (Ok t, {| log := log w1 ++ [(WARNING, UnexpectedChannel path (0 :: target))];
                           dirs := dirs w1; files := files w1 |})).
  { unfold fix_channel_dim, ndim, shape0. rewrite Hs. cbn [length]. rewrite Hl.
    reflexivity. }
  rewrite Hf.
  assert (Hm : shape_mismatch t target = Ok true).
  { unfold shape_mismatch, shape0. rewrite Hs. cbn.
    by rewrite bool_decide_eq_true_2. }
  rewrite Hm, torch_zeros_ok by (constructor; [lia|exact Hn]).
  cbn [log dirs files]. rewrite Hs, <- app_assoc. reflexivity.
Qed.

Lemma empty_channel_dimension_is_rejected_witness :
  preprocess_ct_volume_monai "scan.nii.gz"
    (constant_pipeline (P_Tensor empty_channel_volume)) [1; 1; 2] empty_world
  = (Ok (zeros_tensor [1; 1; 1; 2]),
     {| log := [(WARNING, UnexpectedChannel "scan.nii.gz" [0; 1; 1; 2]);
                (ERROR, ShapeMismatch [0; 1; 1; 2] [1; 1; 1; 2] "scan.nii.gz")];
        dirs := []; files := [] |}).
Proof.
  refine (empty_channel_dimension_is_rejected "scan.nii.gz"
            (constant_pipeline (P_Tensor empty_channel_volume)) [1; 1; 2]
            empty_world empty_world
            (<["image" := P_Tensor empty_channel_volume]>
               {[ "image" := P_str "scan.nii.gz" ]})
            (P_Tensor empty_channel_volume) empty_channel_volume _ _ _ _ _ _).
  - reflexivity.
  - vm_compute. reflexivity.
  - reflexivity.
  - reflexivity.
  - reflexivity.
  - repeat constructor; lia.
Defined.

Section EffectFacts.

Lemma only_logged_refl (w : World) : only_logged 0 w w.
Proof. repeat split. exists []. by rewrite app_nil_r. Qed.

Lemma only_logged_step (n : nat) (w w' : World) (l : level) (m : message) :
  only_logged n w w' ->
  only_logged (S n) w {| log := log w' ++ [(l, m)]; dirs := dirs w'; files := files w' |}.
Proof.
  intros (Hd & Hf & extra & He & Hn). repeat split; [exact Hd|exact Hf|].
  exists (extra ++ [(l, m)]). cbn. rewrite He, <- app_assoc. split; [reflexivity|].
  rewrite length_app. cbn. lia.
Qed.

Lemma only_logged_mono (n k : nat) (w w' : World) :
  (n <= k)%nat -> only_logged n w w' -> only_logged k w w'.
Proof.
  intros Hk (Hd & Hf & extra & He & Hn). repeat split; [exact Hd|exact Hf|].
  exists extra. split; [exact He|lia].
Qed.

Lemma fix_channel_dim_effect (path : string) (t : Tensor) (w : World)
    (r : result Tensor) (w' : World) :
  fix_channel_dim path t w = (r, w') -> only_logged 1 w w'.
Proof.
  unfold fix_channel_dim.
  destruct (ndim t =? 3).
  { intros [= <- <-]. apply (only_logged_mono 0); [lia|apply only_logged_refl]. }
  destruct (ndim t =? 4).
  2:{ intros [= <- <-]. apply (only_logged_mono 0); [lia|apply only_logged_refl]. }
  unfold mbind, IO_bind, lift, logger, mret, IO_ret.
  destruct (shape0 t) as [s0|e].
  2:{ intros [= <- <-]. apply (only_logged_mono 0); [lia|apply only_logged_refl]. }
  destruct (negb (s0 =? 1)).
  2:{ intros [= <- <-]. apply (only_logged_mono 0); [lia|apply only_logged_refl]. }
  destruct (1 <? s0).
  - destruct (select0 t); intros [= <- <-];
      apply only_logged_step, only_logged_refl.
  - intros [= <- <-]. apply only_logged_step, only_logged_refl.
Qed.

End EffectFacts.

(** X17.  After the pipeline has run, [preprocess_ct_volume_monai] adds
    at most two log records and touches neither files nor directories. *)
Theorem preprocessing_only_logs (path : string)
    (pipeline : gmap string pyobj -> IO (gmap string pyobj))
    (target : list Z) (w w1 w' : World) (r1 : result (gmap string pyobj))
    (r : result Tensor) :
  Forall (fun d => 0 <= d) target ->
  pipeline {[ "image" := P_str path ]} w = (r1, w1) ->
  preprocess_ct_volume_monai path pipeline target w = (r, w') ->
  only_logged 2 w1 w'.
Proof.
  intros Hn Hp.
  assert (Hh : forall e w0 r0 w0',
             (_ ← logger ERROR (ProcessingError path e);
              lift (Preprocessing.torch_zeros (1 :: target))) w0 = (r0, w0') ->
             only_logged 1 w0 w0').
  { intros e w0 r0 w0'. rewrite handler_result by exact Hn.
    intros [= <- <-]. apply only_logged_step, only_logged_refl. }
  destruct r1 as [d|e].
  2:{ unfold preprocess_ct_volume_monai, try_except.
      unfold mbind at 1. unfold IO_bind at 1. rewrite Hp.
      intros Hr. apply (only_logged_mono 1); [lia|]. by eapply Hh. }
  destruct (d !! "image") as [v|] eqn:Hv.
  2:{ unfold preprocess_ct_volume_monai, try_except.
      unfold mbind at 1. unfold IO_bind at 1. rewrite Hp.
      unfold mbind at 1. unfold IO_bind at 1. unfold lift at 1.
      unfold getitem. rewrite Hv.
      intros Hr. apply (only_logged_mono 1); [lia|]. by eapply Hh. }
  destruct (as_tensor v) as [t|e] eqn:Hta.
  2:{ unfold preprocess_ct_volume_monai, try_except.
      unfold mbind at 1. unfold IO_bind at 1. rewrite Hp.
      unfold mbind at 1. unfold IO_bind at 1. unfold lift at 1.
      unfold getitem. rewrite Hv.
      unfold mbind at 1. unfold IO_bind at 1. unfold lift at 1. rewrite Hta.
      intros Hr. apply (only_logged_mono 1); [lia|]. by eapply Hh. }
  rewrite (run_after_pipeline path pipeline target w w1 d v t Hp Hv Hta).
  destruct (fix_channel_dim_returns path t w1) as (t1 & w2 & Hf).
  pose proof (fix_channel_dim_effect path t w1 _ _ Hf) as H1.
  rewrite Hf.
  destruct (shape_mismatch t1 target) as [[|]|e].
  - rewrite torch_zeros_ok by (constructor; [lia|exact Hn]).
    intros [= <- <-]. by apply only_logged_step.
  - intros [= <- <-]. apply (only_logged_mono 1); [lia|exact H1].
  - rewrite handler_result by exact Hn.
    intros [= <- <-]. by apply only_logged_step.
Qed.

Lemma preprocessing_only_logs_witness :
  only_logged 2 empty_world
    (preprocess_ct_volume_monai "scan.nii.gz"
       (constant_pipeline (P_Tensor empty_channel_volume)) [1; 1; 2]
       empty_world).2.
Proof.
  refine (preprocessing_only_logs "scan.nii.gz"
            (constant_pipeline (P_Tensor empty_channel_volume)) [1; 1; 2]
            empty_world empty_world _ _ _ _ eq_refl _).
  - repeat constructor; lia.
  - apply surjective_pairing.
Defined.

(** X18.  When the reader cannot load the file, the pipeline built by
    [create_monai_preprocessing_pipeline] stops at its first transform and
    raises [RuntimeError], as [Compose] does for every failing transform:
    the call returns the zero tensor, logs one error that names
    [RuntimeError], and writes nothing, also when a save directory was
    asked for. *)
Theorem unreadable_file_gives_zeros `{MonaiOps}
    (target_spacing_xyz : list Q) (target_shape_dhw : list Z)
    (clip_hu_min clip_hu_max : Q) (orientation_axcodes : string)
    (save : option string) (w0 w1 : World) (transforms : list Transform)
    (nii_path : string) (e : exn) (w : World) :
  create_monai_preprocessing_pipeline target_spacing_xyz target_shape_dhw
    clip_hu_min clip_hu_max orientation_axcodes save w0 = (Ok transforms, w1) ->
  load_image "NibabelReader" nii_path = Raise e ->
  Forall (fun d => 0 <= d) target_shape_dhw ->
  Compose transforms {[ "image" := P_str nii_path ]} w = (Raise RuntimeError, w) /\
  preprocess_ct_volume_monai nii_path (Compose transforms) target_shape_dhw w
  = (Ok (zeros_tensor (1 :: target_shape_dhw)),
     {| log := log w ++ [(ERROR, ProcessingError nii_path RuntimeError)];
        dirs := dirs w; files := files w |}).
Proof.
  intros Hc Hl Hn.
  assert (Hload : forall b1 b2,
             apply_transform (LoadImaged "image" b1 b2 "NibabelReader")
               {[ "image" := P_str nii_path ]} w = (Raise e, w)).
  { intros b1 b2. cbn [apply_transform]. rewrite on_key_world. unfold getitem.
    rewrite lookup_singleton_eq. cbn. by rewrite Hl. }
  assert (Hrun : Compose transforms {[ "image" := P_str nii_path ]} w
                 = (Raise RuntimeError, w)).
  { unfold create_monai_preprocessing_pipeline in Hc.
    destruct save as [path|].
    - unfold mbind, IO_bind, mkdir in Hc.
      destruct (mkdir_error path); [discriminate|].
      cbn in Hc. injection Hc as <- <-.
      match goal with
      | |- context [list_insert ?a ?b ?c] =>
          let l := eval cbv in (list_insert a b c) in
          change (list_insert a b c) with l
      end.
      cbn [Compose]. unfold mbind at 1. unfold IO_bind at 1.
      by rewrite (run_transform_Raise _ _ w w e (Hload _ _)).
    - cbn in Hc. injection Hc as <- <-.
      cbn [Compose]. unfold mbind at 1. unfold IO_bind at 1.
      by rewrite (run_transform_Raise _ _ w w e (Hload _ _)). }
  split; [exact Hrun|].
  unfold preprocess_ct_volume_monai, try_except.
  unfold mbind at 1. unfold IO_bind at 1. rewrite Hrun.
  by rewrite handler_result.
Qed.

Lemma unreadable_file_gives_zeros_witness :
  let ops := unreadable_ops in
  match create_monai_preprocessing_pipeline [1; 1; 1]%Q [1; 1; 2] (-1000) 400
          "LPS" (Some "out") empty_world with
  | (Ok transforms, _) =>
      preprocess_ct_volume_monai "missing.nii.gz" (Compose transforms) [1; 1; 2]
        empty_world
      = (Ok (zeros_tensor [1; 1; 1; 2]),
         {| log := [(ERROR, ProcessingError "missing.nii.gz" RuntimeError)];
            dirs := []; files := [] |})
  | (Raise _, _) => False
  end.
Proof.
  intros ops.
  destruct (create_monai_preprocessing_pipeline [1; 1; 1]%Q [1; 1; 2] (-1000) 400
              "LPS" (Some "out") empty_world) as [[ts|e] w1] eqn:E;
    [|vm_compute in E; discriminate E].
  refine (proj2 (unreadable_file_gives_zeros [1; 1; 1]%Q [1; 1; 2] (-1000) 400
                   "LPS" (Some "out") empty_world w1 ts "missing.nii.gz" OSError
                   empty_world E _ _)).
  - reflexivity.
  - repeat constructor; lia.
Defined.

Section RunFacts.
Context `{MonaiOps}.




End RunFacts.



(** X20.  Building the pipeline logs nothing and writes no file.  Without
    a save directory it always returns seven transforms; with one it makes
    the directory and returns eight, or raises what [mkdir] raised. *)
Theorem pipeline_construction_effects `{MonaiOps}
    (target_spacing_xyz : list Q) (target_shape_dhw : list Z)
    (clip_hu_min clip_hu_max : Q) (orientation_axcodes : string)
    (save : option string) (w w1 : World) (r : result (list Transform)) :
  create_monai_preprocessing_pipeline target_spacing_xyz target_shape_dhw
    clip_hu_min clip_hu_max orientation_axcodes save w = (r, w1) ->
  log w1 = log w /\ files w1 = files w /\
  match save with
  | None => (exists ts, r = Ok ts /\ length ts = 7%nat) /\ dirs w1 = dirs w
  | Some path =>
      match mkdir_error path with
      | Some e => r = Raise e /\ dirs w1 = dirs w
      | None => (exists ts, r = Ok ts /\ length ts = 8%nat) /\
                dirs w1 = dirs w ++ [path]
      end
  end.
Proof.
  unfold create_monai_preprocessing_pipeline. destruct save as [path|].
  - unfold mbind, IO_bind, mkdir. destruct (mkdir_error path).
    + intros [= <- <-]. auto.
    + cbn. intros [= <- <-]. cbn. eauto 10.
  - cbn. intros [= <- <-]. eauto 10.
Qed.

Lemma pipeline_construction_effects_witness :
  let ops := plain_ops in
  dirs (create_monai_preprocessing_pipeline [1; 1; 1]%Q [1; 1; 2] (-1000) 400
          "LPS" (Some "out") empty_world).2 = ["out"].
Proof.
  intros ops.
  destruct (pipeline_construction_effects [1; 1; 1]%Q [1; 1; 2] (-1000) 400 "LPS"
              (Some "out") empty_world
              (create_monai_preprocessing_pipeline [1; 1; 1]%Q [1; 1; 2] (-1000)
                 400 "LPS" (Some "out") empty_world).2
              (create_monai_preprocessing_pipeline [1; 1; 1]%Q [1; 1; 2] (-1000)
                 400 "LPS" (Some "out") empty_world).1
              (surjective_pairing _)) as (_ & _ & _ & Hd).
  exact Hd.
Defined.

(** ** Reporting: JSON conversion, the CSV rows and the summary *)

Module ReportingFacts.
Import Reporting.

(** Induction over values, through lists, dictionaries and tuples. *)
Lemma pyval_induction (P : pyval -> Prop) :
  P V_none -> (forall b, P (V_bool b)) -> (forall z, P (V_int z)) ->
  (forall q, P (V_float q)) -> (forall s, P (V_str s)) ->
  (forall items, Forall P items -> P (V_list items)) ->
  (forall items, Forall (fun kv => P kv.2) items -> P (V_dict items)) ->
  (forall items, Forall P items -> P (V_tuple items)) ->
  (forall z, P (V_np_integer z)) -> (forall q, P (V_np_floating q)) ->
  (forall a, P (V_ndarray a)) -> (forall p, P (V_path p)) ->
  (forall s, P (V_object s)) -> (forall t, P (V_opaque t)) ->
  forall v, P v.
Proof.
  intros Hn Hb Hi Hf Hs Hl Hd Ht Hni Hnf Ha Hp Ho Hq.
  fix IH 1.
  intros [ |b|z|q|s|items|items|items|z|q|a|p|s|t];
    [apply Hn|apply Hb|apply Hi|apply Hf|apply Hs| | | |apply Hni|apply Hnf
    |apply Ha|apply Hp|apply Ho|apply Hq].
  - apply Hl. induction items as [|x items IHl]; constructor; [apply IH|exact IHl].
  - apply Hd. induction items as [|[k x] items IHl]; constructor;
      [apply IH|exact IHl].
  - apply Ht. induction items as [|x items IHl]; constructor; [apply IH|exact IHl].
Qed.

Lemma ndarray_induction (P : ndarray -> Prop) :
  (forall z, P (Nd_int z)) -> (forall q, P (Nd_float q)) ->
  (forall items, Forall P items -> P (Nd_array items)) ->
  forall a, P a.
Proof.
  intros Hi Hf Ha. fix IH 1. intros [z|q|items]; [apply Hi|apply Hf|].
  apply Ha. induction items as [|x items IHl]; constructor; [apply IH|exact IHl].
Qed.

Lemma tolist_plain (a : ndarray) : plain (tolist a) = true.
Proof.
  induction a as [z|q|items IH] using ndarray_induction; try reflexivity.
  cbn. induction IH as [|x items Hx _ IHl]; [reflexivity|].
  cbn. by rewrite Hx, IHl.
Qed.

(** X21.  [convert_item] leaves plain data ([None], booleans, numbers,
    strings, lists and dictionaries of plain data) as it is. *)
Theorem convert_item_fixes_plain (v : pyval) :
  plain v = true -> convert_item v = v.
Proof.
  induction v as [ | | | | |items IH|items IH|items IH| | | | | | ]
    using pyval_induction; try reflexivity; try discriminate.
  - cbn. intros Hp. f_equal.
    induction IH as [|x items Hx _ IHl]; [reflexivity|].
    cbn in Hp. apply andb_prop in Hp as [Hp1 Hp2].
    cbn. by rewrite Hx, IHl.
  - cbn. intros Hp. f_equal.
    induction IH as [|[k x] items Hx _ IHl]; [reflexivity|].
    cbn in Hp. apply andb_prop in Hp as [Hp1 Hp2].
    cbn in *. by rewrite Hx, IHl.
Qed.

(** X22.  The converted value is plain exactly when the value holds no
    opaque object and only plain data inside its tuples: a tuple becomes a
    list, but its elements are not converted. *)
Theorem convert_item_plain_iff (v : pyval) :
  plain (convert_item v) = convertible v.
Proof.
  induction v as [ | | | | |items IH|items IH|items IH| | |a| | | ]
    using pyval_induction; try reflexivity.
  - cbn. induction IH as [|x items Hx _ IHl]; [reflexivity|].
    cbn. by rewrite Hx, IHl.
  - cbn. induction IH as [|[k x] items Hx _ IHl]; [reflexivity|].
    cbn in *. by rewrite Hx, IHl.
  - cbn. apply tolist_plain.
Qed.

Lemma convert_item_fixes_plain_witness :
  convert_item (V_dict [("Best Epoch", V_int 2); ("Shape", V_list [V_int 1; V_int 2])])
  = V_dict [("Best Epoch", V_int 2); ("Shape", V_list [V_int 1; V_int 2])].
Proof.
  apply (convert_item_fixes_plain
           (V_dict [("Best Epoch", V_int 2); ("Shape", V_list [V_int 1; V_int 2])])).
  reflexivity.
Defined.

(** A tuple is turned into a list, its elements are left as they are. *)
Example tuple_elements_are_not_converted :
  convert_item tuple_of_numpy = V_list [V_np_integer 3] /\
  plain (convert_item tuple_of_numpy) = false.
Proof. split; reflexivity. Qed.

Section RowFacts.

Lemma dict_get_set {V} (k k' : string) (v : V) (d : list (string * V)) :
  dict_get (dict_set k v d) k' = if String.eqb k k' then Some v else dict_get d k'.
Proof.
  induction d as [|[k0 v0] d IH]; cbn.
  - reflexivity.
  - destruct (String.eqb k0 k) eqn:E0.
    + apply String.eqb_eq in E0. subst k0. cbn.
      by destruct (String.eqb k k').
    + cbn. destruct (String.eqb k0 k') eqn:E1.
      * apply String.eqb_eq in E1. subst k0. by rewrite String.eqb_sym, E0.
      * exact IH.
Qed.

Lemma dict_get_None {V} (d : list (string * V)) (k : string) :
  ~ In k (map fst d) -> dict_get d k = None.
Proof.
  induction d as [|[k0 v0] d IH]; cbn; [reflexivity|]. intros Hn.
  destruct (String.eqb k0 k) eqn:E.
  - apply String.eqb_eq in E. tauto.
  - apply IH. tauto.
Qed.

(** A metric sets its own column; the other columns keep their value. *)
Lemma row_lookup (m : list (string * number)) (row : list (string * pyval))
    (k : string) :
  NoDup (map fst m) ->
  dict_get (fold_left (fun row kv => dict_set kv.1 (cell_value kv.2) row) m row) k
  = match dict_get m k with
    | Some x => Some (cell_value x)
    | None => dict_get row k
    end.
Proof.
  revert row. induction m as [|[k1 x1] m IH]; intros row Hnd; [reflexivity|].
  apply NoDup_cons in Hnd as [Hk1 Hnd].
  cbn [fold_left fst snd dict_get]. rewrite (IH _ Hnd), dict_get_set.
  destruct (String.eqb k1 k) eqn:E.
  - apply String.eqb_eq in E. subst k1.
    rewrite dict_get_None; [reflexivity|].
    intros Hin. apply Hk1. by apply list_elem_of_In.
  - reflexivity.
Qed.

Lemma metrics_rows_nth (epoch : Z) (tl vl : list Q)
    (ms : list (list (string * number))) (b : Z) (i : nat)
    (row : list (string * pyval)) :
  nth_error (metrics_rows epoch tl vl ms b) i = Some row ->
  exists t v m,
    nth_error tl i = Some t /\ nth_error vl i = Some v /\
    nth_error ms i = Some m /\
    row = metrics_row (epoch + Z.of_nat i) t v m b.
Proof.
  revert epoch tl vl ms. induction i as [|i IH]; intros epoch tl vl ms;
    destruct tl as [|t tl], vl as [|v vl], ms as [|m ms]; try discriminate.
  - cbn. intros [= <-]. rewrite Z.add_0_r. eauto 10.
  - cbn [metrics_rows nth_error]. intros Hr.
    destruct (IH _ _ _ _ Hr) as (t' & v' & m' & H1 & H2 & H3 & ->).
    exists t', v', m'. repeat split; try assumption. f_equal. lia.
Qed.

End RowFacts.

(** X23.  The CSV has one row per epoch for which the training loss, the
    validation loss and the metrics are all recorded: [zip] stops at the
    shortest of the three lists. *)
Theorem csv_has_one_row_per_complete_epoch (history : History) (best : Z) :
  length (metrics_rows 0 (train_loss history) (valid_loss history)
            (metrics history) best)
  = Nat.min (length (train_loss history))
      (Nat.min (length (valid_loss history)) (length (metrics history))).
Proof.
  generalize 0. generalize (train_loss history) as tl,
    (valid_loss history) as vl, (metrics history) as ms.
  induction tl as [|t tl IH]; intros vl ms epoch; [reflexivity|].
  destruct vl as [|v vl]; [reflexivity|].
  destruct ms as [|m ms]; [reflexivity|].
  cbn [metrics_rows length Nat.min]. by rewrite IH.
Qed.

(** X24.  A column of row [i] is the metric of that name of epoch [i]
    when there is one, with numpy numbers turned into floats, and otherwise
    one of [epoch], [train_loss], [valid_loss], [is_best]: a metric named
    like a fixed column replaces it. *)
Theorem csv_row_columns (history : History) (best : Z) (i : nat)
    (row : list (string * pyval)) :
  Forall (fun m => NoDup (map fst m)) (metrics history) ->
  nth_error (metrics_rows 0 (train_loss history) (valid_loss history)
               (metrics history) best) i = Some row ->
  exists t v m,
    nth_error (train_loss history) i = Some t /\
    nth_error (valid_loss history) i = Some v /\
    nth_error (metrics history) i = Some m /\
    forall k,
      dict_get row k
      = match dict_get m k with
        | Some x => Some (cell_value x)
        | None => dict_get (fixed_columns (Z.of_nat i) t v best) k
        end.
Proof.
  intros Hnd Hr.
  destruct (metrics_rows_nth 0 _ _ _ best i row Hr) as (t & v & m & H1 & H2 & H3 & ->).
  exists t, v, m. repeat split; try assumption. intros k.
  unfold metrics_row. rewrite row_lookup.
  - reflexivity.
  - rewrite Forall_forall in Hnd. apply Hnd.
    apply list_elem_of_In. by apply nth_error_In with (n := i).
Qed.

Lemma csv_row_columns_witness :
  exists row,
    nth_error (metrics_rows 0 (train_loss sample_history)
                 (valid_loss sample_history) (metrics sample_history) 1) 1
    = Some row /\
    dict_get row "epoch" = Some (V_int 99) /\
    dict_get row "is_best" = Some (V_bool true) /\
    dict_get row "roc_auc_macro" = Some (V_float 0.7).
Proof.
  eexists. split; [reflexivity|].
  assert (Hnd : Forall (fun m => NoDup (map fst m)) (metrics sample_history)).
  { repeat constructor; cbn; intros Hin;
      repeat match goal with
             | H : _ ∈ _ |- _ => apply list_elem_of_In in H; cbn in H
             end; intuition discriminate. }
  destruct (csv_row_columns sample_history 1 1 _ Hnd eq_refl)
    as (t & v & m & Ht & Hv & Hm & Hk).
  cbn in Ht, Hv, Hm. injection Ht as <-. injection Hv as <-. injection Hm as <-.
  split; [exact (Hk "epoch")|].
  split; [exact (Hk "is_best")|exact (Hk "roc_auc_macro")].
Defined.

Section SummaryFacts.

Lemma py_index_in_range {A} (l : list A) (i : Z) :
  in_range l i ->
  exists x,
    py_index l i = Ok x /\
    nth_error l (Z.to_nat (if i <? 0 then i + Z.of_nat (length l) else i))
    = Some x.
Proof.
  unfold in_range, py_index. intros Hr. cbv zeta.
  set (j := if i <? 0 then i + Z.of_nat (length l) else i).
  assert (Hj : 0 <= j < Z.of_nat (length l)).
  { unfold j. destruct (i <? 0) eqn:E; [apply Z.ltb_lt in E|apply Z.ltb_ge in E];
      lia. }
  replace (0 <=? j) with true by (symmetry; apply Z.leb_le; lia).
  replace (j <? Z.of_nat (length l)) with true by (symmetry; apply Z.ltb_lt; lia).
  cbn. destruct (nth_error l (Z.to_nat j)) as [x|] eqn:E; [eauto|].
  apply nth_error_None in E. lia.
Qed.

Lemma py_index_out_of_range {A} (l : list A) (i : Z) :
  ~ in_range l i -> py_index l i = Raise IndexError.
Proof.
  unfold in_range, py_index. intros Hr. cbv zeta.
  set (j := if i <? 0 then i + Z.of_nat (length l) else i).
  destruct ((0 <=? j) && (j <? Z.of_nat (length l))) eqn:E; [|reflexivity].
  exfalso. apply Hr. apply andb_prop in E as [E1 E2].
  apply Z.leb_le in E1. apply Z.ltb_lt in E2.
  unfold j in *. destruct (i <? 0) eqn:E; [apply Z.ltb_lt in E|apply Z.ltb_ge in E];
    lia.
Qed.

Lemma in_range_dec {A} (l : list A) (i : Z) : {in_range l i} + {~ in_range l i}.
Proof.
  unfold in_range.
  destruct (Z_le_dec (- Z.of_nat (length l)) i);
    [destruct (Z_lt_dec i (Z.of_nat (length l)))|]; [left|right|right]; lia.
Qed.


End SummaryFacts.



(** X26.  In every other case (an empty history, an index out of range)
    building the summary raises [IndexError]. *)
Theorem summary_raises_index_error (history : History) (config : ReportConfig)
    (best : Z) :
  ~ (in_range (metrics history) best /\ in_range (valid_loss history) best /\
     train_loss history <> []) ->
  summary_stats history config best = Raise IndexError.
Proof.
  intros Hn. unfold summary_stats.
  destruct (in_range_dec (metrics history) best) as [Hm|Hm].
  2:{ by rewrite (py_index_out_of_range _ _ Hm). }
  destruct (py_index_in_range _ _ Hm) as (bm & -> & _).
  cbn [mbind result_bind Py.bind].
  destruct (in_range_dec (valid_loss history) best) as [Hv|Hv].
  2:{ by rewrite (py_index_out_of_range _ _ Hv). }
  destruct (py_index_in_range _ _ Hv) as (bv & -> & _).
  cbn [mbind result_bind Py.bind].
  assert (Ht : train_loss history = []).
  { destruct (train_loss history) eqn:E; [reflexivity|].
    exfalso. apply Hn. split; [exact Hm|]. split; [exact Hv|discriminate]. }
  rewrite Ht. reflexivity.
Qed.

Lemma summary_raises_index_error_witness :
  summary_stats empty_history sample_config 0 = Raise IndexError.
Proof.
  apply (summary_raises_index_error empty_history sample_config 0).
  unfold in_range. cbn. lia.
Defined.

Section ReportFacts.
Context `{Library}.

Lemma summary_is_kept (history : History) (config : ReportConfig)
    (best : Z) (summary : list (string * pyval)) :
  summary_stats history config best = Ok summary ->
  convert_item (V_dict summary) = V_dict summary.
Proof.
  unfold summary_stats.
  destruct (py_index (metrics history) best) as [bm|e]; [|discriminate].
  destruct (py_index (valid_loss history) best) as [bv|e]; [|discriminate].
  cbn [mbind result_bind Py.bind].
  destruct (py_index (train_loss history) (-1)) as [ft|e]; [|discriminate].
  destruct (py_index (valid_loss history) (-1)) as [fv|e]; [|discriminate].
  cbn [mbind result_bind Py.bind]. intros [= <-].
  assert (Hi : forall l, map convert_item (map V_int l) = map V_int l).
  { induction l as [|x l IHl]; [reflexivity|]. cbn. by rewrite IHl. }
  assert (Hf : forall l, map convert_item (map V_float l) = map V_float l).
  { induction l as [|x l IHl]; [reflexivity|]. cbn. by rewrite IHl. }
  cbn. destruct (pathologies_columns config), (training config) as [[bs lr]|],
    (image_processing config) as [[sh sp]|]; cbn;
    rewrite ?Hi, ?Hf; reflexivity.
Qed.

Lemma row_is_best (m : list (string * number)) (epoch best : Z) (t v : Q) :
  NoDup (map fst m) -> dict_get m "is_best" = None ->
  dict_get (metrics_row epoch t v m best) "is_best"
  = Some (V_bool (epoch =? best)).
Proof.
  intros Hnd Hk. unfold metrics_row. by rewrite row_lookup, Hk.
Qed.

End ReportFacts.

(** X27.  When the summary is built and the library calls succeed,
    [generate_csv_report] writes the CSV, then the summary as JSON exactly
    as it was built ([safe_json_dump] has nothing to convert in it), and
    logs one line after each. *)
Theorem report_writes_csv_then_summary `{Library} (history : History)
    (config : ReportConfig) (best : Z) (summary : list (string * pyval))
    (w : Disk) :
  let csv_path := joinpath (output_dir config) "training_metrics_detailed.csv" in
  let summary_path := joinpath (output_dir config) "training_summary.json" in
  to_csv_error csv_path = None ->
  open_error summary_path = None ->
  json_error (V_dict summary) = None ->
  summary_stats history config best = Ok summary ->
  generate_csv_report history config best w
  = (Ok tt,
     {| written :=
          written w
          ++ [(csv_path,
               Csv (metrics_rows 0 (train_loss history) (valid_loss history)
                      (metrics history) best));
              (summary_path, Json (V_dict summary))];
        info :=
          info w
          ++ ["Detailed metrics CSV saved to: " +:+ csv_path;
              "Training summary saved to: " +:+ summary_path] |}).
Proof.
  intros csv_path summary_path Hc Ho Hj Hs.
  pose proof (summary_is_kept _ _ _ _ Hs) as Hk.
  unfold generate_csv_report, to_csv, safe_json_dump, logger_info, lift.
  fold csv_path summary_path.
  rewrite Hc, Hs. unfold mbind, IO_bind. cbv beta iota zeta.
  rewrite Hk, Ho, Hj. cbn [written info].
  by rewrite <- !app_assoc.
Qed.

Lemma report_writes_csv_then_summary_witness :
  exists rows summary,
    length rows = 3%nat /\
    dict_get summary "Best Epoch" = Some (V_int 2) /\
    @generate_csv_report sound_library sample_history sample_config 1 empty_disk
    = (Ok tt,
       {| written :=
            [("out/training_metrics_detailed.csv", Csv rows);
             ("out/training_summary.json", Json (V_dict summary))];
          info :=
            ["Detailed metrics CSV saved to: out/training_metrics_detailed.csv";
             "Training summary saved to: out/training_summary.json"] |}).
Proof.
  destruct (summary_stats sample_history sample_config 1) as [summary|e] eqn:E;
    [|vm_compute in E; discriminate E].
  eexists _, summary.
  split; [|split;
    [|exact (@report_writes_csv_then_summary sound_library sample_history
                sample_config 1 summary empty_disk eq_refl eq_refl eq_refl E)]].
  - reflexivity.
  - vm_compute in E. injection E as <-. reflexivity.
Defined.

(** X28.  When building the summary raises, the exception leaves
    [generate_csv_report] after the CSV was written and logged: the CSV
    stays, no JSON file is opened. *)
Theorem summary_failure_leaves_csv `{Library} (history : History)
    (config : ReportConfig) (best : Z) (e : exn) (w : Disk) :
  let csv_path := joinpath (output_dir config) "training_metrics_detailed.csv" in
  to_csv_error csv_path = None ->
  summary_stats history config best = Raise e ->
  generate_csv_report history config best w
  = (Raise e,
     {| written :=
          written w
          ++ [(csv_path,
               Csv (metrics_rows 0 (train_loss history) (valid_loss history)
                      (metrics history) best))];
        info := info w ++ ["Detailed metrics CSV saved to: " +:+ csv_path] |}).
Proof.
  intros csv_path Hc Hs.
  unfold generate_csv_report, to_csv, safe_json_dump, logger_info, lift.
  fold csv_path.
  rewrite Hc, Hs. reflexivity.
Qed.

Lemma summary_failure_leaves_csv_witness :
  @generate_csv_report sound_library empty_history sample_config 0 empty_disk
  = (Raise IndexError,
     {| written := [("out/training_metrics_detailed.csv", Csv [])];
        info :=
          ["Detailed metrics CSV saved to: out/training_metrics_detailed.csv"] |}).
Proof.
  exact (@summary_failure_leaves_csv sound_library empty_history sample_config 0
           IndexError empty_disk eq_refl eq_refl).
Defined.

(** X29.  A negative best epoch index marks no row of the CSV as best
    (the rows are numbered from zero), although the summary accepts it as
    an index from the end. *)
Theorem negative_best_index_marks_no_row (history : History) (best : Z)
    (i : nat) (row : list (string * pyval)) :
  best < 0 ->
  Forall (fun m => NoDup (map fst m) /\ dict_get m "is_best" = None)
    (metrics history) ->
  nth_error (metrics_rows 0 (train_loss history) (valid_loss history)
               (metrics history) best) i = Some row ->
  dict_get row "is_best" = Some (V_bool false).
Proof.
  intros Hb Hm Hr.
  destruct (metrics_rows_nth 0 _ _ _ best i row Hr) as (t & v & m & _ & _ & H3 & ->).
  rewrite Forall_forall in Hm.
  destruct (Hm m) as [Hnd Hk].
  { apply list_elem_of_In. by apply nth_error_In with (n := i). }
  rewrite (row_is_best m _ best t v Hnd Hk). do 2 f_equal.
  apply Z.eqb_neq. lia.
Qed.

Lemma negative_best_index_marks_no_row_witness :
  exists row,
    nth_error (metrics_rows 0 (train_loss sample_history)
                 (valid_loss sample_history) (metrics sample_history) (-2)) 1
    = Some row /\
    dict_get row "is_best" = Some (V_bool false).
Proof.
  eexists. split; [reflexivity|].
  apply (negative_best_index_marks_no_row sample_history (-2) 1);
    [lia| |reflexivity].
  repeat constructor; cbn; intros Hin;
    repeat match goal with
           | H : _ ∈ _ |- _ => apply list_elem_of_In in H; cbn in H
           end; intuition discriminate.
Defined.

End ReportingFacts.
